(** * dnSERV cogs: the star gating engine and the house-roles record cache

    A shallow embedding of [StarsControl] (the reaction gating engine of the
    starring cog) and of [HouseRolesDBController.getRecord], with the
    properties of their specification stated over it.

    Conventions of the embedding:
    - an [async] function is a computation in the monad [M W]: a state
      transformer over the world [W] that either returns or throws;
      [await] is the monad's bind, and a promise that is never awaited is a
      computation whose result is never observed (only its truthiness as
      an object is);
    - a JavaScript object used as a dictionary and enumerated with
      [for ... in] is the list of its own properties in creation order,
      enumerated in the order of the language (array indices first);
    - a JavaScript number is an IEEE 754 binary64 value, Rocq's primitive
      [float], and the arithmetic on numbers is the arithmetic of floats;
      where the code only counts or does bit arithmetic (milliseconds of the
      clock, flags) the number is an integer ([Z]);
    - object identity is an allocation stamp. *)

From Stdlib Require Import String Ascii List ZArith NArith Bool Lia.
From Stdlib Require Import Floats.
From stdpp Require Import base option gmap strings.
Import ListNotations.

Local Open Scope string_scope.
Local Open Scope list_scope.

(** ** JavaScript values, results and effects *)

Module Js.

(** What an [async] function settles to: a value, or a thrown error. *)
Inductive Result (A : Type) : Type :=
| Ok (a : A)
| Throw (e : string).
Arguments Ok {A} a.
Arguments Throw {A} e.

(** A computation over the world [W]. *)
Definition M (W A : Type) : Type := W -> Result A * W.

Definition ret {W A} (a : A) : M W A := fun w => (Ok a, w).

Definition bind {W A B} (m : M W A) (k : A -> M W B) : M W B :=
  fun w => match m w with
           | (Ok a, w') => k a w'
           | (Throw e, w') => (Throw e, w')
           end.

Definition throw {W A} (e : string) : M W A := fun w => (Throw e, w).

(** [try { body } catch (err) { handler }] *)
Definition tryCatch {W A} (body : M W A) (handler : string -> M W A) : M W A :=
  fun w => match body w with
           | (Ok a, w') => (Ok a, w')
           | (Throw e, w') => handler e w'
           end.

Definition gets {W A} (f : W -> A) : M W A := fun w => (Ok (f w), w).
Definition modify {W} (f : W -> W) : M W unit := fun w => (Ok tt, f w).

(** A pure step that may throw, run inside a computation. *)
Definition lift {W A} (r : Result A) : M W A := fun w => (r, w).

#[export] Instance M_ret {W} : MRet (M W) := @ret W.
#[export] Instance M_bind {W} : MBind (M W) := fun A B k m => bind m k.

(** The values a gating step returns: [boolean | string]. *)
Inductive Detail : Type :=
| VBool (b : bool)
| VStr (s : string).

Definition strTruthy (s : string) : bool :=
  match s with EmptyString => false | String _ _ => true end.

(** [ToBoolean]: [false] and the empty string are falsy. *)
Definition truthy (v : Detail) : bool :=
  match v with
  | VBool b => b
  | VStr s => strTruthy s
  end.

(** Every object is truthy, a pending promise included. *)
Definition objectTruthy {A} (_ : A) : bool := true.

(** [s.slice(n)] for [0 <= n]: the string without its first [n] characters. *)
Fixpoint slice (n : nat) (s : string) : string :=
  match n, s with
  | O, _ => s
  | S n', String _ s' => slice n' s'
  | S _, EmptyString => EmptyString
  end.

(** [s.startsWith(search)] *)
Definition startsWith (s search : string) : bool := String.prefix search s.

(** [s.endsWith(search)] *)
Definition endsWith (s search : string) : bool :=
  (String.length search <=? String.length s)%nat
  && String.eqb (slice (String.length s - String.length search) s) search.

(** [s.includes(search)] *)
Definition includes (s search : string) : bool :=
  match String.index 0 search s with Some _ => true | None => false end.

(** *** Objects as dictionaries *)

(** The own properties of an object, in the order they were created. *)
Definition JsObject (V : Type) : Type := list (string * V).

(** [Object.create(null)] *)
Definition create {V} : JsObject V := [].

(** [o[k] = v]: an existing property keeps its place. *)
Fixpoint set {V} (o : JsObject V) (k : string) (v : V) : JsObject V :=
  match o with
  | [] => [(k, v)]
  | (k', v') :: o' => if String.eqb k k' then (k, v) :: o' else (k', v') :: set o' k v
  end.

Definition keys {V} (o : JsObject V) : list string := map fst o.

Definition isDigit (a : ascii) : bool :=
  let n := N_of_ascii a in ((48 <=? n) && (n <=? 57))%N.

Fixpoint digitsValue (s : string) (acc : N) : option N :=
  match s with
  | EmptyString => Some acc
  | String a s' =>
      if isDigit a then digitsValue s' (acc * 10 + (N_of_ascii a - 48))%N else None
  end.

(** A property name is an array index when it is the canonical decimal
    numeral of an integer below [2^32 - 1]. *)
Definition arrayIndex (k : string) : option N :=
  match k with
  | EmptyString => None
  | String a rest =>
      if Ascii.eqb a "0"
      then match rest with EmptyString => Some 0%N | _ => None end
      else match digitsValue k 0 with
           | Some n => if (n <? 4294967295)%N then Some n else None
           | None => None
           end
  end.

Definition isArrayIndex (k : string) : bool :=
  match arrayIndex k with Some _ => true | None => false end.

(** Insertion of an indexed property among those already sorted. *)
Fixpoint insertIndexed {V} (n : N) (p : string * V) (l : list (N * (string * V)))
  : list (N * (string * V)) :=
  match l with
  | [] => [(n, p)]
  | (m, q) :: l' => if (n <? m)%N then (n, p) :: l else (m, q) :: insertIndexed n p l'
  end.

Fixpoint indexedProps {V} (o : JsObject V) : list (N * (string * V)) :=
  match o with
  | [] => []
  | (k, v) :: o' =>
      match arrayIndex k with
      | Some n => insertIndexed n (k, v) (indexedProps o')
      | None => indexedProps o'
      end
  end.

Definition namedProps {V} (o : JsObject V) : JsObject V :=
  List.filter (fun p => negb (isArrayIndex (fst p))) o.

(** The properties [for (const name in o)] visits, in order: the array
    indices in ascending numeric order, then the other names in creation
    order. *)
Definition forIn {V} (o : JsObject V) : list (string * V) :=
  map snd (indexedProps o) ++ namedProps o.

End Js.

(** ** The starring cog *)

Module StarsControl.
Import Js.

(** *** Platform data (discord.js), as far as the cog reads it *)

Record User : Type := {
  userId : string;      (* user.id *)
  username : string;    (* user.username, the current handle *)
  tag : string;         (* user.tag *)
  bot : bool            (* user.bot *)
}.

(** [GuildMember | User]: what sender resolution and [member || user] yield. *)
Inductive Sender : Type :=
| AsMember (u : User)
| AsUser (u : User).

(** [sender instanceof GuildMember ? sender.user : sender] *)
Definition senderUser (s : Sender) : User :=
  match s with AsMember u => u | AsUser u => u end.

Record Guild : Type := {
  guildIdOf : string;               (* guild.id *)
  members : list (string * User)    (* guild.members, by user id *)
}.

Record Message : Type := {
  messageId : string;
  channelId : string;               (* msg.channel.id *)
  guild : option Guild;             (* msg.guild *)
  content : string;
  createdAt : Z;                    (* msg.createdAt, in ms *)
  webhookID : option string         (* msg.webhookID *)
}.

Record MessageReaction : Type := {
  emojiName : string;               (* reaction.emoji.name *)
  message : Message
}.

Record IAddedReaction : Type := {
  reaction : MessageReaction;
  user : User
}.

(** *** Configuration *)

(** [ContentDisqualifyCondition]: a position word and the text to find. *)
Definition ContentDisqualifyCondition : Type := (string * string)%type.

Record IMessageDisqualification : Type := {
  authors : option (list string);
  channels : option (list string);
  content_ : option ContentDisqualifyCondition;
  aged : option float;
  reason : option string
}.

Record IStarControlSettings : Type := {
  guildId : string;
  badStars : option (list IMessageDisqualification);
  selfStarring : option bool;
  starEmoji : option string;
  blockedStarrers : option (list string)
}.

Definition DAY_IN_MINUTES : float := 1440.
Definition STAR_REACTION : string := "⭐".

(** *** The world the cog acts on *)

(** A compiled pattern: its source and the stamp of its allocation. *)
Record RegExp : Type := {
  stamp : nat;
  source : string
}.

Record LogEntry : Type := {
  level : string;
  text : string
}.

(** A request made to the platform. *)
Inductive Request : Type :=
| RemoveReaction (messageId userId : string)
| DirectMessage (userId embed : string).

Record World : Type := {
  clock : Z;                              (* Date.now() *)
  REGEX_CACHE : gmap string RegExp;
  allocated : nat;                        (* objects allocated so far *)
  starredBy : gmap string (list string);  (* reaction.users, by message id *)
  mayRetract : bool;                      (* can the bot remove reactions *)
  closedInbox : list string;              (* users that cannot be messaged *)
  outbox : list (string * string);        (* direct messages delivered *)
  requests : list Request;                (* requests made, oldest first *)
  logged : list LogEntry
}.

Definition withCache (f : gmap string RegExp -> gmap string RegExp) (w : World) : World :=
  {| clock := clock w; REGEX_CACHE := f (REGEX_CACHE w); allocated := allocated w;
     starredBy := starredBy w; mayRetract := mayRetract w;
     closedInbox := closedInbox w; outbox := outbox w; requests := requests w;
     logged := logged w |}.

Definition withAllocated (n : nat) (w : World) : World :=
  {| clock := clock w; REGEX_CACHE := REGEX_CACHE w; allocated := n;
     starredBy := starredBy w; mayRetract := mayRetract w;
     closedInbox := closedInbox w; outbox := outbox w; requests := requests w;
     logged := logged w |}.

Definition withStarredBy (f : gmap string (list string) -> gmap string (list string))
  (w : World) : World :=
  {| clock := clock w; REGEX_CACHE := REGEX_CACHE w; allocated := allocated w;
     starredBy := f (starredBy w); mayRetract := mayRetract w;
     closedInbox := closedInbox w; outbox := outbox w; requests := requests w;
     logged := logged w |}.

Definition withOutbox (o : list (string * string)) (w : World) : World :=
  {| clock := clock w; REGEX_CACHE := REGEX_CACHE w; allocated := allocated w;
     starredBy := starredBy w; mayRetract := mayRetract w;
     closedInbox := closedInbox w; outbox := o; requests := requests w;
     logged := logged w |}.

Definition withRequests (r : list Request) (w : World) : World :=
  {| clock := clock w; REGEX_CACHE := REGEX_CACHE w; allocated := allocated w;
     starredBy := starredBy w; mayRetract := mayRetract w;
     closedInbox := closedInbox w; outbox := outbox w; requests := r;
     logged := logged w |}.

Definition withLogged (l : list LogEntry) (w : World) : World :=
  {| clock := clock w; REGEX_CACHE := REGEX_CACHE w; allocated := allocated w;
     starredBy := starredBy w; mayRetract := mayRetract w;
     closedInbox := closedInbox w; outbox := outbox w; requests := requests w;
     logged := l |}.

(** [StarsControl._log(level, text)] *)
Definition _log (lvl txt : string) : M World unit :=
  modify (fun w => withLogged (logged w ++ [{| level := lvl; text := txt |}]) w).

(** *** The any-of combinator *)

Section AnyOf.

Context {W T R : Type}.
(** [ToBoolean] on the result type. *)
Variable toBoolean : R -> bool.

Definition AnyOfChecker : Type := T -> M W R.
Definition CalledMap : Type := JsObject AnyOfChecker.
Definition AnyOfResult : Type := T -> M W (option (string * R)).

(** The body of the [for ... in] loop over the properties still to visit. *)
Fixpoint anyOfLoop (props : list (string * AnyOfChecker)) (how : option (R -> bool))
  (args : T) : M W (option (string * R)) :=
  match props with
  | [] => mret None
  | (name, func) :: rest =>
      res ← func args;
      match how with
      | None => if toBoolean res then mret (Some (name, res)) else anyOfLoop rest how args
      | Some h => if h res then mret (Some (name, res)) else anyOfLoop rest how args
      end
  end.

Definition calledAnyOf (functions : CalledMap) (how : option (R -> bool)) : AnyOfResult :=
  fun args => anyOfLoop (forIn functions) how args.

End AnyOf.

(** *** The regex cache *)

Section Cog.

(** Collaborators of the cog that live outside it. *)

(** Does [new RegExp(str)] accept the source? It throws a SyntaxError otherwise. *)
Variable regexSyntaxOk : string -> bool.
(** [re.test(input)], by the pattern's source. *)
Variable regexTest : string -> string -> bool.
(** [timeDiff(a, b, unit)] of the time utilities. *)
Variable timeDiff : Z -> Z -> string -> float.
(** [getMessageMember(msg)] of the bot's utilities: the member that sent
    the message, when there is one. *)
Variable getMessageMember : Message -> M World (option User).
(** [getMessageMemberOrAuthor(msg)] of the bot's utilities. *)
Variable getMessageMemberOrAuthor : Message -> M World (option Sender).
(** [localizeForUser(user, key, params)]; the only parameter passed is [reason]. *)
Variable localizeForUser : Sender -> string -> option string -> Result string.
(** [generateLocalizedEmbed(EmbedType.Warning, user, text)]; the text is a
    localization key ([inl]) or a custom string ([inr]). *)
Variable generateLocalizedEmbed : Sender -> string + string -> Result string.

(** [new RegExp(str)] *)
Definition newRegExp (str : string) : M World RegExp :=
  fun w =>
    if regexSyntaxOk str
    then (Ok {| stamp := allocated w; source := str |}, withAllocated (S (allocated w)) w)
    else (Throw "SyntaxError", w).

Definition regExp (str : string) : M World RegExp :=
  cached ← gets (fun w => REGEX_CACHE w !! str);
  match cached with
  | Some re => mret re
  | None =>
      re ← newRegExp str;
      modify (withCache (insert str re));;
      mret re
  end.

(** *** Blocked starrers *)

Fixpoint _starredBy (user : User) (starrers : list string) : M World bool :=
  match starrers with
  | [] => mret false
  | starrer :: rest =>
      if String.eqb starrer "$bots" then
        if bot user then mret true else _starredBy user rest
      else if startsWith starrer "$username:" then
        let username' := slice (String.length "$username") starrer in
        if String.eqb (username user) username' then mret true else _starredBy user rest
      else if startsWith starrer "$username_reg:" then
        let reg := slice (String.length "$username_reg:") starrer in
        re ← regExp reg;
        if regexTest (source re) (username user) then mret true else _starredBy user rest
      else
        if String.eqb (userId user) starrer then mret true else _starredBy user rest
  end.

Definition _handleBlockedStarrers (settings : IStarControlSettings)
  (toCheck : IAddedReaction) : M World Detail :=
  match blockedStarrers settings with
  | None => mret (VBool false)
  | Some starrers =>
      blocked ← _starredBy (user toCheck) starrers;
      if (blocked : bool) then mret (VBool true) else mret (VBool false)
  end.

(** *** Disqualification *)

Definition _minutesSinceSent (msg : Message) : M World float :=
  now ← gets clock;
  let passed := timeDiff now (createdAt msg) "s" in
  mret (passed / 60)%float.

(** [a < b] on numbers: false when either is NaN. *)
Definition numLt (a b : float) : bool := (a <? b)%float.

Definition _contentMatch (content : string) (cond : ContentDisqualifyCondition)
  : M World bool :=
  let pos := fst cond in
  let match_ := snd cond in
  if (String.eqb pos "equal" && String.eqb content match_)
     || (String.eqb pos "includes" && includes content match_)
     || (String.eqb pos "starts" && startsWith content match_)
     || (String.eqb pos "ends" && endsWith content match_)
  then mret true
  else mret false.

Fixpoint authoredByLoop (msg : Message) (sender : option User) (authors : list string)
  : bool :=
  match authors with
  | [] => false
  | author :: rest =>
      if String.eqb author "$bots" then
        match sender with
        | Some s => if bot s then true else authoredByLoop msg sender rest
        | None => authoredByLoop msg sender rest
        end
      else if String.eqb author "$hooks" then
        match webhookID msg with
        | Some h => if strTruthy h then true else authoredByLoop msg sender rest
        | None => authoredByLoop msg sender rest
        end
      else if startsWith author "$hook:" then
        let hookId := slice (String.length "$hook:") author in
        match webhookID msg with
        | Some h => if String.eqb h hookId then true else authoredByLoop msg sender rest
        | None => authoredByLoop msg sender rest
        end
      else
        match sender with
        | Some s => if String.eqb (userId s) author then true
                    else authoredByLoop msg sender rest
        | None => authoredByLoop msg sender rest
        end
  end.

Definition _authoredBy (msg : Message) (authors : list string) : M World bool :=
  sender ← getMessageMemberOrAuthor msg;
  let sender := option_map senderUser sender in
  mret (authoredByLoop msg sender authors).

Definition _isDisqualified (reaction : MessageReaction) (disqual : IMessageDisqualification)
  : M World bool :=
  let msg := message reaction in
  tooYoung ←
    match aged disqual with
    | Some aged =>
        minsSince ← _minutesSinceSent msg;
        mret (numLt minsSince aged)
    | None => mret false
    end;
  if (tooYoung : bool) then mret false else
  let elsewhere :=
    match channels disqual with
    | Some channels => negb (existsb (String.eqb (channelId msg)) channels)
    | None => false
    end in
  if elsewhere then mret false else
  byOthers ←
    match authors disqual with
    | Some authors =>
        isAuthored ← _authoredBy msg authors;
        mret (negb isAuthored)
    | None => mret false
    end;
  if (byOthers : bool) then mret false else
  let mismatch :=
    match content_ disqual with
    | Some cond =>
        (* not awaited: [isMatches] is the promise itself *)
        let isMatches := _contentMatch (content msg) cond in
        negb (objectTruthy isMatches)
    | None => false
    end in
  if mismatch then mret false else
  mret true.

(** [disqual.reason || true] *)
Definition reasonOrTrue (disqual : IMessageDisqualification) : Detail :=
  match reason disqual with
  | Some r => if strTruthy r then VStr r else VBool true
  | None => VBool true
  end.

Fixpoint disqualifyLoop (reaction : MessageReaction)
  (disquals : list IMessageDisqualification) : M World Detail :=
  match disquals with
  | [] => mret (VBool false)
  | disqual :: rest =>
      disqualify ← _isDisqualified reaction disqual;
      if (disqualify : bool) then mret (reasonOrTrue disqual) else disqualifyLoop reaction rest
  end.

Definition _handleDisqualify (settings : IStarControlSettings) (toCheck : IAddedReaction)
  : M World Detail :=
  match badStars settings with
  | None => mret (VBool false)
  | Some disquals => disqualifyLoop (reaction toCheck) disquals
  end.

(** *** Self-starring *)

(** Users are cached by the client, one object per account: two [User]
    references are the same object exactly when their ids agree. *)
Definition sameUser (a b : User) : bool := String.eqb (userId a) (userId b).

Definition _handleSelfStar (settings : IStarControlSettings) (toCheck : IAddedReaction)
  : M World Detail :=
  match selfStarring settings with
  | Some true =>
      poster ← getMessageMember (message (reaction toCheck));
      match poster with
      | Some posterUser =>
          if negb (sameUser posterUser (user toCheck)) then mret (VBool false)
          else mret (VBool true)
      | None => mret (VBool false)
      end
  | _ => mret (VBool false)
  end.

(** *** Compilation of the gating pipeline *)

Definition ReactionChecks : Type := JsObject (IAddedReaction -> M World Detail).

(** The mapping [init] fills before it hands it to [calledAnyOf]. An array
    is truthy, even when empty; [undefined] and [false] are not. *)
Definition disqualificationSteps (settings : IStarControlSettings) : ReactionChecks :=
  let steps := create in
  let steps :=
    match blockedStarrers settings with
    | Some _ => set steps "USER-BLOCK" (fun toCheck => _handleBlockedStarrers settings toCheck)
    | None => steps
    end in
  let steps :=
    match badStars settings with
    | Some _ => set steps "FILTER" (fun toCheck => _handleDisqualify settings toCheck)
    | None => steps
    end in
  let steps :=
    match selfStarring settings with
    | Some true => set steps "SELF-STAR" (fun toCheck => _handleSelfStar settings toCheck)
    | _ => steps
    end in
  steps.

(** The configuration as the loader hands it over, defaults filled in. *)
Definition _initConfig (cfg : option IStarControlSettings) : Result IStarControlSettings :=
  match cfg with
  | None => Throw "No configuration file found. An example config created"
  | Some cfg =>
      if negb (strTruthy (guildId cfg)) then Throw "Guild ID must be provided in config"
      else Ok {|
        guildId := guildId cfg;
        starEmoji := match starEmoji cfg with Some e => Some e | None => Some STAR_REACTION end;
        selfStarring := match selfStarring cfg with Some b => Some b | None => Some true end;
        blockedStarrers :=
          match blockedStarrers cfg with Some l => Some l | None => Some ["$bots"] end;
        badStars :=
          match badStars cfg with
          | Some l => Some l
          | None => Some [
              {| authors := Some ["$bots"; "$hooks"]; channels := None; content_ := None;
                 aged := None; reason := None |};
              {| authors := None; channels := None; content_ := None;
                 aged := Some DAY_IN_MINUTES; reason := None |} ]
          end
      |}
  end.

(** The fields of the module that [init] sets. *)
Record Instance_ : Type := {
  _settings : IStarControlSettings;
  _compiledDisqualificationProcess : option (IAddedReaction -> M World (option (string * Detail)))
}.

Definition init (cfg : option IStarControlSettings) : Result Instance_ :=
  match _initConfig cfg with
  | Throw e => Throw e
  | Ok settings =>
      Ok {| _settings := settings;
            _compiledDisqualificationProcess :=
              Some (calledAnyOf truthy (disqualificationSteps settings) None) |}
  end.

(** *** Censure *)

(** [reaction.users.remove(user)] *)
Definition usersRemove (reaction : MessageReaction) (user : User) : M World unit :=
  fun w =>
    let mid := messageId (message reaction) in
    let w := withRequests (requests w ++ [RemoveReaction mid (userId user)]) w in
    if mayRetract w
    then (Ok tt,
          withStarredBy
            (alter (List.filter (fun u => negb (String.eqb u (userId user)))) mid) w)
    else (Throw "Missing Permissions", w).

Definition _removeReaction (reaction : MessageReaction) (user : User) : M World unit :=
  _log "info"
    ("Remove reaction of " ++ emojiName reaction ++ " by " ++ tag user
     ++ " on message " ++ messageId (message reaction))%string;;
  usersRemove reaction user.

Definition getAutoReasonStr (autoReason : string) : string :=
  ("DNSERV_STAR_BLOCKED@" ++ autoReason)%string.

(** [user.send({ embed })] *)
Definition send (to : Sender) (embed : string) : M World unit :=
  fun w =>
    let uid := userId (senderUser to) in
    let w := withRequests (requests w ++ [DirectMessage uid embed]) w in
    if existsb (String.eqb uid) (closedInbox w)
    then (Throw "Cannot send messages to this user", w)
    else (Ok tt, withOutbox (outbox w ++ [(uid, embed)]) w).

Definition newline : string := String (ascii_of_nat 10) EmptyString.

(** The double quote character. *)
Definition dquote : string := String (ascii_of_nat 34) EmptyString.

Definition _sendReasonedWarning (to : Sender) (autoReason reason : string) : M World unit :=
  str ← lift (localizeForUser to (getAutoReasonStr autoReason) None);
  let str := (str ++ newline ++ newline)%string in
  because ← lift (localizeForUser to "DNSERV_STAR_BLOCKED_REASON" (Some reason));
  let str := (str ++ because)%string in
  embed ← lift (generateLocalizedEmbed to (inr str));
  send to embed.

Definition _sendWarning (to : Sender) (autoReason : string) : M World unit :=
  embed ← lift (generateLocalizedEmbed to (inl (getAutoReasonStr autoReason)));
  send to embed.

(** [guild.members.get(id)] *)
Fixpoint membersGet (members : list (string * User)) (id : string) : option User :=
  match members with
  | [] => None
  | (k, m) :: rest => if String.eqb k id then Some m else membersGet rest id
  end.

(** An array in a template string: its elements joined by commas. *)
Definition showReasons (reasons : string * Detail) : string :=
  (fst reasons ++ "," ++
   match snd reasons with
   | VStr s => s
   | VBool true => "true"
   | VBool false => "false"
   end)%string.

(** *** The event entry point *)

Definition _handleReactionAdding (self : Instance_) (reaction : MessageReaction)
  (user : User) : M World bool :=
  let settings := _settings self in
  match guild (message reaction) with
  | None => mret false
  | Some guild =>
      if negb (String.eqb (guildIdOf guild) (guildId settings)) then mret false else
      let starred :=
        match starEmoji settings with
        | Some e => String.eqb (emojiName reaction) e
        | None => false
        end in
      if negb starred then mret false else
      match _compiledDisqualificationProcess self with
      | None =>
          _log "warn" "Star Disqualification Process is not compiled!";;
          mret false
      | Some disqualProcess =>
          disqualReasons ← disqualProcess {| reaction := reaction; user := user |};
          match disqualReasons with
          | Some reasons =>
              _log "info"
                ("Disallow reaction by " ++ tag user ++ " on message "
                 ++ messageId (message reaction) ++ " because: "
                 ++ showReasons reasons ++ dquote)%string;;
              _removeReaction reaction user;;
              tryCatch
                (let member := membersGet (members guild) (userId user) in
                 let to := match member with Some m => AsMember m | None => AsUser user end in
                 let autoReason := fst reasons in
                 match snd reasons with
                 | VStr reason => _sendReasonedWarning to autoReason reason
                 | VBool _ => _sendWarning to autoReason
                 end)
                (fun err =>
                   _log "warn"
                     ("Cannot send warning (" ++ showReasons reasons ++ ") to "
                      ++ tag user)%string);;
              mret true
          | None => mret false
          end
      end
  end.

End Cog.

End StarsControl.

(** ** The house-roles record store *)

Module HouseRoles.
Import Js.

Record GuildMember : Type := {
  memberGuild : string;   (* member.guild.id *)
  memberIdOf : string     (* member.id *)
}.

Record HouseRecord : Type := {
  guildId : string;
  memberId : string;
  flags : Z;
  when : Z
}.

Definition DEFAULT_TABLE_NAME : string := "houseRoles".

(** The controller's private fields, the database it talks to and the clock. *)
Record World : Type := {
  TABLE_NAME : string;
  LOCAL_CACHE : gmap string HouseRecord;
  INIT_COMPLETE : bool;
  tables : gmap string (list HouseRecord);   (* the database, by table name *)
  clock : Z
}.

(** [new HouseRolesDBController(tableName)] over a database. *)
Definition constructor (tableName : string) (db : gmap string (list HouseRecord)) (now : Z)
  : World :=
  {| TABLE_NAME := tableName; LOCAL_CACHE := ∅; INIT_COMPLETE := false;
     tables := db; clock := now |}.

Definition withLocalCache (f : gmap string HouseRecord -> gmap string HouseRecord)
  (w : World) : World :=
  {| TABLE_NAME := TABLE_NAME w; LOCAL_CACHE := f (LOCAL_CACHE w);
     INIT_COMPLETE := INIT_COMPLETE w; tables := tables w; clock := clock w |}.

Definition withTables (f : gmap string (list HouseRecord) -> gmap string (list HouseRecord))
  (w : World) : World :=
  {| TABLE_NAME := TABLE_NAME w; LOCAL_CACHE := LOCAL_CACHE w;
     INIT_COMPLETE := INIT_COMPLETE w; tables := f (tables w); clock := clock w |}.

Definition withInitComplete (b : bool) (w : World) : World :=
  {| TABLE_NAME := TABLE_NAME w; LOCAL_CACHE := LOCAL_CACHE w;
     INIT_COMPLETE := b; tables := tables w; clock := clock w |}.

Definition mustBeInitialized : M World unit :=
  fun w =>
    if negb (INIT_COMPLETE w) then (Throw "Controller must be initialized first", w)
    else (Ok tt, w).

Definition getLocalKey (member : GuildMember) : string :=
  (memberGuild member ++ ":" ++ memberIdOf member)%string.

Definition init : M World unit :=
  fun w =>
    if INIT_COMPLETE w then (Throw "Controller is already initialized", w)
    else
      let w :=
        match tables w !! TABLE_NAME w with
        | Some _ => w
        | None => withTables (insert (TABLE_NAME w) []) w
        end in
      (Ok tt, withInitComplete true w).

(** [DB(table).where({ guildId, memberId }).first()] *)
Definition whereFirst (guild member : string) : M World (option HouseRecord) :=
  fun w =>
    match tables w !! TABLE_NAME w with
    | Some rows =>
        (Ok (List.find
               (fun r => String.eqb (guildId r) guild && String.eqb (memberId r) member)
               rows), w)
    | None => (Throw "no such table", w)
    end.

Definition getRecord (member : GuildMember) (useCache : bool)
  : M World (option HouseRecord) :=
  mustBeInitialized;;
  let localKey := getLocalKey member in
  localValue ← gets (fun w => if useCache then LOCAL_CACHE w !! localKey else None);
  match localValue with
  | Some localValue => mret (Some localValue)
  | None =>
      remoteValue ← whereFirst (memberGuild member) (memberIdOf member);
      match remoteValue with
      | None => mret None
      | Some remoteValue =>
          modify (withLocalCache (insert localKey remoteValue));;
          (* the function ends here: nothing is returned *)
          mret None
      end
  end.

Definition sameRecord (a b : HouseRecord) : bool :=
  String.eqb (guildId a) (guildId b) && String.eqb (memberId a) (memberId b)
  && Z.eqb (flags a) (flags b) && Z.eqb (when a) (when b).

Definition recordChange (member : GuildMember) (flags : Z) : M World unit :=
  mustBeInitialized;;
  remoteRecord ← getRecord member false;
  now ← gets clock;
  let newRecord :=
    {| guildId := memberGuild member; memberId := memberIdOf member;
       when := now; flags := flags |} in
  let localKey := getLocalKey member in
  tableName ← gets TABLE_NAME;
  match remoteRecord with
  | Some remoteRecord =>
      modify (withTables
                (alter (map (fun r => if sameRecord r remoteRecord then newRecord else r))
                       tableName))
  | None =>
      modify (withTables (alter (fun rows => rows ++ [newRecord]) tableName))
  end;;
  modify (withLocalCache (insert localKey newRecord)).

End HouseRoles.

(** ** Vocabulary of the properties *)

Module Spec.
Import Js StarsControl.

(** A probe: a check with no effect but the record of its own call. *)
Definition probe {T R} (name : string) (f : T -> R) : T -> M (list string) R :=
  fun args calls => (Ok (f args), calls ++ [name]).

(** An object of checks, each wrapped as a probe under its own name. *)
Definition probes {T R} (o : JsObject (T -> R)) : JsObject (T -> M (list string) R) :=
  map (fun p => (fst p, probe (fst p) (snd p))) o.

(** The evaluator in the words of the specification: the checks run in the
    order in which they were inserted into the mapping. *)
Definition anyOfInInsertionOrder {W T R} (toBoolean : R -> bool)
  (functions : JsObject (T -> M W R)) : T -> M W (option (string * R)) :=
  fun args => anyOfLoop toBoolean functions None args.

(** No step name of the mapping is an array index. *)
Definition namedOnly {V} (o : JsObject V) : Prop :=
  Forall (fun k => isArrayIndex k = false) (keys o).

(** Every rule of [pre] is tried in turn from [w] and rejected, which
    leaves the world [w']. *)
Fixpoint passes (isDisqualified : IMessageDisqualification -> M World bool)
  (pre : list IMessageDisqualification) (w w' : World) : Prop :=
  match pre with
  | [] => w' = w
  | d :: pre' =>
      exists w1, isDisqualified d w = (Ok false, w1) /\ passes isDisqualified pre' w1 w'
  end.

(** An entry of an authors list that names integrations: [$hooks], or
    [$hook:ID] for the integration [hookId]. *)
Definition hookEntryMatches (hookId author : string) : bool :=
  String.eqb author "$hooks"
  || (startsWith author "$hook:" && String.eqb hookId (slice 6 author)).

Definition isHookEntry (author : string) : bool :=
  String.eqb author "$hooks" || startsWith author "$hook:".

(** Modelled from the spec: [getMessageMemberOrAuthor] of the bot's
    utilities is not part of the cog. A message posted through an external
    integration has no conventional account, so its sender resolves to
    nothing; any other message resolves to the account in [accounts] that
    wrote it, if there is one. *)
Definition resolveSender (accounts : Message -> option Sender) (msg : Message)
  : M World (option Sender) :=
  match webhookID msg with
  | Some _ => mret None
  | None => mret (accounts msg)
  end.

(** The rule without its age field. *)
Definition withoutAged (d : IMessageDisqualification) : IMessageDisqualification :=
  {| authors := authors d; channels := channels d; content_ := content_ d;
     aged := None; reason := reason d |}.

(** Is the user among those whose star stands on the message? *)
Definition hasStarred (w : World) (messageId userId : string) : bool :=
  match starredBy w !! messageId with
  | Some users => existsb (String.eqb userId) users
  | None => false
  end.

(** Who is warned about a star of [user] in the guild: its member there,
    or else the user. *)
Definition warned (g : Guild) (user : User) : Sender :=
  match membersGet (members g) (userId user) with
  | Some m => AsMember m
  | None => AsUser user
  end.

(** The embed of the warning that a verdict calls for: the localized line
    of the step alone, or that line, an empty line and the localized
    reason, when the verdict carries a reason. It is there when the
    localization yields it. *)
Definition warningEmbed
  (localizeForUser : Sender -> string -> option string -> Result string)
  (generateLocalizedEmbed : Sender -> string + string -> Result string)
  (to : Sender) (reasons : string * Detail) : Result string :=
  match snd reasons with
  | VStr reason =>
      match localizeForUser to (getAutoReasonStr (fst reasons)) None with
      | Ok line =>
          match localizeForUser to "DNSERV_STAR_BLOCKED_REASON" (Some reason) with
          | Ok because =>
              generateLocalizedEmbed to (inr ((line ++ newline ++ newline) ++ because)%string)
          | Throw err => Throw err
          end
      | Throw err => Throw err
      end
  | VBool _ => generateLocalizedEmbed to (inl (getAutoReasonStr (fst reasons)))
  end.

End Spec.

(** ** Sample data *)

Module Samples.
Import Js StarsControl Spec.

(** The number that an integer below [2^63] in absolute value is. *)
Definition numberOf (z : Z) : float :=
  match z with
  | Z0 => 0%float
  | Zpos _ => of_uint63 (Uint63.of_Z z)
  | Zneg p => (- of_uint63 (Uint63.of_Z (Zpos p)))%float
  end.

(** A clock difference in seconds. *)
Definition secondsBetween (a b : Z) (unit : string) : float :=
  (numberOf (a - b) / 1000)%float.

(** Ten minutes past the epoch; nothing cached, starred, sent or logged. *)
Definition quiet : World :=
  {| clock := 600000; REGEX_CACHE := ∅; allocated := 0; starredBy := ∅;
     mayRetract := true; closedInbox := []; outbox := []; requests := [];
     logged := [] |}.

(** The same, at another time of the clock. *)
Definition quietAt (ms : Z) : World :=
  {| clock := ms; REGEX_CACHE := ∅; allocated := 0; starredBy := ∅;
     mayRetract := true; closedInbox := []; outbox := []; requests := [];
     logged := [] |}.

Definition alice : User :=
  {| userId := "1001"; username := "alice"; tag := "alice#0001"; bot := false |}.

Definition home : Guild := {| guildIdOf := "77"; members := [("1001", alice)] |}.

(** Written at the epoch by an account, in channel [general]. *)
Definition post : Message :=
  {| messageId := "5000"; channelId := "general"; guild := Some home; content := "bar";
     createdAt := 0; webhookID := None |}.

(** Posted through the integration [42]. *)
Definition hooked : Message :=
  {| messageId := "5001"; channelId := "general"; guild := Some home; content := "build ok";
     createdAt := 0; webhookID := Some "42" |}.

Definition star (msg : Message) : MessageReaction :=
  {| emojiName := STAR_REACTION; message := msg |}.

Definition olderThan (minutes : float) (why : option string) : IMessageDisqualification :=
  {| authors := None; channels := None; content_ := None; aged := Some minutes;
     reason := why |}.

Definition inChannels (ids : list string) (why : option string) : IMessageDisqualification :=
  {| authors := None; channels := Some ids; content_ := None; aged := None;
     reason := why |}.

Definition withBadStars (rules : list IMessageDisqualification) : IStarControlSettings :=
  {| guildId := "77"; badStars := Some rules; selfStarring := Some true;
     starEmoji := Some STAR_REACTION; blockedStarrers := Some ["$bots"] |}.

(** The world in which [alice] has starred [post] and takes no messages. *)
Definition starredAndDeaf : World :=
  {| clock := 600000; REGEX_CACHE := ∅; allocated := 0;
     starredBy := {[ "5000" := ["1001"] ]};
     mayRetract := true; closedInbox := ["1001"]; outbox := []; requests := [];
     logged := [] |}.

(** Localization that answers with the key it is asked for. *)
Definition echoKey (to : Sender) (key : string) (reason : option string) : Result string :=
  Ok key.

Definition plainEmbed (to : Sender) (text : string + string) : Result string :=
  Ok match text with inl key => key | inr custom => custom end.

(** The cog compiled for the guild [home], with no bad-star rule. *)
Definition compiled : Instance_ :=
  {| _settings := withBadStars [];
     _compiledDisqualificationProcess :=
       Some (calledAnyOf truthy
               (disqualificationSteps (fun _ => true) (fun _ _ => false) secondsBetween
                  (fun msg => mret (Some alice)) (resolveSender (fun _ => None))
                  (withBadStars []))
               None) |}.

End Samples.

Module HouseSamples.
Import Js HouseRoles.

Definition bob : GuildMember := {| memberGuild := "77"; memberIdOf := "2002" |}.

Definition bobsHouse : HouseRecord :=
  {| guildId := "77"; memberId := "2002"; flags := 64; when := 1000 |}.

(** An initialized controller whose table knows [bob] and whose cache is
    empty. *)
Definition warmDatabase : World :=
  {| TABLE_NAME := DEFAULT_TABLE_NAME; LOCAL_CACHE := ∅; INIT_COMPLETE := true;
     tables := {[ DEFAULT_TABLE_NAME := [bobsHouse] ]}; clock := 2000 |}.

End HouseSamples.

(** ** Further vocabulary *)

Module Notions.
Import Js StarsControl Spec.

(** What a check does when it is called: it returns or it throws. *)
Inductive Outcome (R : Type) : Type :=
| Returns (r : R)
| Throws (e : string).
Arguments Returns {R} r.
Arguments Throws {R} e.

(** A probe that may throw: it records its call either way. *)
Definition outcomeProbe {T R} (name : string) (f : T -> Outcome R)
  : T -> M (list string) R :=
  fun args calls =>
    match f args with
    | Returns r => (Ok r, calls ++ [name])
    | Throws e => (Throw e, calls ++ [name])
    end.

Definition outcomeProbes {T R} (o : JsObject (T -> Outcome R))
  : JsObject (T -> M (list string) R) :=
  map (fun p => (fst p, outcomeProbe (fst p) (snd p))) o.

(** The check returns a result on which the evaluator goes on. *)
Definition goesOn {T R} (toBoolean : R -> bool) (how : option (R -> bool)) (args : T)
  (p : string * (T -> Outcome R)) : Prop :=
  exists r,
    snd p args = Returns r
    /\ match how with Some h => h r | None => toBoolean r end = false.

(** Every pattern is filed under its own source, and no two entries of the
    cache are the same object. *)
Definition cacheSound (w : World) : Prop :=
  (forall k re, REGEX_CACHE w !! k = Some re -> source re = k /\ stamp re < allocated w)
  /\ (forall k1 k2 re1 re2,
         REGEX_CACHE w !! k1 = Some re1 ->
         REGEX_CACHE w !! k2 = Some re2 ->
         stamp re1 = stamp re2 -> k1 = k2).

(** Does the entry of an authors list name the account [s]? *)
Definition accountEntryMatches (s : User) (author : string) : bool :=
  if String.eqb author "$bots" then bot s
  else if isHookEntry author then false
  else String.eqb (userId s) author.

(** The three conditions of a rule that decide, given the sender that was
    resolved for the message and its age in minutes. The age condition:
    the message is not younger than [aged] (for numbers that are not NaN,
    [aged <= minsSince]). *)
Definition oldEnough (d : IMessageDisqualification) (minsSince : float) : bool :=
  match aged d with Some a => negb (minsSince <? a)%float | None => true end.

Definition inListedChannel (d : IMessageDisqualification) (msg : Message) : bool :=
  match channels d with
  | Some ids => existsb (String.eqb (channelId msg)) ids
  | None => true
  end.

Definition byListedAuthor (d : IMessageDisqualification) (msg : Message)
  (sender : option Sender) : bool :=
  match authors d with
  | Some l => authoredByLoop msg (option_map senderUser sender) l
  | None => true
  end.

End Notions.

(** ** Further sample data *)

Module Scenarios.
Import Js StarsControl Spec Samples.

Definition carol : User :=
  {| userId := "1003"; username := "carol"; tag := "carol#0003"; bot := false |}.

Definition robot : User :=
  {| userId := "1009"; username := "robot"; tag := "robot#0009"; bot := true |}.

(** Localization that spells out the key and the reason it was given. *)
Definition spell (to : Sender) (key : string) (reason : option string) : Result string :=
  Ok match reason with
     | Some r => (key ++ ":" ++ r)%string
     | None => key
     end.

(** The cog compiled for the guild [home] from the given settings; every
    pattern compiles and none matches; [post] was written by [alice]. *)
Definition compiledFrom (settings : IStarControlSettings) : Instance_ :=
  {| _settings := settings;
     _compiledDisqualificationProcess :=
       Some (calledAnyOf truthy
               (disqualificationSteps (fun _ => true) (fun _ _ => false) secondsBetween
                  (fun msg => mret (Some alice)) (resolveSender (fun _ => Some (AsUser alice)))
                  settings)
               None) |}.

(** [carol] has starred [post]; everybody can be messaged. *)
Definition starredByCarol : World :=
  {| clock := 600000; REGEX_CACHE := ∅; allocated := 0;
     starredBy := {[ "5000" := ["1003"] ]};
     mayRetract := true; closedInbox := []; outbox := []; requests := [];
     logged := [] |}.

End Scenarios.

Module PatternScenarios.
Import Js StarsControl Spec Samples Scenarios.

(** An engine that refuses the lone parenthesis and accepts all else. *)
Definition balanced (source : string) : bool := negb (String.eqb source "(").

(** A matcher for which every pattern stands for the handles starting
    with [rob]. *)
Definition startsWithRob (source input : string) : bool := startsWith input "rob".

Definition withBlockedStarrers (starrers : list string) : IStarControlSettings :=
  {| guildId := "77"; badStars := Some []; selfStarring := Some true;
     starEmoji := Some STAR_REACTION; blockedStarrers := Some starrers |}.

(** The cog compiled with the engine above. *)
Definition compiledWithPatterns (settings : IStarControlSettings) : Instance_ :=
  {| _settings := settings;
     _compiledDisqualificationProcess :=
       Some (calledAnyOf truthy
               (disqualificationSteps balanced startsWithRob secondsBetween
                  (fun msg => mret (Some alice)) (resolveSender (fun _ => Some (AsUser alice)))
                  settings)
               None) |}.

(** A rule with all four conditions, the last of which [post] does not
    meet. *)
Definition fussy : IMessageDisqualification :=
  {| authors := Some ["1001"]; channels := Some ["general"];
     content_ := Some ("equal", "nope"); aged := Some 5%float; reason := None |}.

End PatternScenarios.

Module StoreNotions.
Import Js HouseRoles.

(** The identifier holds no colon. *)
Fixpoint colonFree (s : string) : bool :=
  match s with
  | EmptyString => true
  | String a rest => negb (Ascii.eqb a ":") && colonFree rest
  end.

(** The record [recordChange] writes for a member at the time [now]. *)
Definition changeOf (member : GuildMember) (flags now : Z) : HouseRecord :=
  {| guildId := memberGuild member; memberId := memberIdOf member;
     flags := flags; when := now |}.

(** The row of the table that the query for a member finds. *)
Definition rowOf (member : GuildMember) (rows : list HouseRecord) : option HouseRecord :=
  List.find (fun r => String.eqb (guildId r) (memberGuild member)
                      && String.eqb (memberId r) (memberIdOf member)) rows.

End StoreNotions.

Module StoreScenarios.
Import Js HouseRoles HouseSamples.

Definition eve : GuildMember := {| memberGuild := "77"; memberIdOf := "2003" |}.

End StoreScenarios.

(** ** The house-roles cog *)

Module HouseRolesCog.
Import Js.

Definition House : Type := string.

Definition HOUSE_ROLES : list House := ["balance"; "bravery"; "brilliance"].

Module DiscordHouse.
Definition BALANCE : Z := 256.
Definition BRILLIANCE : Z := 128.
Definition BRAVERY : Z := 64.
End DiscordHouse.

(** [ToInt32], on integers. *)
Definition toInt32 (n : Z) : Z := ((n + 2 ^ 31) mod 2 ^ 32 - 2 ^ 31)%Z.

(** [(flags & flag) === flag] *)
Definition hasFlag (flags flag : Z) : bool :=
  Z.eqb (Z.land (toInt32 flags) (toInt32 flag)) flag.

(** The class of the errors the cog throws itself; an error is told from
    others by this name. *)
Definition HousesFetchError : string := "HousesFetchError".
Definition GuildsFetchError : string := "GuildsFetchError".

(** *** Platform data *)

Record GuildMember : Type := {
  memberId : string;        (* member.id *)
  memberGuild : string;     (* member.guild.id *)
  manageRoles : bool;       (* member.permissions.has("MANAGE_ROLES") *)
  mention : string          (* member.toString() *)
}.

Record Message : Type := {
  channelId : string;             (* msg.channel.id *)
  guildId : option string         (* msg.guild.id, when there is a guild *)
}.

(** The parsed command: its subcommand and the values of its arguments. *)
Record Parsed : Type := {
  subCommand : option string;
  arguments : option (list string)
}.

Record IMessageFlowContext : Type := {
  parsed : Parsed;
  message : Message
}.

Inductive EmbedType : Type := Information | OK | Error.

Record FormatOptions : Type := {
  houses : option string;
  rolesCount : option nat;
  username : option string
}.

(** The text of an embed: a localization key, alone or with its options. *)
Inductive EmbedText : Type :=
| Plain (key : string)
| Formatted (key : string) (formatOptions : FormatOptions).

Inductive RoleEdit : Type :=
| AddRole (memberId role reason : string)
| RemoveRole (memberId role reason : string).

Record LogEntry : Type := {
  level : string;
  text : string;
  error : string
}.

Record World : Type := {
  memberRoles : gmap string (list string);  (* member.roles, by member id *)
  profiles : gmap string (Z * Z);           (* the profile endpoint: status, flags *)
  guildsOfUser : option (Z * list string);  (* the guilds endpoint: status, ids *)
  rolesLocked : bool;                       (* role edits are refused *)
  mutedChannels : list string;              (* channels that refuse messages *)
  sent : list (string * string);            (* messages sent, by channel *)
  edits : list RoleEdit;                    (* role edits asked for, oldest first *)
  logged : list LogEntry
}.

Definition withMemberRoles (f : gmap string (list string) -> gmap string (list string))
  (w : World) : World :=
  {| memberRoles := f (memberRoles w); profiles := profiles w;
     guildsOfUser := guildsOfUser w; rolesLocked := rolesLocked w;
     mutedChannels := mutedChannels w; sent := sent w; edits := edits w;
     logged := logged w |}.

Definition withSent (s : list (string * string)) (w : World) : World :=
  {| memberRoles := memberRoles w; profiles := profiles w;
     guildsOfUser := guildsOfUser w; rolesLocked := rolesLocked w;
     mutedChannels := mutedChannels w; sent := s; edits := edits w;
     logged := logged w |}.

Definition withEdits (e : list RoleEdit) (w : World) : World :=
  {| memberRoles := memberRoles w; profiles := profiles w;
     guildsOfUser := guildsOfUser w; rolesLocked := rolesLocked w;
     mutedChannels := mutedChannels w; sent := sent w; edits := e;
     logged := logged w |}.

Definition withLogged (l : list LogEntry) (w : World) : World :=
  {| memberRoles := memberRoles w; profiles := profiles w;
     guildsOfUser := guildsOfUser w; rolesLocked := rolesLocked w;
     mutedChannels := mutedChannels w; sent := sent w; edits := edits w;
     logged := l |}.

(** [HouseRoles._log(level, text, err)] *)
Definition _log (lvl txt err : string) : M World unit :=
  modify (fun w => withLogged (logged w ++ [{| level := lvl; text := txt; error := err |}]) w).

(** The roles a member holds. *)
Definition rolesOf (w : World) (member : GuildMember) : list string :=
  match memberRoles w !! memberId member with
  | Some roles => roles
  | None => []
  end.

(** [member.roles.has(role)]; an undefined role is held by nobody. *)
Definition rolesHas (w : World) (member : GuildMember) (role : option string) : bool :=
  match role with
  | Some r => existsb (String.eqb r) (rolesOf w member)
  | None => false
  end.

(** [member.roles.add(role, reason)] *)
Definition rolesAdd (member : GuildMember) (role : option string) (reason : string)
  : M World unit :=
  fun w =>
    match role with
    | None => (Throw "TypeError", w)
    | Some r =>
        let w := withEdits (edits w ++ [AddRole (memberId member) r reason]) w in
        if rolesLocked w then (Throw "Missing Permissions", w)
        else
          let held := rolesOf w member in
          let held := if existsb (String.eqb r) held then held else held ++ [r] in
          (Ok tt, withMemberRoles (insert (memberId member) held) w)
    end.

(** [member.roles.remove(role, reason)] *)
Definition rolesRemove (member : GuildMember) (role : option string) (reason : string)
  : M World unit :=
  fun w =>
    match role with
    | None => (Throw "TypeError", w)
    | Some r =>
        let w := withEdits (edits w ++ [RemoveRole (memberId member) r reason]) w in
        if rolesLocked w then (Throw "Missing Permissions", w)
        else
          let held := List.filter (fun h => negb (String.eqb h r)) (rolesOf w member) in
          (Ok tt, withMemberRoles (insert (memberId member) held) w)
    end.

(** [msg.channel.send({ embed })] *)
Definition channelSend (msg : Message) (embed : string) : M World unit :=
  fun w =>
    if existsb (String.eqb (channelId msg)) (mutedChannels w)
    then (Throw "Missing Access", w)
    else (Ok tt, withSent (sent w ++ [(channelId msg, embed)]) w).

(** [o[k]] *)
Fixpoint get {V} (o : JsObject V) (k : string) : option V :=
  match o with
  | [] => None
  | (k', v) :: o' => if String.eqb k k' then Some v else get o' k
  end.

Definition upperAscii (a : ascii) : ascii :=
  let n := N_of_ascii a in
  if ((97 <=? n) && (n <=? 122))%N then ascii_of_N (n - 32) else a.

(** [s.toUpperCase()], on ASCII text. *)
Fixpoint toUpperCase (s : string) : string :=
  match s with
  | EmptyString => EmptyString
  | String a rest => String (upperAscii a) (toUpperCase rest)
  end.

(** [names.join(separator)] *)
Fixpoint join (names : list string) (separator : string) : string :=
  match names with
  | [] => EmptyString
  | [name] => name
  | name :: rest => (name ++ separator ++ join rest separator)%string
  end.

(** [try { x = await body; } catch (err) { return handler(err); }]
    followed by the rest of the function. *)
Definition tryWith {W A B} (body : M W A) (handler : string -> M W B) (rest : A -> M W B)
  : M W B :=
  fun w =>
    match body w with
    | (Ok a, w1) => rest a w1
    | (Throw err, w1) => handler err w1
    end.

(** The fields of the cog that [init] sets. *)
Record Cog : Type := {
  _guildId : string;
  _userToken : string;
  _houseRoles : JsObject string
}.

Definition canManageHouseRole (member : GuildMember) : bool := manageRoles member.

Section Commands.

(** Collaborators of the cog that live outside it. *)
Variable getMessageMember : Message -> M World (option GuildMember).
(** [resolveGuildMember(text, msg.guild, options)] *)
Variable resolveGuildMember : string -> Message -> M World (option GuildMember).
Variable generateLocalizedEmbed : EmbedType -> GuildMember -> EmbedText -> Result string.
Variable localizeForUser : GuildMember -> string -> Result string.
(** [localizeForGuild(member.guild, key)], by the guild's identifier. *)
Variable localizeForGuild : string -> string -> Result string.

Variable self : Cog.

(** *** Backend *)

Definition _checkToken (token guildId : string) : M World bool :=
  fun w =>
    match guildsOfUser w with
    | None => (Throw "FetchError", w)
    | Some (status, guilds) =>
        if negb (Z.eqb status 200) then (Throw GuildsFetchError, w)
        else if existsb (fun id => String.eqb id guildId) guilds then (Ok true, w)
        else (Throw "Cannot find guild using the user account", w)
    end.

Definition _checkHouse (userId token : string) : M World (list House) :=
  fun w =>
    match profiles w !! userId with
    | None => (Throw "FetchError", w)
    | Some (status, flags) =>
        if negb (Z.eqb status 200) then (Throw HousesFetchError, w)
        else
          let houses := [] in
          let houses :=
            if hasFlag flags DiscordHouse.BALANCE then houses ++ ["balance"] else houses in
          let houses :=
            if hasFlag flags DiscordHouse.BRAVERY then houses ++ ["bravery"] else houses in
          let houses :=
            if hasFlag flags DiscordHouse.BRILLIANCE then houses ++ ["brilliance"]
            else houses in
          (Ok houses, w)
    end.

Definition _memberHavesRoles (member : GuildMember) : M World (list House) :=
  fun w =>
    (Ok (map fst
           (List.filter (fun p => rolesHas w member (Some (snd p)))
              (forIn (_houseRoles self)))), w).

Definition includesHouse (l : list House) (house : House) : bool :=
  existsb (String.eqb house) l.

(** The body of the loop of [_assign] over the houses still to visit. *)
Fixpoint assignLoop (member : GuildMember) (mRoles mHouses : list House)
  (houses : list House) (changes : bool) : M World bool :=
  match houses with
  | [] => mret changes
  | house :: rest =>
      let hasRole := includesHouse mRoles house in
      let inHouse := includesHouse mHouses house in
      if Bool.eqb hasRole inHouse then assignLoop member mRoles mHouses rest changes
      else
        let houseRole := get (_houseRoles self) house in
        (if negb hasRole && inHouse then
           reason ← lift (localizeForGuild (memberGuild member)
                            "DNSERV_HOUSEROLE_AUDITLOG@ASSIGN");
           rolesAdd member houseRole reason
         else if hasRole && negb inHouse then
           reason ← lift (localizeForGuild (memberGuild member)
                            "DNSERV_HOUSEROLE_AUDITLOG@DEASSIGN");
           rolesRemove member houseRole reason
         else mret tt);;
        assignLoop member mRoles mHouses rest true
  end.

(** [AssignResult]: were there changes, and the houses of the member,
    [None] standing for [null]. *)
Definition _assign (member : GuildMember) : M World (bool * option (list House)) :=
  let changes := false in
  mRoles ← _memberHavesRoles member;
  mHouses ← _checkHouse (memberId member) (_userToken self);
  if (Nat.eqb (length mRoles) 0 && Nat.eqb (length mHouses) 0)%bool
  then mret (changes, None)
  else
    changes ← assignLoop member mRoles mHouses HOUSE_ROLES changes;
    mret (changes, Some mHouses).

Fixpoint deassignLoop (member : GuildMember) (houses : list House)
  (removedHouses : list House) : M World (list House) :=
  match houses with
  | [] => mret removedHouses
  | house :: rest =>
      let role := get (_houseRoles self) house in
      has ← gets (fun w => rolesHas w member role);
      if negb has then deassignLoop member rest removedHouses
      else
        reason ← lift (localizeForGuild (memberGuild member)
                         "DNSERV_HOUSEROLE_AUDITLOG@DEASSIGN");
        rolesRemove member role reason;;
        deassignLoop member rest (removedHouses ++ [house])
  end.

(** [DeassignResult]: the houses whose roles were removed, [None] for
    [null]. *)
Definition _deassign (member : GuildMember) : M World (option (list House)) :=
  removedHouses ← deassignLoop member HOUSE_ROLES [];
  mret (if Nat.eqb (length removedHouses) 0 then None else Some removedHouses).

(** *** Replies *)

Definition _houseName (house : House) (sender : GuildMember) : M World string :=
  lift (localizeForUser sender ("DNSERV_HOUSEROLE_HOUSE_" ++ toUpperCase house)%string).

Fixpoint houseNames (houses : list House) (sender : GuildMember) : M World (list string) :=
  match houses with
  | [] => mret []
  | house :: rest =>
      name ← _houseName house sender;
      names ← houseNames rest sender;
      mret (name :: names)
  end.

Definition _housesArgs (houses : list House) (sender : GuildMember)
  : M World (string * nat) :=
  let rolesCount := length houses in
  names ← houseNames houses sender;
  joiner ← lift (localizeForUser sender "DNSERV_HOUSEROLE_HOUSE+JOINER");
  mret (join names joiner, rolesCount).

Definition _onError (msg : Message) (sender : GuildMember) (err : string)
  (callerIsSelf : bool) : M World unit :=
  if String.eqb err HousesFetchError then
    embed ← lift (generateLocalizedEmbed Error sender
                    (Formatted
                       ("DNSERV_HOUSEROLE_ERR_APIERR@"
                        ++ (if callerIsSelf then "SELF" else "OTHER"))%string
                       {| houses := None; rolesCount := None;
                          username := Some (mention sender) |}));
    channelSend msg embed
  else
    embed ← lift (generateLocalizedEmbed Error sender (Plain "DNSERV_HOUSEROLE_ERR_UNKNOWN"));
    channelSend msg embed.

Definition _invalidSubCmd (ctx : IMessageFlowContext) : M World unit :=
  let msg := message ctx in
  sender ← getMessageMember (message ctx);
  match sender with
  | None => mret tt
  | Some sender =>
      embed ← lift (generateLocalizedEmbed Information sender
                      (Plain "DNSERV_HOUSEROLE_UNKNOWN_SUBCMD"));
      channelSend msg embed
  end.

Definition _selfAssign (ctx : IMessageFlowContext) : M World unit :=
  let msg := message ctx in
  sender ← getMessageMember msg;
  match sender with
  | None => mret tt
  | Some sender =>
      tryWith (_assign sender) (fun err => _onError msg sender err true)
        (fun assignResult =>
             let currentHouses := snd assignResult in
             embed ←
               match currentHouses with
               | Some currentHouses =>
                   args ← _housesArgs currentHouses sender;
                   lift (generateLocalizedEmbed OK sender
                           (Formatted "DNSERV_HOUSEROLE_ASSIGNED@SELF"
                              {| houses := Some (fst args); rolesCount := Some (snd args);
                                 username := None |}))
               | None =>
                   lift (generateLocalizedEmbed Error sender
                           (Plain "DNSERV_HOUSEROLE_ERR_NOHOUSE@SELF"))
               end;
             channelSend msg embed)
  end.

Definition _selfDeassign (ctx : IMessageFlowContext) : M World unit :=
  let msg := message ctx in
  sender ← getMessageMember msg;
  match sender with
  | None => mret tt
  | Some sender =>
      tryWith (_deassign sender) (fun err => _onError msg sender err true)
        (fun deassignResult =>
             embed ←
               match deassignResult with
               | None =>
                   lift (generateLocalizedEmbed Error sender
                           (Plain "DNSERV_HOUSEROLE_ERR_NOHOUSE@SELF"))
               | Some removed =>
                   args ← _housesArgs removed sender;
                   lift (generateLocalizedEmbed OK sender
                           (Formatted "DNSERV_HOUSEROLE_DEASSIGN@SELF"
                              {| houses := Some (fst args); rolesCount := Some (snd args);
                                 username := None |}))
               end;
             channelSend msg embed)
  end.

Definition _assignTo (ctx : IMessageFlowContext) : M World unit :=
  let msg := message ctx in
  sender ← getMessageMember msg;
  match sender with
  | None => mret tt
  | Some sender =>
      let args := arguments (parsed ctx) in
      let proposal := match args with Some (first :: _) => Some first | _ => None end in
      match proposal with
      | None => _selfAssign ctx
      | Some proposal =>
          resolvedProposal ← resolveGuildMember proposal msg;
          match resolvedProposal with
          | None =>
              embed ← lift (generateLocalizedEmbed Error sender
                              (Plain "DNSERV_HOUSEROLE_UNKNOWN_PROPOSE"));
              channelSend msg embed
          | Some resolvedProposal =>
              if negb (canManageHouseRole sender) then
                if negb (String.eqb (memberId resolvedProposal) (memberId sender))
                then mret tt
                else _selfAssign ctx
              else
                tryWith (_assign resolvedProposal)
                  (fun err => _onError msg sender err false)
                  (fun assignResult =>
                       let currentHouses := snd assignResult in
                       embed ←
                         match currentHouses with
                         | Some currentHouses =>
                             args ← _housesArgs currentHouses sender;
                             lift (generateLocalizedEmbed OK sender
                                     (Formatted "DNSERV_HOUSEROLE_ASSIGNED@OTHER"
                                        {| houses := Some (fst args);
                                           rolesCount := Some (snd args);
                                           username := Some (mention resolvedProposal) |}))
                         | None =>
                             lift (generateLocalizedEmbed Error sender
                                     (Formatted "DNSERV_HOUSEROLE_ERR_NOHOUSE@OTHER"
                                        {| houses := None; rolesCount := None;
                                           username := Some (mention resolvedProposal) |}))
                         end;
                       channelSend msg embed)
          end
      end
  end.

Definition _deassignFrom (ctx : IMessageFlowContext) : M World unit :=
  let msg := message ctx in
  sender ← getMessageMember msg;
  match sender with
  | None => mret tt
  | Some sender =>
      let args := arguments (parsed ctx) in
      match args with
      | Some [] => throw "TypeError"
      | _ =>
          let proposal :=
            match args with
            | Some (first :: _) => if strTruthy first then Some first else None
            | _ => None
            end in
          match proposal with
          | None => _selfDeassign ctx
          | Some proposal =>
              resolvedProposal ← resolveGuildMember proposal msg;
              match resolvedProposal with
              | None =>
                  embed ← lift (generateLocalizedEmbed Error sender
                                  (Plain "DNSERV_HOUSEROLE_UNKNOWN_PROPOSE"));
                  channelSend msg embed
              | Some resolvedProposal =>
                  if negb (canManageHouseRole sender) then
                    if negb (String.eqb (memberId resolvedProposal) (memberId sender))
                    then mret tt
                    else _selfDeassign ctx
                  else
                    tryWith (_deassign resolvedProposal)
                      (fun err => _onError msg sender err false)
                      (fun deassignResult =>
                           embed ←
                             match deassignResult with
                             | None =>
                                 lift (generateLocalizedEmbed Error sender
                                         (Formatted "DNSERV_HOUSEROLE_ERR_NOROLES@OTHER"
                                            {| houses := None; rolesCount := None;
                                               username :=
                                                 Some (mention resolvedProposal) |}))
                             | Some removed =>
                                 args ← _housesArgs removed sender;
                                 lift (generateLocalizedEmbed OK sender
                                         (Formatted "DNSERV_HOUSEROLE_DEASSIGN@OTHER"
                                            {| houses := Some (fst args);
                                               rolesCount := Some (snd args);
                                               username :=
                                                 Some (mention resolvedProposal) |}))
                             end;
                           channelSend msg embed)
              end
          end
      end
  end.

(** *** The command entry point *)

Definition _onMessage (ctx : IMessageFlowContext) : M World unit :=
  let args := arguments (parsed ctx) in
  match guildId (message ctx) with
  | None => mret tt
  | Some guild =>
      if negb (String.eqb guild (_guildId self)) then mret tt
      else
        tryCatch
          (match subCommand (parsed ctx) with
           | None => _selfAssign ctx
           | Some sub =>
               if String.eqb sub "assign" then
                 match args with Some _ => _assignTo ctx | None => _selfAssign ctx end
               else if String.eqb sub "remove" then
                 match args with Some _ => _deassignFrom ctx | None => _selfDeassign ctx end
               else _invalidSubCmd ctx
           end)
          (fun err => _log "err" "Failed to execute command" err)
  end.

End Commands.

End HouseRolesCog.

(** ** The statistics channels *)

Module StatsChannels.

Definition ONE_MINUTE : Z := 60000.

(** [_msUntilNextMinute], from the seconds and the milliseconds of the
    current date. *)
Definition _msUntilNextMinute (seconds milliseconds : Z) : Z :=
  let currentMilliseconds := (seconds * 1000 + milliseconds)%Z in
  (ONE_MINUTE - currentMilliseconds)%Z.

End StatsChannels.

Module CogNotions.
Import Js HouseRolesCog.

(** The bit of the profile flags that stands for a house. *)
Definition houseBit (house : House) : Z :=
  if String.eqb house "balance" then 8
  else if String.eqb house "bravery" then 6
  else 7.

(** The houses whose bit is set, in the order of [HOUSE_ROLES]. *)
Definition housesOfFlags (flags : Z) : list House :=
  List.filter (fun house => Z.testbit flags (houseBit house)) HOUSE_ROLES.

(** The configuration gives each house a role of its own. *)
Definition rolesConfigured (roles : JsObject string) (balance bravery brilliance : string)
  : Prop :=
  List.NoDup (keys roles)
  /\ get roles "balance" = Some balance
  /\ get roles "bravery" = Some bravery
  /\ get roles "brilliance" = Some brilliance
  /\ balance <> bravery /\ balance <> brilliance /\ bravery <> brilliance.

(** From [w] to [w'] nothing changed but, at most, whether [member] holds
    the roles listed in [touched]; no message was sent. *)
Definition onlyRolesTouched (w w' : World) (member : GuildMember) (touched : list string)
  : Prop :=
  (forall r, ~ In r touched ->
             rolesHas w' member (Some r) = rolesHas w member (Some r))
  /\ (forall other, memberId other <> memberId member -> rolesOf w' other = rolesOf w other)
  /\ rolesLocked w' = rolesLocked w
  /\ profiles w' = profiles w
  /\ mutedChannels w' = mutedChannels w
  /\ sent w' = sent w
  /\ logged w' = logged w.

Section Dispatch.

Variable getMessageMember : Message -> M World (option GuildMember).
Variable resolveGuildMember : string -> Message -> M World (option GuildMember).
Variable generateLocalizedEmbed : EmbedType -> GuildMember -> EmbedText -> Result string.
Variable localizeForUser : GuildMember -> string -> Result string.
Variable localizeForGuild : string -> string -> Result string.
Variable self : Cog.

(** The command that [_onMessage] runs inside its [try], by the
    sub-command and the presence of arguments. *)
Definition dispatch (ctx : IMessageFlowContext) : M World unit :=
  let own := _selfAssign getMessageMember generateLocalizedEmbed localizeForUser
               localizeForGuild self ctx in
  match subCommand (parsed ctx), arguments (parsed ctx) with
  | None, _ => own
  | Some sub, args =>
      if String.eqb sub "assign" then
        match args with
        | Some _ => _assignTo getMessageMember resolveGuildMember generateLocalizedEmbed
                      localizeForUser localizeForGuild self ctx
        | None => own
        end
      else if String.eqb sub "remove" then
        match args with
        | Some _ => _deassignFrom getMessageMember resolveGuildMember generateLocalizedEmbed
                      localizeForUser localizeForGuild self ctx
        | None => _selfDeassign getMessageMember generateLocalizedEmbed localizeForUser
                    localizeForGuild self ctx
        end
      else _invalidSubCmd getMessageMember generateLocalizedEmbed ctx
  end.

(** The entry that [_onMessage] logs for a command that threw [err]. *)
Definition commandFailed (err : string) : LogEntry :=
  {| level := "err"; text := "Failed to execute command"; error := err |}.

End Dispatch.

End CogNotions.

Module CogScenarios.
Import Js HouseRolesCog CogNotions.

Definition houses : Cog :=
  {| _guildId := "77"; _userToken := "token";
     _houseRoles := [("balance", "r-balance"); ("bravery", "r-bravery");
                     ("brilliance", "r-brilliance")] |}.

Definition dana : GuildMember :=
  {| memberId := "3001"; memberGuild := "77"; manageRoles := false; mention := "<@3001>" |}.

Definition erin : GuildMember :=
  {| memberId := "3002"; memberGuild := "77"; manageRoles := false; mention := "<@3002>" |}.

(** [dana] holds the brilliance role and one more; her profile says
    balance and bravery. The profile of [erin] cannot be read. *)
Definition town : World :=
  {| memberRoles := {[ "3001" := ["r-brilliance"; "r-member"] ]};
     profiles := {[ "3001" := (200%Z, 320%Z); "3002" := (401%Z, 0%Z) ]};
     guildsOfUser := Some (200%Z, ["77"]);
     rolesLocked := false; mutedChannels := []; sent := []; edits := [];
     logged := [] |}.

(** The same town once the roles of [dana] agree with her profile. *)
Definition settled : World :=
  {| memberRoles := {[ "3001" := ["r-member"; "r-balance"; "r-bravery"] ]};
     profiles := {[ "3001" := (200%Z, 320%Z); "3002" := (401%Z, 0%Z) ]};
     guildsOfUser := Some (200%Z, ["77"]);
     rolesLocked := false; mutedChannels := []; sent := []; edits := [];
     logged := [] |}.

Definition echoGuild (guild key : string) : Result string := Ok key.

Definition echoUser (member : GuildMember) (key : string) : Result string := Ok key.

Definition keyOnly (type : EmbedType) (member : GuildMember) (text : EmbedText)
  : Result string :=
  Ok match text with Plain key => key | Formatted key _ => key end.

(** Commands are written by [erin]; every name resolves to [dana]. *)
Definition fromErin (msg : Message) : M World (option GuildMember) := mret (Some erin).

Definition toDana (text : string) (msg : Message) : M World (option GuildMember) :=
  mret (Some dana).

Definition command (sub : option string) (args : option (list string))
  : IMessageFlowContext :=
  {| parsed := {| subCommand := sub; arguments := args |};
     message := {| channelId := "lobby"; guildId := Some "77" |} |}.

End CogScenarios.

(** Unfolds the plumbing of the monad. *)
Ltac run :=
  unfold mbind, Js.M_bind, mret, Js.M_ret, Js.bind, Js.ret, Js.gets, Js.modify, Js.lift.

(** ** Properties of the any-of combinator and of the compiled pipeline *)

Section Gating.
Import Js StarsControl Spec.

Lemma indexedProps_named {V} (o : JsObject V) :
  namedOnly o -> indexedProps o = [].
Proof.
  unfold namedOnly, keys.
  induction o as [|[k v] o IH]; intros Hnamed; [reflexivity|].
  inversion Hnamed as [|? ? Hk Hrest]; subst.
  cbn [indexedProps]. unfold isArrayIndex in Hk.
  destruct (arrayIndex k); [discriminate|]. now apply IH.
Qed.

Lemma namedProps_named {V} (o : JsObject V) :
  namedOnly o -> namedProps o = o.
Proof.
  unfold namedOnly, keys, namedProps.
  induction o as [|[k v] o IH]; intros Hnamed; [reflexivity|].
  inversion Hnamed as [|? ? Hk Hrest]; subst.
  cbn [List.filter fst]. cbn [fst] in Hk. rewrite Hk. cbn [negb].
  f_equal. now apply IH.
Qed.

(** Without array indices among its names, an object is enumerated in the
    order in which its properties were created. *)
Lemma forIn_named {V} (o : JsObject V) :
  namedOnly o -> forIn o = o.
Proof.
  intros Hnamed. unfold forIn.
  now rewrite indexedProps_named, namedProps_named.
Qed.

Lemma keys_probes {T R} (o : JsObject (T -> R)) : keys (probes o) = keys o.
Proof.
  unfold keys, probes. rewrite map_map. now apply map_ext.
Qed.

Lemma namedOnly_probes {T R} (o : JsObject (T -> R)) :
  namedOnly o -> namedOnly (probes o).
Proof. unfold namedOnly. now rewrite keys_probes. Qed.

Lemma calledAnyOf_named {W T R} (toBoolean : R -> bool) (o : JsObject (T -> M W R))
  (how : option (R -> bool)) (args : T) :
  namedOnly o ->
  calledAnyOf toBoolean o how args = anyOfLoop toBoolean o how args.
Proof.
  intros Hnamed. unfold calledAnyOf.
  pose proof (forIn_named o Hnamed) as Hsame.
  unfold CalledMap, AnyOfChecker in *. now rewrite Hsame.
Qed.

Section Loop.
Context {T R : Type} (toBoolean : R -> bool) (args : T).

Let falsy (p : string * (T -> R)) : Prop := toBoolean (snd p args) = false.

Lemma anyOfLoop_all_falsy (o : JsObject (T -> R)) (calls : list string) :
  Forall falsy o ->
  anyOfLoop toBoolean (probes o) None args calls = (Ok None, calls ++ keys o).
Proof.
  revert calls. induction o as [|[name f] o IH]; intros calls Hall.
  - cbn. now rewrite app_nil_r.
  - inversion Hall as [|? ? Hf Hrest]; subst. unfold falsy in Hf; cbn [snd] in Hf.
    cbn [probes map fst snd anyOfLoop].
    unfold mbind, M_bind, bind, probe. rewrite Hf.
    fold (probes o). rewrite IH by assumption.
    cbn [keys map fst]. now rewrite <- app_assoc.
Qed.

Lemma anyOfLoop_first_truthy (pre post : JsObject (T -> R)) name f (calls : list string) :
  Forall falsy pre ->
  toBoolean (f args) = true ->
  anyOfLoop toBoolean (probes (pre ++ (name, f) :: post)) None args calls
  = (Ok (Some (name, f args)), calls ++ keys pre ++ [name]).
Proof.
  revert calls. induction pre as [|[n0 f0] pre IH]; intros calls Hall Hf.
  - cbn [app probes map fst snd anyOfLoop keys].
    unfold mbind, M_bind, bind, probe. now rewrite Hf.
  - inversion Hall as [|? ? Hf0 Hrest]; subst. unfold falsy in Hf0; cbn [snd] in Hf0.
    cbn [app probes map fst snd anyOfLoop].
    unfold mbind, M_bind, bind, probe. rewrite Hf0.
    fold (probes (pre ++ (name, f) :: post)). rewrite IH by assumption.
    cbn [keys map fst app]. now rewrite <- app_assoc.
Qed.

End Loop.

(** C1 (as amended). Over a mapping none of whose step names is an array
    index, the evaluator made by [calledAnyOf] calls the checks strictly in
    insertion order: it stops at the first check whose result is truthy and
    returns that step's name with the result, having called exactly the
    checks up to that one and none after it; when every check is falsy it
    has called them all, in order, and returns nothing. *)
Theorem calledAnyOf_first_truthy_in_insertion_order
  {T : Type} (o : JsObject (T -> Detail)) (args : T) (calls : list string) :
  namedOnly o ->
  (forall pre name f post,
      o = pre ++ (name, f) :: post ->
      Forall (fun p => truthy (snd p args) = false) pre ->
      truthy (f args) = true ->
      calledAnyOf truthy (probes o) None args calls
      = (Ok (Some (name, f args)), calls ++ keys pre ++ [name]))
  /\ (Forall (fun p => truthy (snd p args) = false) o ->
      calledAnyOf truthy (probes o) None args calls = (Ok None, calls ++ keys o)).
Proof.
  intros Hnamed.
  rewrite calledAnyOf_named by now apply namedOnly_probes.
  split.
  - intros pre name f post -> Hpre Hf. now apply anyOfLoop_first_truthy.
  - intros Hall. now apply anyOfLoop_all_falsy.
Qed.

(** Three steps, the first positive: the second and the third are never
    called. *)
Lemma calledAnyOf_first_truthy_in_insertion_order_witness :
  calledAnyOf truthy
    (probes [("ONE", fun _ : unit => VStr "no"); ("TWO", fun _ => VBool true);
             ("THREE", fun _ => VBool false)])
    None tt []
  = (Ok (Some ("ONE", VStr "no")), ["ONE"]).
Proof.
  refine (proj1 (calledAnyOf_first_truthy_in_insertion_order
                   [("ONE", fun _ : unit => VStr "no"); ("TWO", fun _ => VBool true);
                    ("THREE", fun _ => VBool false)] tt [] _)
                [] "ONE" (fun _ => VStr "no")
                [("TWO", fun _ => VBool true); ("THREE", fun _ => VBool false)]
                eq_refl _ eq_refl).
  - repeat constructor.
  - constructor.
Defined.

(** C1 (as stated) fails: a step named by an array index is visited before
    the steps inserted ahead of it. Here [b] was inserted first and is
    positive, yet only [0] is called and the result names [0]. *)
Lemma calledAnyOf_insertion_order_counterexample :
  keys (set (set create "b" (fun _ : unit => VBool true)) "0" (fun _ => VBool true))
  = ["b"; "0"]
  /\ calledAnyOf truthy
       (probes (set (set create "b" (fun _ : unit => VBool true)) "0"
                    (fun _ => VBool true)))
       None tt []
     = (Ok (Some ("0", VBool true)), ["0"])
  /\ anyOfInInsertionOrder truthy
       (probes (set (set create "b" (fun _ : unit => VBool true)) "0"
                    (fun _ => VBool true)))
       tt []
     = (Ok (Some ("b", VBool true)), ["b"])
  /\ calledAnyOf truthy
       (probes (set (set create "b" (fun _ : unit => VBool true)) "0"
                    (fun _ => VBool true)))
       None tt []
     <> anyOfInInsertionOrder truthy
          (probes (set (set create "b" (fun _ : unit => VBool true)) "0"
                       (fun _ => VBool true)))
          tt [].
Proof.
  repeat split; try reflexivity.
  vm_compute. discriminate.
Qed.

End Gating.

Section Pipeline.
Import Js StarsControl Spec.

Variable regexSyntaxOk : string -> bool.
Variable regexTest : string -> string -> bool.
Variable timeDiff : Z -> Z -> string -> float.
Variable getMessageMember : Message -> M World (option User).
Variable getMessageMemberOrAuthor : Message -> M World (option Sender).

(** The names of the compiled steps, in the order the evaluator visits them. *)
Lemma disqualificationSteps_keys (settings : IStarControlSettings) :
  keys (forIn (disqualificationSteps regexSyntaxOk regexTest timeDiff getMessageMember
                 getMessageMemberOrAuthor settings))
  = match blockedStarrers settings with Some _ => ["USER-BLOCK"] | None => [] end
    ++ match badStars settings with Some _ => ["FILTER"] | None => [] end
    ++ match selfStarring settings with Some true => ["SELF-STAR"] | _ => [] end.
Proof.
  unfold disqualificationSteps.
  destruct (blockedStarrers settings), (badStars settings),
    (selfStarring settings) as [[|]|]; reflexivity.
Qed.

(** C7. The compiled pipeline visits its steps in one fixed order,
    USER-BLOCK before FILTER before SELF-STAR, holds exactly the steps
    whose section is set ([selfStarring] counts when it is [true]), each
    bound to its own handler, and has no SELF-STAR step at all when
    self-starring is [false]. *)
Theorem compiled_pipeline_order :
  (forall settings,
      map fst (forIn (disqualificationSteps regexSyntaxOk regexTest timeDiff
                        getMessageMember getMessageMemberOrAuthor settings))
      = match blockedStarrers settings with Some _ => ["USER-BLOCK"] | None => [] end
        ++ match badStars settings with Some _ => ["FILTER"] | None => [] end
        ++ match selfStarring settings with Some true => ["SELF-STAR"] | _ => [] end)
  /\ (forall guildId badStars starEmoji blockedStarrers,
         existsb (String.eqb "SELF-STAR")
           (map fst (forIn (disqualificationSteps regexSyntaxOk regexTest timeDiff
                              getMessageMember getMessageMemberOrAuthor
                              {| guildId := guildId; badStars := badStars;
                                 selfStarring := Some false; starEmoji := starEmoji;
                                 blockedStarrers := blockedStarrers |})))
         = false)
  /\ (forall settings name step,
         In (name, step) (forIn (disqualificationSteps regexSyntaxOk regexTest timeDiff
                                   getMessageMember getMessageMemberOrAuthor settings)) ->
         (name = "USER-BLOCK"
          /\ step = (fun toCheck =>
                       _handleBlockedStarrers regexSyntaxOk regexTest settings toCheck))
         \/ (name = "FILTER"
             /\ step = (fun toCheck =>
                          _handleDisqualify timeDiff getMessageMemberOrAuthor settings toCheck))
         \/ (name = "SELF-STAR"
             /\ step = (fun toCheck => _handleSelfStar getMessageMember settings toCheck))).
Proof.
  split; [|split].
  - exact disqualificationSteps_keys.
  - intros g bad emoji blocked. unfold disqualificationSteps. cbn [selfStarring].
    destruct blocked, bad; reflexivity.
  - intros settings name step. unfold disqualificationSteps.
    destruct (blockedStarrers settings), (badStars settings),
      (selfStarring settings) as [[|]|]; cbn;
      intros Hin; repeat (destruct Hin as [Hin|Hin]; [inversion Hin; subst; tauto|]);
      contradiction.
Qed.

(** A configuration that gives the guild alone compiles to all three
    steps. *)
Lemma init_defaults (guild : string) :
  strTruthy guild = true ->
  exists self,
    init regexSyntaxOk regexTest timeDiff getMessageMember getMessageMemberOrAuthor
      (Some {| guildId := guild; badStars := None; selfStarring := None;
               starEmoji := None; blockedStarrers := None |})
    = Ok self
    /\ map fst (forIn (disqualificationSteps regexSyntaxOk regexTest timeDiff
                         getMessageMember getMessageMemberOrAuthor (_settings self)))
       = ["USER-BLOCK"; "FILTER"; "SELF-STAR"].
Proof.
  intros Hguild. unfold init, _initConfig. cbn [guildId]. rewrite Hguild. cbn [negb].
  eexists. split; reflexivity.
Qed.

End Pipeline.

(** ** Properties of the bad-star check *)

Section Disqualification.
Import Js StarsControl Spec.

Variable timeDiff : Z -> Z -> string -> float.
Variable getMessageMemberOrAuthor : Message -> M World (option Sender).

(** *** Comparison of numbers *)

Lemma SFcompare_antisym (x y : spec_float) (c : comparison) :
  SFcompare x y = Some c -> SFcompare y x = Some (CompOpp c).
Proof.
  destruct x as [sx|sx| |sx mx ex], y as [sy|sy| |sy my ey]; cbn;
    try discriminate; intros [= <-];
    try (destruct sx; reflexivity); try (destruct sy; reflexivity);
    try (destruct sx, sy; reflexivity).
  destruct sx, sy; try reflexivity.
  - rewrite (Z.compare_antisym ex ey).
    destruct (ex ?= ey)%Z eqn:Hc; cbn [CompOpp]; try reflexivity.
    f_equal. f_equal. change (Pos.compare_cont Eq my mx) with (Pos.compare my mx).
    change (Pos.compare_cont Eq mx my) with (Pos.compare mx my).
    apply Pos.compare_antisym.
  - rewrite (Z.compare_antisym ex ey).
    destruct (ex ?= ey)%Z eqn:Hc; cbn [CompOpp]; try reflexivity.
    f_equal. change (Pos.compare_cont Eq my mx) with (Pos.compare my mx).
    change (Pos.compare_cont Eq mx my) with (Pos.compare mx my).
    apply Pos.compare_antisym.
Qed.

Lemma SFcompare_total (x y : spec_float) :
  x <> S754_nan -> y <> S754_nan -> exists c, SFcompare x y = Some c.
Proof.
  intros Hx Hy. destruct x, y; try congruence; cbn; eauto.
Qed.

Lemma is_nan_false (x : float) : is_nan x = false -> Prim2SF x <> S754_nan.
Proof.
  unfold is_nan. rewrite FloatAxioms.eqb_spec. unfold SFeqb.
  intros Hnan Hx. rewrite Hx in Hnan. discriminate.
Qed.

(** [a <= m] rules [m < a] out. *)
Lemma leb_numLt (a m : float) : (a <=? m)%float = true -> numLt m a = false.
Proof.
  unfold numLt. rewrite leb_spec, ltb_spec. unfold SFleb, SFltb.
  destruct (SFcompare (Prim2SF a) (Prim2SF m)) as [c|] eqn:Hc; [|discriminate].
  rewrite (SFcompare_antisym _ _ _ Hc). now destruct c.
Qed.

(** Of two numbers, neither of them NaN, [m < a] fails exactly when
    [a <= m]. *)
Lemma numLt_false (m a : float) :
  is_nan m = false -> is_nan a = false ->
  numLt m a = false <-> (a <=? m)%float = true.
Proof.
  intros Hm Ha. split; [|apply leb_numLt].
  unfold numLt. rewrite leb_spec, ltb_spec. unfold SFleb, SFltb.
  destruct (SFcompare_total _ _ (is_nan_false _ Hm) (is_nan_false _ Ha)) as [c Hc].
  rewrite Hc, (SFcompare_antisym _ _ _ Hc). now destruct c.
Qed.

Lemma minutesSinceSent_run (msg : Message) (w : World) :
  _minutesSinceSent timeDiff msg w
  = (Ok (timeDiff (clock w) (createdAt msg) "s" / 60)%float, w).
Proof. reflexivity. Qed.

(** The content field never decides: the promise of [_contentMatch] is
    tested, not its result. *)
Lemma isDisqualified_content_irrelevant (reaction : MessageReaction)
  (d : IMessageDisqualification) (cond : option ContentDisqualifyCondition) (w : World) :
  _isDisqualified timeDiff getMessageMemberOrAuthor reaction d w
  = _isDisqualified timeDiff getMessageMemberOrAuthor reaction
      {| authors := authors d; channels := channels d; content_ := cond;
         aged := aged d; reason := reason d |} w.
Proof.
  unfold _isDisqualified. cbn [authors channels content_ aged reason objectTruthy negb].
  destruct (content_ d), cond; reflexivity.
Qed.

(** C5. For a rule with an [aged] field, the age test passes exactly when
    the message's age in minutes is at least [aged]: at or above the
    threshold the rule is decided by its other fields alone, below it the
    rule never fires. The age in minutes is the number [_minutesSinceSent]
    returns, the seconds passed divided by 60 as numbers are divided, and
    the comparison is the comparison of numbers, which is total on those
    that are not NaN. *)
Theorem aged_threshold (reaction : MessageReaction) (d : IMessageDisqualification)
  (a : float) (w : World) :
  aged d = Some a ->
  let minsSince := (timeDiff (clock w) (createdAt (message reaction)) "s" / 60)%float in
  _minutesSinceSent timeDiff (message reaction) w = (Ok minsSince, w)
  /\ (is_nan minsSince = false -> is_nan a = false ->
      (numLt minsSince a = false <-> (a <=? minsSince)%float = true))
  /\ ((a <=? minsSince)%float = true ->
      _isDisqualified timeDiff getMessageMemberOrAuthor reaction d w
      = _isDisqualified timeDiff getMessageMemberOrAuthor reaction (withoutAged d) w)
  /\ ((minsSince <? a)%float = true ->
      _isDisqualified timeDiff getMessageMemberOrAuthor reaction d w = (Ok false, w)).
Proof.
  intros Haged minsSince. split; [reflexivity|]. split; [apply numLt_false|].
  split.
  - intros Hold. apply leb_numLt in Hold.
    unfold _isDisqualified, withoutAged. cbn [authors channels content_ aged reason].
    rewrite Haged. run. rewrite minutesSinceSent_run. fold minsSince. rewrite Hold.
    reflexivity.
  - intros Hyoung.
    unfold _isDisqualified. rewrite Haged. run. rewrite minutesSinceSent_run.
    fold minsSince. unfold numLt. rewrite Hyoung. reflexivity.
Qed.

(** C6 at its failing input: a rule whose only field is a content condition
    fires on every message, also on one whose text the condition rejects. *)
Theorem isDisqualified_ignores_content :
  (forall reaction cond reason w,
      _isDisqualified timeDiff getMessageMemberOrAuthor reaction
        {| authors := None; channels := None; content_ := Some cond;
           aged := None; reason := reason |} w
      = (Ok true, w))
  /\ (forall w, _contentMatch "bar" ("equal", "foo") w = (Ok false, w)).
Proof.
  split; reflexivity.
Qed.

Lemma disqualifyLoop_passes (reaction : MessageReaction)
  (pre rest : list IMessageDisqualification) (w w' : World) :
  passes (_isDisqualified timeDiff getMessageMemberOrAuthor reaction) pre w w' ->
  disqualifyLoop timeDiff getMessageMemberOrAuthor reaction (pre ++ rest) w
  = disqualifyLoop timeDiff getMessageMemberOrAuthor reaction rest w'.
Proof.
  revert w. induction pre as [|d pre IH]; intros w Hpasses.
  - cbn in Hpasses. now subst.
  - destruct Hpasses as (w1 & Hd & Hrest).
    cbn [app disqualifyLoop]. run. rewrite Hd. now apply IH.
Qed.

(** C2 (as amended). The bad-star check tries the rules in configured
    order and answers with the first rule that fires: its reason when that
    is a non-empty string, the flag [true] when the rule has no reason or
    an empty one. With no rule firing it answers [false]. *)
Theorem handleDisqualify_first_match (settings : IStarControlSettings)
  (toCheck : IAddedReaction) (disquals : list IMessageDisqualification) (w : World) :
  badStars settings = Some disquals ->
  (forall pre d post w1 w2,
      disquals = pre ++ d :: post ->
      passes (_isDisqualified timeDiff getMessageMemberOrAuthor (reaction toCheck)) pre w w1 ->
      _isDisqualified timeDiff getMessageMemberOrAuthor (reaction toCheck) d w1
      = (Ok true, w2) ->
      _handleDisqualify timeDiff getMessageMemberOrAuthor settings toCheck w
      = (Ok match reason d with
            | Some r => if strTruthy r then VStr r else VBool true
            | None => VBool true
            end, w2))
  /\ (forall w1,
         passes (_isDisqualified timeDiff getMessageMemberOrAuthor (reaction toCheck))
           disquals w w1 ->
         _handleDisqualify timeDiff getMessageMemberOrAuthor settings toCheck w
         = (Ok (VBool false), w1)).
Proof.
  intros Hbad. unfold _handleDisqualify. rewrite Hbad. split.
  - intros pre d post w1 w2 -> Hpre Hd.
    rewrite (disqualifyLoop_passes _ pre (d :: post) w w1 Hpre).
    cbn [disqualifyLoop]. run. rewrite Hd. reflexivity.
  - intros w1 Hall.
    rewrite <- (app_nil_r disquals).
    rewrite (disqualifyLoop_passes _ disquals [] w w1 Hall). reflexivity.
Qed.

End Disqualification.

Section DisqualificationSamples.
Import Js StarsControl Spec Samples.

(** A message exactly ten minutes old meets a threshold of ten minutes,
    and misses one of ten minutes and a 1024th. *)
Lemma aged_threshold_witness :
  _isDisqualified secondsBetween (resolveSender (fun _ => None)) (star post)
    (olderThan 10 None) quiet
  = (Ok true, quiet)
  /\ _isDisqualified secondsBetween (resolveSender (fun _ => None)) (star post)
       (olderThan 10.0009765625 None) quiet
     = (Ok false, quiet).
Proof.
  split.
  - rewrite (proj1 (proj2 (proj2
               (aged_threshold secondsBetween (resolveSender (fun _ => None)) (star post)
                  (olderThan 10 None) 10 quiet eq_refl)))).
    + reflexivity.
    + reflexivity.
  - apply (proj2 (proj2 (proj2
             (aged_threshold secondsBetween (resolveSender (fun _ => None)) (star post)
                (olderThan 10.0009765625 None) 10.0009765625 quiet eq_refl)))).
    reflexivity.
Defined.

(** The minutes are a quotient of numbers. After 10200 milliseconds the
    message is [0x1.5c28f5c28f5c2p-3] minutes old, the number below 0.17
    ([0x1.5c28f5c28f5c3p-3]), and misses a threshold of 0.17 minutes; after
    6000 milliseconds it is 0.1 ([0x1.999999999999ap-4]) minutes old and
    meets a threshold of 0.1 minutes. *)
Lemma minutes_are_a_quotient_of_numbers :
  _minutesSinceSent secondsBetween post (quietAt 10200)
  = (Ok 0x1.5c28f5c28f5c2p-3%float, quietAt 10200)
  /\ _isDisqualified secondsBetween (resolveSender (fun _ => None)) (star post)
       (olderThan 0x1.5c28f5c28f5c3p-3 None) (quietAt 10200)
     = (Ok false, quietAt 10200)
  /\ _minutesSinceSent secondsBetween post (quietAt 6000)
     = (Ok 0x1.999999999999ap-4%float, quietAt 6000)
  /\ _isDisqualified secondsBetween (resolveSender (fun _ => None)) (star post)
       (olderThan 0x1.999999999999ap-4 None) (quietAt 6000)
     = (Ok true, quietAt 6000).
Proof. repeat split; reflexivity. Qed.

(** Two rules of which only the second fires: the answer is the second
    rule's reason. *)
Lemma handleDisqualify_first_match_witness :
  _handleDisqualify secondsBetween (resolveSender (fun _ => None))
    (withBadStars [olderThan 1440 (Some "too old");
                   inChannels ["general"] (Some "no stars here")])
    {| reaction := star post; user := alice |} quiet
  = (Ok (VStr "no stars here"), quiet).
Proof.
  refine (proj1 (handleDisqualify_first_match secondsBetween
                   (resolveSender (fun _ => None))
                   (withBadStars [olderThan 1440 (Some "too old");
                                  inChannels ["general"] (Some "no stars here")])
                   {| reaction := star post; user := alice |}
                   [olderThan 1440 (Some "too old");
                    inChannels ["general"] (Some "no stars here")]
                   quiet eq_refl)
                [olderThan 1440 (Some "too old")]
                (inChannels ["general"] (Some "no stars here")) [] quiet quiet
                eq_refl _ eq_refl).
  exists quiet. split; reflexivity.
Defined.

(** C2 (as stated) fails: a rule configured with the empty string as its
    reason fires, and the answer is the flag [true], not that string. *)
Lemma handleDisqualify_empty_reason_counterexample :
  reason (inChannels ["general"] (Some EmptyString)) = Some EmptyString
  /\ _isDisqualified secondsBetween (resolveSender (fun _ => None)) (star post)
       (inChannels ["general"] (Some EmptyString)) quiet
     = (Ok true, quiet)
  /\ _handleDisqualify secondsBetween (resolveSender (fun _ => None))
       (withBadStars [inChannels ["general"] (Some EmptyString)])
       {| reaction := star post; user := alice |} quiet
     = (Ok (VBool true), quiet)
  /\ VBool true <> VStr EmptyString.
Proof.
  repeat split; try reflexivity. discriminate.
Qed.

End DisqualificationSamples.

(** ** Properties of the author matcher *)

Section Authors.
Import Js StarsControl Spec.

Variable getMessageMemberOrAuthor : Message -> M World (option Sender).

(** With no sender resolved, only the entries that name integrations can
    match the message. *)
Lemma authoredByLoop_unattributed (msg : Message) (hookId : string)
  (authors : list string) :
  webhookID msg = Some hookId ->
  strTruthy hookId = true ->
  authoredByLoop msg None authors = existsb (hookEntryMatches hookId) authors.
Proof.
  intros Hhook Htruthy.
  induction authors as [|author rest IH]; [reflexivity|].
  cbn [authoredByLoop existsb]. unfold hookEntryMatches at 1.
  rewrite Hhook, Htruthy.
  destruct (String.eqb_spec author "$bots") as [->|_]; [exact IH|].
  destruct (String.eqb author "$hooks"); [reflexivity|].
  cbn [orb String.length].
  destruct (startsWith author "$hook:"); cbn [andb].
  - destruct (String.eqb hookId (slice 6 author)); [reflexivity | exact IH].
  - exact IH.
Qed.

Lemma existsb_hookEntryMatches_literals (hookId : string) (authors : list string) :
  forallb (fun a => negb (isHookEntry a)) authors = true ->
  existsb (hookEntryMatches hookId) authors = false.
Proof.
  induction authors as [|author rest IH]; [reflexivity|].
  cbn [forallb existsb]. intros Hlit.
  apply andb_true_iff in Hlit as [Hauthor Hrest].
  rewrite (IH Hrest), orb_false_r.
  unfold isHookEntry in Hauthor. unfold hookEntryMatches.
  apply negb_true_iff, orb_false_iff in Hauthor as [-> ->]. reflexivity.
Qed.

(** C3. A message posted through an external integration, whose sender
    resolves to no account, is matched by an authors list exactly when the
    list holds [$hooks] or the [$hook:ID] entry of that integration; a list
    of other entries, literal account identifiers among them, never
    matches it. *)
Theorem authoredBy_webhook_message (msg : Message) (hookId : string)
  (authors : list string) (w w' : World) :
  webhookID msg = Some hookId ->
  strTruthy hookId = true ->
  getMessageMemberOrAuthor msg w = (Ok None, w') ->
  _authoredBy getMessageMemberOrAuthor msg authors w
  = (Ok (existsb (hookEntryMatches hookId) authors), w')
  /\ (forallb (fun a => negb (isHookEntry a)) authors = true ->
      _authoredBy getMessageMemberOrAuthor msg authors w = (Ok false, w')).
Proof.
  intros Hhook Htruthy Hsender.
  assert (Hrun : _authoredBy getMessageMemberOrAuthor msg authors w
                 = (Ok (existsb (hookEntryMatches hookId) authors), w')).
  { unfold _authoredBy. run. rewrite Hsender. cbn [option_map].
    now rewrite (authoredByLoop_unattributed msg hookId). }
  split; [exact Hrun|].
  intros Hlit. rewrite Hrun.
  now rewrite existsb_hookEntryMatches_literals.
Qed.

End Authors.

Section AuthorsSamples.
Import Js StarsControl Spec Samples.

(** The integration's own identifier, written as a literal account entry,
    does not match its message; the [$hook:42] entry does. *)
Lemma authoredBy_webhook_message_witness :
  _authoredBy (resolveSender (fun _ => Some (AsUser alice))) hooked ["42"; "1001"; "$bots"]
    quiet
  = (Ok false, quiet)
  /\ _authoredBy (resolveSender (fun _ => Some (AsUser alice))) hooked ["42"; "$hook:42"]
       quiet
     = (Ok true, quiet).
Proof.
  split.
  - exact (proj2 (authoredBy_webhook_message
                    (resolveSender (fun _ => Some (AsUser alice))) hooked "42"
                    ["42"; "1001"; "$bots"] quiet quiet eq_refl eq_refl eq_refl)
                 eq_refl).
  - exact (proj1 (authoredBy_webhook_message
                    (resolveSender (fun _ => Some (AsUser alice))) hooked "42"
                    ["42"; "$hook:42"] quiet quiet eq_refl eq_refl eq_refl)).
Defined.

End AuthorsSamples.

(** ** Properties of the regex cache and of the blocked-starrer check *)

Section Starrers.
Import Js StarsControl Spec Samples.

Variable regexSyntaxOk : string -> bool.
Variable regexTest : string -> string -> bool.

Lemma regExp_hit (str : string) (re : RegExp) (w : World) :
  REGEX_CACHE w !! str = Some re ->
  regExp regexSyntaxOk str w = (Ok re, w).
Proof.
  intros Hhit. unfold regExp. run. now rewrite Hhit.
Qed.

Lemma regExp_miss (str : string) (w : World) :
  REGEX_CACHE w !! str = None ->
  regExp regexSyntaxOk str w
  = if regexSyntaxOk str
    then (Ok {| stamp := allocated w; source := str |},
          withCache (insert str {| stamp := allocated w; source := str |})
            (withAllocated (S (allocated w)) w))
    else (Throw "SyntaxError", w).
Proof.
  intros Hmiss. unfold regExp, newRegExp. run. rewrite Hmiss.
  destruct (regexSyntaxOk str); reflexivity.
Qed.

(** Two compilations that bypass the cache give two different objects. *)
Lemma newRegExp_fresh (str : string) (w w1 w2 : World) (re1 re2 : RegExp) :
  newRegExp regexSyntaxOk str w = (Ok re1, w1) ->
  newRegExp regexSyntaxOk str w1 = (Ok re2, w2) ->
  stamp re2 = S (stamp re1).
Proof.
  unfold newRegExp. destruct (regexSyntaxOk str); [|discriminate].
  intros [= <- <-] [= <- _]. reflexivity.
Qed.

Lemma regExp_keeps_cache (str : string) (w : World) :
  REGEX_CACHE w ⊆ REGEX_CACHE (snd (regExp regexSyntaxOk str w)).
Proof.
  destruct (REGEX_CACHE w !! str) as [re|] eqn:Hlookup.
  - now rewrite (regExp_hit str re w Hlookup).
  - rewrite (regExp_miss str w Hlookup).
    destruct (regexSyntaxOk str); cbn [snd]; [|reflexivity].
    cbn [withCache withAllocated REGEX_CACHE]. now apply insert_subseteq.
Qed.

Lemma starredBy_keeps_cache (user : User) (starrers : list string) (w : World) :
  REGEX_CACHE w ⊆ REGEX_CACHE (snd (_starredBy regexSyntaxOk regexTest user starrers w)).
Proof.
  revert w. induction starrers as [|starrer rest IH]; intros w; [reflexivity|].
  cbn [_starredBy].
  repeat match goal with
         | |- context [if ?b then _ else _] => destruct b
         end; try reflexivity; try apply IH.
  all: run; pose proof (regExp_keeps_cache
                          (slice (String.length "$username_reg:") starrer) w) as Hkeep;
    destruct (regExp regexSyntaxOk _ w) as [[re|e] w1]; cbn [snd] in *;
    try exact Hkeep;
    destruct (regexTest (source re) (username user)); cbn [snd]; try exact Hkeep;
    (etransitivity; [exact Hkeep | apply IH]).
Qed.

(** C8. Compiling a source a second time gives back what the first
    compilation gave, the very same object when there is one, and changes
    nothing; a source the engine accepts always yields an object, which
    the cache then holds; and no entry of the cache is ever dropped, by
    [regExp] or by the check that calls it. *)
Theorem regExp_cached_identity (str : string) (w : World) :
  regExp regexSyntaxOk str (snd (regExp regexSyntaxOk str w))
  = regExp regexSyntaxOk str w
  /\ (regexSyntaxOk str = true ->
      exists re,
        regExp regexSyntaxOk str w = (Ok re, snd (regExp regexSyntaxOk str w))
        /\ REGEX_CACHE (snd (regExp regexSyntaxOk str w)) !! str = Some re)
  /\ REGEX_CACHE w ⊆ REGEX_CACHE (snd (regExp regexSyntaxOk str w))
  /\ (forall user starrers,
         REGEX_CACHE w
         ⊆ REGEX_CACHE (snd (_starredBy regexSyntaxOk regexTest user starrers w))).
Proof.
  split; [|split; [|split]].
  - destruct (REGEX_CACHE w !! str) as [re|] eqn:Hlookup.
    + rewrite (regExp_hit str re w Hlookup). cbn [snd]. now apply regExp_hit.
    + rewrite (regExp_miss str w Hlookup).
      destruct (regexSyntaxOk str) eqn:Hok; cbn [snd].
      * rewrite (regExp_hit str {| stamp := allocated w; source := str |}); [reflexivity|].
        cbn [withCache withAllocated REGEX_CACHE]. apply lookup_insert_eq.
      * rewrite (regExp_miss str w Hlookup). now rewrite Hok.
  - intros Hok. destruct (REGEX_CACHE w !! str) as [re|] eqn:Hlookup.
    + exists re. rewrite (regExp_hit str re w Hlookup). cbn [snd]. now split.
    + exists {| stamp := allocated w; source := str |}.
      rewrite (regExp_miss str w Hlookup), Hok. cbn [snd]. split; [reflexivity|].
      cbn [withCache withAllocated REGEX_CACHE]. apply lookup_insert_eq.
  - apply regExp_keeps_cache.
  - intros user starrers. apply starredBy_keeps_cache.
Qed.

(** C4 at its failing input. The rule [$username:NAME] is compared with
    the handle after only [$username] is cut off, so it holds exactly for
    the handle [:NAME]; the user whose handle is [alice] is not blocked by
    [$username:alice]. *)
Theorem starredBy_username_rule_keeps_colon :
  (forall name user w,
      _starredBy regexSyntaxOk regexTest user [("$username:" ++ name)%string] w
      = (Ok (String.eqb (username user) (":" ++ name)%string), w))
  /\ (forall w,
         username alice = "alice"
         /\ _starredBy regexSyntaxOk regexTest alice ["$username:alice"] w = (Ok false, w)).
Proof.
  split.
  - intros name user w. cbv beta iota delta [String.append]. cbn.
    replace (String.prefix EmptyString name) with true by now destruct name.
    destruct (String.eqb (username user) (String ":" name)); reflexivity.
  - intros w. split; reflexivity.
Qed.

End Starrers.

(** ** Properties of the censure action *)

Section Censure.
Import Js StarsControl Spec.

Variable localizeForUser : Sender -> string -> option string -> Result string.
Variable generateLocalizedEmbed : Sender -> string + string -> Result string.

Lemma existsb_filter_out (uid : string) (users : list string) :
  existsb (String.eqb uid) (List.filter (fun u => negb (String.eqb u uid)) users) = false.
Proof.
  induction users as [|u users IH]; [reflexivity|].
  cbn [List.filter]. destruct (String.eqb u uid) eqn:Hu; cbn [negb]; [exact IH|].
  cbn [existsb]. now rewrite String.eqb_sym, Hu.
Qed.

Lemma usersRemove_retracts (reaction : MessageReaction) (user : User) (w : World) :
  mayRetract w = true ->
  exists w',
    usersRemove reaction user w = (Ok tt, w')
    /\ hasStarred w' (messageId (message reaction)) (userId user) = false
    /\ requests w'
       = requests w ++ [RemoveReaction (messageId (message reaction)) (userId user)]
    /\ outbox w' = outbox w /\ logged w' = logged w.
Proof.
  intros Hmay. unfold usersRemove. cbn [withRequests mayRetract]. rewrite Hmay.
  eexists. split; [reflexivity|]. repeat split.
  unfold hasStarred. cbn [withStarredBy withRequests starredBy].
  rewrite lookup_alter_eq.
  destruct (starredBy w !! messageId (message reaction)); [|reflexivity].
  cbn. apply existsb_filter_out.
Qed.

(** A retraction the platform refuses is not caught: the handler throws
    before any warning is tried. *)
Lemma refused_retraction_escalates
  (self : Instance_) (reaction : MessageReaction) (user : User) (g : Guild)
  (disqualProcess : IAddedReaction -> M World (option (string * Detail)))
  (reasons : string * Detail) (w w1 : World) :
  guild (message reaction) = Some g ->
  guildIdOf g = guildId (_settings self) ->
  starEmoji (_settings self) = Some (emojiName reaction) ->
  _compiledDisqualificationProcess self = Some disqualProcess ->
  disqualProcess {| reaction := reaction; user := user |} w = (Ok (Some reasons), w1) ->
  mayRetract w1 = false ->
  exists w',
    _handleReactionAdding localizeForUser generateLocalizedEmbed self reaction user w
    = (Throw "Missing Permissions", w')
    /\ requests w'
       = requests w1 ++ [RemoveReaction (messageId (message reaction)) (userId user)]
    /\ outbox w' = outbox w1.
Proof.
  intros Hguild Hid Hemoji Hcompiled Hrejected Hmay.
  unfold _handleReactionAdding.
  rewrite Hguild, Hid, Hemoji, Hcompiled, !String.eqb_refl. cbn [negb].
  unfold _removeReaction, _log, usersRemove. run. rewrite Hrejected.
  cbn [withRequests withLogged mayRetract]. rewrite Hmay.
  eexists. split; [reflexivity|]. split; reflexivity.
Qed.

(** No star of the user stands on the message once it was filtered out. *)
Lemma hasStarred_filtered (w w' : World) (mid uid : string) :
  starredBy w'
  = alter (List.filter (fun u => negb (String.eqb u uid))) mid (starredBy w) ->
  hasStarred w' mid uid = false.
Proof.
  intros Hstars. unfold hasStarred. rewrite Hstars, lookup_alter_eq.
  destruct (starredBy w !! mid); [|reflexivity].
  cbn. apply existsb_filter_out.
Qed.

(** C9. When the evaluator rejects a reaction, the entry point retracts
    it first and then tries to deliver the localized warning to the member
    (or else the user): whenever the localization yields the embed, the
    request to send it follows the retraction. Whatever becomes of the
    warning, the handler returns [true] and throws nothing, and the
    retraction stands: the message is delivered, or it is not (the embed
    could not be built, or the recipient cannot be messaged) and that is
    logged as a warning. *)
Theorem rejected_reaction_retracted_then_warned
  (self : Instance_) (reaction : MessageReaction) (user : User) (g : Guild)
  (disqualProcess : IAddedReaction -> M World (option (string * Detail)))
  (reasons : string * Detail) (w w1 : World) :
  guild (message reaction) = Some g ->
  guildIdOf g = guildId (_settings self) ->
  starEmoji (_settings self) = Some (emojiName reaction) ->
  _compiledDisqualificationProcess self = Some disqualProcess ->
  disqualProcess {| reaction := reaction; user := user |} w = (Ok (Some reasons), w1) ->
  mayRetract w1 = true ->
  let mid := messageId (message reaction) in
  let to := warned g user in
  let rid := userId (senderUser to) in
  let failed :=
    {| level := "warn";
       text := ("Cannot send warning (" ++ showReasons reasons ++ ") to " ++ tag user)%string |} in
  exists w' disallowed removed,
    _handleReactionAdding localizeForUser generateLocalizedEmbed self reaction user w
    = (Ok true, w')
    /\ hasStarred w' mid (userId user) = false
    /\ match warningEmbed localizeForUser generateLocalizedEmbed to reasons with
       | Ok embed =>
           requests w'
           = requests w1 ++ [RemoveReaction mid (userId user); DirectMessage rid embed]
           /\ if existsb (String.eqb rid) (closedInbox w1)
              then outbox w' = outbox w1
                   /\ logged w'
                      = logged w1 ++ [{| level := "info"; text := disallowed |};
                                      {| level := "info"; text := removed |}; failed]
              else outbox w' = outbox w1 ++ [(rid, embed)]
                   /\ logged w'
                      = logged w1 ++ [{| level := "info"; text := disallowed |};
                                      {| level := "info"; text := removed |}]
       | Throw err =>
           requests w' = requests w1 ++ [RemoveReaction mid (userId user)]
           /\ outbox w' = outbox w1
           /\ logged w'
              = logged w1 ++ [{| level := "info"; text := disallowed |};
                              {| level := "info"; text := removed |}; failed]
       end.
Proof.
  intros Hguild Hid Hemoji Hcompiled Hrejected Hmay mid to rid failed.
  unfold _handleReactionAdding.
  rewrite Hguild, Hid, Hemoji, Hcompiled, !String.eqb_refl. cbn [negb].
  unfold _removeReaction, _log, usersRemove. run. rewrite Hrejected.
  cbn [withRequests withLogged mayRetract]. rewrite Hmay.
  unfold tryCatch. fold (warned g user). fold to.
  unfold warningEmbed, _sendWarning, _sendReasonedWarning, send. run.
  set (disallowed := ("Disallow reaction by " ++ _)%string).
  set (removed := ("Remove reaction of " ++ _)%string).
  destruct (snd reasons) as [flag|reason]; cbv beta zeta;
    repeat (progress cbn [withRequests withLogged withStarredBy closedInbox requests
                            logged outbox]);
    fold rid; fold mid.
  - destruct (generateLocalizedEmbed to _) as [embed|err];
      [destruct (existsb (String.eqb rid) (closedInbox w1))|];
      (eexists; exists disallowed, removed; split; [reflexivity|];
       split; [eapply hasStarred_filtered; reflexivity|];
       repeat (progress cbn [withRequests withLogged withStarredBy withOutbox closedInbox
                               requests logged outbox]);
       rewrite <- ?app_assoc; cbn [app]; auto).
  - destruct (localizeForUser to _ None) as [line|err];
      [destruct (localizeForUser to _ (Some reason)) as [because|err];
       [destruct (generateLocalizedEmbed to _) as [embed|err];
        [destruct (existsb (String.eqb rid) (closedInbox w1))|]|]|];
      (eexists; exists disallowed, removed; split; [reflexivity|];
       split; [eapply hasStarred_filtered; reflexivity|];
       repeat (progress cbn [withRequests withLogged withStarredBy withOutbox closedInbox
                               requests logged outbox]);
       rewrite <- ?app_assoc; cbn [app]; auto).
Qed.
End Censure.

Section CensureSamples.
Import Js StarsControl Spec Samples.

(** [alice] stars her own message and cannot be messaged: the star is
    retracted, the warning is tried after that and fails, which is logged,
    and the handler returns [true]. *)
Lemma rejected_reaction_retracted_then_warned_witness :
  exists w' disallowed removed,
    _handleReactionAdding echoKey plainEmbed compiled (star post) alice starredAndDeaf
    = (Ok true, w')
    /\ hasStarred w' "5000" "1001" = false
    /\ requests w'
       = [RemoveReaction "5000" "1001";
          DirectMessage "1001" "DNSERV_STAR_BLOCKED@SELF-STAR"]
    /\ outbox w' = []
    /\ logged w'
       = [{| level := "info"; text := disallowed |};
          {| level := "info"; text := removed |};
          {| level := "warn";
             text := "Cannot send warning (SELF-STAR,true) to alice#0001" |}].
Proof.
  exact (rejected_reaction_retracted_then_warned echoKey plainEmbed compiled (star post)
           alice home
           (calledAnyOf truthy
              (disqualificationSteps (fun _ => true) (fun _ _ => false) secondsBetween
                 (fun msg => mret (Some alice)) (resolveSender (fun _ => None))
                 (withBadStars []))
              None)
           ("SELF-STAR", VBool true) starredAndDeaf starredAndDeaf
           eq_refl eq_refl eq_refl eq_refl eq_refl eq_refl).
Defined.

End CensureSamples.

(** ** Properties of the house-roles record store *)

Section HouseRecords.
Import Js HouseRoles.

Lemma getRecord_run (member : GuildMember) (useCache : bool) (rows : list HouseRecord)
  (w : World) :
  INIT_COMPLETE w = true ->
  tables w !! TABLE_NAME w = Some rows ->
  getRecord member useCache w
  = match (if useCache then LOCAL_CACHE w !! getLocalKey member else None) with
    | Some r => (Ok (Some r), w)
    | None =>
        match List.find
                (fun r => String.eqb (guildId r) (memberGuild member)
                          && String.eqb (memberId r) (memberIdOf member)) rows with
        | Some r => (Ok None, withLocalCache (insert (getLocalKey member) r) w)
        | None => (Ok None, w)
        end
    end.
Proof.
  intros Hinit Htable. unfold getRecord, mustBeInitialized, whereFirst. run.
  rewrite Hinit. cbn [negb].
  destruct (if useCache then LOCAL_CACHE w !! getLocalKey member else None);
    [reflexivity|].
  rewrite Htable. now destruct (List.find _ rows).
Qed.

(** [getRecord] hands out a record only when it found it in the cache. *)
Lemma getRecord_some_is_cached (member : GuildMember) (useCache : bool)
  (r : HouseRecord) (w w' : World) :
  getRecord member useCache w = (Ok (Some r), w') ->
  useCache = true /\ LOCAL_CACHE w !! getLocalKey member = Some r.
Proof.
  unfold getRecord, mustBeInitialized, whereFirst. run.
  destruct (INIT_COMPLETE w); cbn [negb]; [|discriminate].
  destruct useCache.
  - destruct (LOCAL_CACHE w !! getLocalKey member) as [cached|].
    + intros [= -> _]. now split.
    + destruct (tables w !! TABLE_NAME w) as [rows|]; [|discriminate].
      now destruct (List.find _ rows).
  - destruct (tables w !! TABLE_NAME w) as [rows|]; [|discriminate].
    now destruct (List.find _ rows).
Qed.

(** C10. [getRecord] returns a record only on a hit in the local cache.
    When the cache is bypassed or has no entry for the member, it returns
    [undefined] even though the query finds a record; that record is put in
    the cache, and the next call that uses the cache returns it. *)
Theorem getRecord_returns_only_cache_hits (member : GuildMember) (useCache : bool)
  (rows : list HouseRecord) (w : World) :
  INIT_COMPLETE w = true ->
  tables w !! TABLE_NAME w = Some rows ->
  (forall r,
      useCache = true ->
      LOCAL_CACHE w !! getLocalKey member = Some r ->
      getRecord member useCache w = (Ok (Some r), w))
  /\ (forall r,
         useCache = false \/ LOCAL_CACHE w !! getLocalKey member = None ->
         List.find (fun r => String.eqb (guildId r) (memberGuild member)
                             && String.eqb (memberId r) (memberIdOf member)) rows
         = Some r ->
         getRecord member useCache w
         = (Ok None, withLocalCache (insert (getLocalKey member) r) w)
         /\ getRecord member true (withLocalCache (insert (getLocalKey member) r) w)
            = (Ok (Some r), withLocalCache (insert (getLocalKey member) r) w))
  /\ (useCache = false \/ LOCAL_CACHE w !! getLocalKey member = None ->
      List.find (fun r => String.eqb (guildId r) (memberGuild member)
                          && String.eqb (memberId r) (memberIdOf member)) rows
      = None ->
      getRecord member useCache w = (Ok None, w))
  /\ (forall r w',
         getRecord member useCache w = (Ok (Some r), w') ->
         useCache = true /\ LOCAL_CACHE w !! getLocalKey member = Some r).
Proof.
  intros Hinit Htable.
  pose proof (getRecord_run member useCache rows w Hinit Htable) as Hrun.
  split; [|split; [|split]].
  - intros r -> Hhit. now rewrite Hrun, Hhit.
  - intros r Hmiss Hfound.
    assert (Hcached : (if useCache then LOCAL_CACHE w !! getLocalKey member else None)
                      = None)
      by (destruct Hmiss as [->|Hnone]; [reflexivity | now destruct useCache]).
    rewrite Hrun, Hcached, Hfound. split; [reflexivity|].
    rewrite (getRecord_run member true rows) by assumption.
    cbn [withLocalCache LOCAL_CACHE]. now rewrite lookup_insert_eq.
  - intros Hmiss Hnone.
    assert (Hcached : (if useCache then LOCAL_CACHE w !! getLocalKey member else None)
                      = None)
      by (destruct Hmiss as [->|Hmiss]; [reflexivity | now destruct useCache]).
    now rewrite Hrun, Hcached, Hnone.
  - intros r w'. apply getRecord_some_is_cached.
Qed.

End HouseRecords.

Section HouseRecordsSamples.
Import Js HouseRoles HouseSamples.

(** The table knows [bob], yet the first call returns nothing; the second
    one finds the record in the cache. *)
Lemma getRecord_returns_only_cache_hits_witness :
  getRecord bob true warmDatabase
  = (Ok None, withLocalCache (insert (getLocalKey bob) bobsHouse) warmDatabase)
  /\ getRecord bob true (withLocalCache (insert (getLocalKey bob) bobsHouse) warmDatabase)
     = (Ok (Some bobsHouse),
        withLocalCache (insert (getLocalKey bob) bobsHouse) warmDatabase).
Proof.
  exact (proj1 (proj2 (getRecord_returns_only_cache_hits bob true [bobsHouse]
                         warmDatabase eq_refl eq_refl))
               bobsHouse (or_intror eq_refl) eq_refl).
Defined.

End HouseRecordsSamples.

(** ** Further properties of the any-of combinator *)

Section AnyOfFurther.
Import Js StarsControl Spec Notions.

Context {T R : Type} (toBoolean : R -> bool) (args : T).

Lemma keys_outcomeProbes (o : JsObject (T -> Outcome R)) :
  keys (outcomeProbes o) = keys o.
Proof.
  unfold keys, outcomeProbes. rewrite map_map. now apply map_ext.
Qed.

Lemma anyOfLoop_goesOn (how : option (R -> bool)) (pre rest : JsObject (T -> Outcome R))
  (calls : list string) :
  Forall (goesOn toBoolean how args) pre ->
  anyOfLoop toBoolean (outcomeProbes (pre ++ rest)) how args calls
  = anyOfLoop toBoolean (outcomeProbes rest) how args (calls ++ keys pre).
Proof.
  revert calls. induction pre as [|[n0 f0] pre IH]; intros calls Hpre.
  - cbn. now rewrite app_nil_r.
  - inversion Hpre as [|? ? (r & Hr & Hon) Hrest]; subst. cbn [snd] in Hr.
    cbn [app outcomeProbes map fst snd anyOfLoop].
    unfold mbind, M_bind, bind, outcomeProbe. rewrite Hr.
    fold (outcomeProbes (pre ++ rest)).
    destruct how as [h|]; rewrite Hon, IH by assumption;
      cbn [keys map fst]; now rewrite <- app_assoc.
Qed.

(** A check that throws ends the evaluation with its error: the checks
    before it were called in order and let it go on, the checks after it
    are never called, and nothing is caught. *)
Theorem calledAnyOf_propagates_throw (how : option (R -> bool))
  (o pre post : JsObject (T -> Outcome R)) (name : string) (f : T -> Outcome R)
  (e : string) (calls : list string) :
  namedOnly o ->
  o = pre ++ (name, f) :: post ->
  Forall (goesOn toBoolean how args) pre ->
  f args = Throws e ->
  calledAnyOf toBoolean (outcomeProbes o) how args calls
  = (Throw e, calls ++ keys pre ++ [name]).
Proof.
  intros Hnamed -> Hpre Hf.
  rewrite calledAnyOf_named
    by (unfold namedOnly in *; now rewrite keys_outcomeProbes).
  rewrite anyOfLoop_goesOn by assumption.
  cbn [outcomeProbes map fst snd anyOfLoop].
  unfold mbind, M_bind, bind, outcomeProbe. rewrite Hf.
  now rewrite <- app_assoc.
Qed.

(** With a [how] of its own the evaluator stops at the first result that
    [how] accepts, whatever the truthiness of the results: a truthy result
    that [how] declines does not stop it, a falsy one that [how] accepts
    does. *)
Theorem calledAnyOf_how_decides (h : R -> bool)
  (o pre post : JsObject (T -> Outcome R)) (name : string) (f : T -> Outcome R)
  (r : R) (calls : list string) :
  namedOnly o ->
  o = pre ++ (name, f) :: post ->
  Forall (fun p => exists r0, snd p args = Returns r0 /\ h r0 = false) pre ->
  f args = Returns r ->
  h r = true ->
  calledAnyOf toBoolean (outcomeProbes o) (Some h) args calls
  = (Ok (Some (name, r)), calls ++ keys pre ++ [name]).
Proof.
  intros Hnamed -> Hpre Hf Hr.
  rewrite calledAnyOf_named
    by (unfold namedOnly in *; now rewrite keys_outcomeProbes).
  rewrite (anyOfLoop_goesOn (Some h)) by exact Hpre.
  cbn [outcomeProbes map fst snd anyOfLoop].
  unfold mbind, M_bind, bind, outcomeProbe. rewrite Hf, Hr.
  now rewrite <- app_assoc.
Qed.

End AnyOfFurther.

Section AnyOfFurtherSamples.
Import Js StarsControl Spec Notions.

(** The second of three checks throws: the third is never called. *)
Lemma calledAnyOf_propagates_throw_witness :
  calledAnyOf truthy
    (outcomeProbes [("ONE", fun _ : unit => Returns (VBool false));
                    ("TWO", fun _ => Throws "boom");
                    ("THREE", fun _ => Returns (VBool true))])
    None tt []
  = (Throw "boom", ["ONE"; "TWO"]).
Proof.
  refine (calledAnyOf_propagates_throw truthy tt None
            [("ONE", fun _ : unit => Returns (VBool false));
             ("TWO", fun _ => Throws "boom");
             ("THREE", fun _ => Returns (VBool true))]
            [("ONE", fun _ : unit => Returns (VBool false))]
            [("THREE", fun _ => Returns (VBool true))]
            "TWO" (fun _ => Throws "boom") "boom" [] _ eq_refl _ eq_refl).
  - repeat constructor.
  - constructor; [|constructor]. exists (VBool false). now split.
Defined.

(** With [how] asking for a string, the truthy [true] of the first check
    is passed over and the empty string of the second one stops the run. *)
Lemma calledAnyOf_how_decides_witness :
  calledAnyOf truthy
    (outcomeProbes [("ONE", fun _ : unit => Returns (VBool true));
                    ("TWO", fun _ => Returns (VStr EmptyString));
                    ("THREE", fun _ => Returns (VStr "late"))])
    (Some (fun r => match r with VStr _ => true | VBool _ => false end)) tt []
  = (Ok (Some ("TWO", VStr EmptyString)), ["ONE"; "TWO"]).
Proof.
  refine (calledAnyOf_how_decides truthy tt
            (fun r => match r with VStr _ => true | VBool _ => false end)
            [("ONE", fun _ : unit => Returns (VBool true));
             ("TWO", fun _ => Returns (VStr EmptyString));
             ("THREE", fun _ => Returns (VStr "late"))]
            [("ONE", fun _ : unit => Returns (VBool true))]
            [("THREE", fun _ => Returns (VStr "late"))]
            "TWO" (fun _ => Returns (VStr EmptyString)) (VStr EmptyString) []
            _ eq_refl _ eq_refl eq_refl).
  - repeat constructor.
  - constructor; [|constructor]. exists (VBool true). now split.
Defined.

End AnyOfFurtherSamples.

(** ** Further properties of the event entry point *)

Section EntryPoint.
Import Js StarsControl Spec Notions.

Variable localizeForUser : Sender -> string -> option string -> Result string.
Variable generateLocalizedEmbed : Sender -> string + string -> Result string.

(** A reaction outside the configured guild, or with another emoji than
    the configured one, is ignored: the handler returns [false] and nothing
    happens, the evaluator is not even called. *)
Theorem reaction_out_of_scope_is_ignored (self : Instance_) (reaction : MessageReaction)
  (user : User) (w : World) :
  match guild (message reaction) with
  | Some g =>
      guildIdOf g <> guildId (_settings self)
      \/ starEmoji (_settings self) <> Some (emojiName reaction)
  | None => True
  end ->
  _handleReactionAdding localizeForUser generateLocalizedEmbed self reaction user w
  = (Ok false, w).
Proof.
  intros Hout. unfold _handleReactionAdding.
  destruct (guild (message reaction)) as [g|]; [|reflexivity].
  destruct (String.eqb_spec (guildIdOf g) (guildId (_settings self))) as [Hsame|Hother];
    [|reflexivity].
  cbn [negb]. destruct Hout as [Hguild|Hemoji]; [contradiction|].
  destruct (starEmoji (_settings self)) as [e|]; [|reflexivity].
  destruct (String.eqb_spec (emojiName reaction) e) as [Heq|Hne]; [|reflexivity].
  congruence.
Qed.

(** A reaction the evaluator accepts is left alone: the handler returns
    [false] and adds nothing to what the evaluation did. An error thrown
    during the evaluation leaves the handler as it is, and nothing is
    retracted. *)
Theorem unrejected_reaction_is_left_alone
  (self : Instance_) (reaction : MessageReaction) (user : User) (g : Guild)
  (disqualProcess : IAddedReaction -> M World (option (string * Detail)))
  (w w1 : World) :
  guild (message reaction) = Some g ->
  guildIdOf g = guildId (_settings self) ->
  starEmoji (_settings self) = Some (emojiName reaction) ->
  _compiledDisqualificationProcess self = Some disqualProcess ->
  (disqualProcess {| reaction := reaction; user := user |} w = (Ok None, w1) ->
   _handleReactionAdding localizeForUser generateLocalizedEmbed self reaction user w
   = (Ok false, w1))
  /\ (forall e,
         disqualProcess {| reaction := reaction; user := user |} w = (Throw e, w1) ->
         _handleReactionAdding localizeForUser generateLocalizedEmbed self reaction user w
         = (Throw e, w1)).
Proof.
  intros Hguild Hid Hemoji Hcompiled.
  unfold _handleReactionAdding.
  rewrite Hguild, Hid, Hemoji, Hcompiled, !String.eqb_refl. cbn [negb].
  run. split.
  - intros Haccepted. now rewrite Haccepted.
  - intros e Hfailed. now rewrite Hfailed.
Qed.

(** A rejected reaction whose warning can be built and delivered: the
    actor, as a member of the guild when they are one, receives exactly
    one message. For a string detail its text is the localized line of the
    step, an empty line, and the localized line of the reason; for the
    flag [true] it is the embed of the step's key alone. Nothing is logged
    as a warning. *)
Theorem rejected_reaction_warning_text
  (self : Instance_) (reaction : MessageReaction) (user : User) (g : Guild)
  (disqualProcess : IAddedReaction -> M World (option (string * Detail)))
  (step : string) (detail : Detail) (embed : string) (w w1 : World) :
  guild (message reaction) = Some g ->
  guildIdOf g = guildId (_settings self) ->
  starEmoji (_settings self) = Some (emojiName reaction) ->
  _compiledDisqualificationProcess self = Some disqualProcess ->
  disqualProcess {| reaction := reaction; user := user |} w
  = (Ok (Some (step, detail)), w1) ->
  mayRetract w1 = true ->
  let to := match membersGet (members g) (userId user) with
            | Some m => AsMember m
            | None => AsUser user
            end in
  existsb (String.eqb (userId (senderUser to))) (closedInbox w1) = false ->
  match detail with
  | VStr reason =>
      exists line because,
        localizeForUser to ("DNSERV_STAR_BLOCKED@" ++ step)%string None = Ok line
        /\ localizeForUser to "DNSERV_STAR_BLOCKED_REASON" (Some reason) = Ok because
        /\ generateLocalizedEmbed to (inr ((line ++ newline ++ newline) ++ because)%string)
           = Ok embed
  | VBool _ =>
      generateLocalizedEmbed to (inl ("DNSERV_STAR_BLOCKED@" ++ step)%string) = Ok embed
  end ->
  exists w' notes,
    _handleReactionAdding localizeForUser generateLocalizedEmbed self reaction user w
    = (Ok true, w')
    /\ outbox w' = outbox w1 ++ [(userId (senderUser to), embed)]
    /\ requests w'
       = requests w1
         ++ [RemoveReaction (messageId (message reaction)) (userId user);
             DirectMessage (userId (senderUser to)) embed]
    /\ logged w' = logged w1 ++ notes
    /\ Forall (fun note => level note = "info") notes.
Proof.
  intros Hguild Hid Hemoji Hcompiled Hrejected Hmay to Hopen Htext.
  unfold _handleReactionAdding.
  rewrite Hguild, Hid, Hemoji, Hcompiled, !String.eqb_refl. cbn [negb].
  unfold _removeReaction, _log, usersRemove. run. rewrite Hrejected.
  cbn [withRequests withLogged mayRetract]. rewrite Hmay.
  unfold tryCatch. cbn [fst snd]. fold to.
  destruct detail as [b|reason].
  - unfold _sendWarning, send, getAutoReasonStr. run. rewrite Htext.
    cbn [withStarredBy withRequests withLogged closedInbox]. rewrite Hopen.
    do 2 eexists. split; [reflexivity|].
    cbn [withOutbox withStarredBy withRequests withLogged outbox requests logged].
    rewrite <- !app_assoc. split; [reflexivity|]. split; [reflexivity|].
    split; [reflexivity|]. repeat constructor.
  - destruct Htext as (line & because & Hline & Hbecause & Hembed).
    unfold _sendReasonedWarning, send, getAutoReasonStr. run.
    rewrite Hline, Hbecause.
    rewrite Hembed.
    cbn [withStarredBy withRequests withLogged closedInbox]. rewrite Hopen.
    do 2 eexists. split; [reflexivity|].
    cbn [withOutbox withStarredBy withRequests withLogged outbox requests logged].
    rewrite <- !app_assoc. split; [reflexivity|]. split; [reflexivity|].
    split; [reflexivity|]. repeat constructor.
Qed.

End EntryPoint.

Section EntryPointSamples.
Import Js StarsControl Spec Notions Samples Scenarios.

(** A thumbs-up on [post] is none of the cog's business. *)
Lemma reaction_out_of_scope_is_ignored_witness :
  _handleReactionAdding echoKey plainEmbed compiled
    {| emojiName := "thumbsup"; message := post |} alice starredAndDeaf
  = (Ok false, starredAndDeaf).
Proof.
  apply (reaction_out_of_scope_is_ignored echoKey plainEmbed compiled
           {| emojiName := "thumbsup"; message := post |} alice starredAndDeaf).
  right. cbn. discriminate.
Defined.

(** [carol] stars [alice]'s post and no rule objects. *)
Lemma unrejected_reaction_is_left_alone_witness :
  _handleReactionAdding echoKey plainEmbed (compiledFrom (withBadStars [])) (star post)
    carol starredByCarol
  = (Ok false, starredByCarol).
Proof.
  exact (proj1 (unrejected_reaction_is_left_alone echoKey plainEmbed
                  (compiledFrom (withBadStars [])) (star post) carol home
                  (calledAnyOf truthy
                     (disqualificationSteps (fun _ => true) (fun _ _ => false)
                        secondsBetween (fun msg => mret (Some alice))
                        (resolveSender (fun _ => Some (AsUser alice)))
                        (withBadStars []))
                     None)
                  starredByCarol starredByCarol eq_refl eq_refl eq_refl eq_refl)
               eq_refl).
Defined.

(** [carol] stars a post in a channel where stars are refused with a
    reason: she is sent the line of the step, an empty line and the line
    of the reason. *)
Lemma rejected_reaction_warning_text_witness :
  exists w' notes,
    _handleReactionAdding spell plainEmbed
      (compiledFrom (withBadStars [inChannels ["general"] (Some "no stars here")]))
      (star post) carol starredByCarol
    = (Ok true, w')
    /\ outbox w'
       = [("1003",
           (("DNSERV_STAR_BLOCKED@FILTER" ++ newline ++ newline)
            ++ "DNSERV_STAR_BLOCKED_REASON:no stars here")%string)]
    /\ requests w'
       = [RemoveReaction "5000" "1003";
          DirectMessage "1003"
            (("DNSERV_STAR_BLOCKED@FILTER" ++ newline ++ newline)
             ++ "DNSERV_STAR_BLOCKED_REASON:no stars here")%string]
    /\ logged w' = notes
    /\ Forall (fun note => level note = "info") notes.
Proof.
  refine (rejected_reaction_warning_text spell plainEmbed
            (compiledFrom (withBadStars [inChannels ["general"] (Some "no stars here")]))
            (star post) carol home
            (calledAnyOf truthy
               (disqualificationSteps (fun _ => true) (fun _ _ => false)
                  secondsBetween (fun msg => mret (Some alice))
                  (resolveSender (fun _ => Some (AsUser alice)))
                  (withBadStars [inChannels ["general"] (Some "no stars here")]))
               None)
            "FILTER" (VStr "no stars here")
            (("DNSERV_STAR_BLOCKED@FILTER" ++ newline ++ newline)
             ++ "DNSERV_STAR_BLOCKED_REASON:no stars here")%string
            starredByCarol starredByCarol
            eq_refl eq_refl eq_refl eq_refl eq_refl eq_refl eq_refl _).
  exists "DNSERV_STAR_BLOCKED@FILTER", "DNSERV_STAR_BLOCKED_REASON:no stars here".
  repeat split.
Defined.

End EntryPointSamples.

(** ** Further properties of the regex cache and the blocked starrers *)

Section PatternRules.
Import Js StarsControl Spec Notions.

Variable regexSyntaxOk : string -> bool.
Variable regexTest : string -> string -> bool.

Lemma regExp_run (str : string) (w : World) :
  regExp regexSyntaxOk str w
  = match REGEX_CACHE w !! str with
    | Some re => (Ok re, w)
    | None =>
        if regexSyntaxOk str
        then (Ok {| stamp := allocated w; source := str |},
              withCache (insert str {| stamp := allocated w; source := str |})
                (withAllocated (S (allocated w)) w))
        else (Throw "SyntaxError", w)
    end.
Proof.
  unfold regExp, newRegExp. run.
  destruct (REGEX_CACHE w !! str); [reflexivity|].
  destruct (regexSyntaxOk str); reflexivity.
Qed.

Lemma regExp_sound (str : string) (w : World) :
  cacheSound w -> cacheSound (snd (regExp regexSyntaxOk str w)).
Proof.
  intros [Hfiled Hdistinct]. rewrite regExp_run.
  destruct (REGEX_CACHE w !! str) as [re|] eqn:Hlookup; [now split|].
  destruct (regexSyntaxOk str); [|now split].
  cbn [snd]. unfold cacheSound. cbn [withCache withAllocated REGEX_CACHE allocated].
  split.
  - intros k re. rewrite lookup_insert. case_decide as Hk.
    + intros [= <-]. cbn. split; [congruence | lia].
    + intros Hold. destruct (Hfiled k re Hold) as [Hsrc Hlt]. split; [exact Hsrc | lia].
  - intros k1 k2 re1 re2. rewrite !lookup_insert.
    case_decide as Hk1; case_decide as Hk2.
    + congruence.
    + intros [= <-] Hold. cbn. destruct (Hfiled k2 re2 Hold) as [_ Hlt]. lia.
    + intros Hold [= <-]. cbn. destruct (Hfiled k1 re1 Hold) as [_ Hlt]. lia.
    + apply Hdistinct.
Qed.

Lemma starredBy_sound (user : User) (starrers : list string) (w : World) :
  cacheSound w ->
  cacheSound (snd (_starredBy regexSyntaxOk regexTest user starrers w)).
Proof.
  revert w. induction starrers as [|starrer rest IH]; intros w Hsound; [exact Hsound|].
  cbn [_starredBy].
  repeat match goal with
         | |- context [if ?b then _ else _] => destruct b
         end; try exact Hsound; try (now apply IH).
  all: run; pose proof (regExp_sound
                          (slice (String.length "$username_reg:") starrer) w Hsound)
         as Hnext;
    destruct (regExp regexSyntaxOk _ w) as [[re|e] w1]; cbn [snd] in *;
    try exact Hnext;
    destruct (regexTest (source re) (username user)); cbn [snd]; try exact Hnext;
    now apply IH.
Qed.

(** The regex cache stays sound under [regExp] and under the
    blocked-starrer check: every pattern is filed under its own source, and
    two entries are never the same object. *)
Theorem regex_cache_stays_sound (w : World) :
  cacheSound w ->
  (forall str, cacheSound (snd (regExp regexSyntaxOk str w)))
  /\ (forall user starrers,
         cacheSound (snd (_starredBy regexSyntaxOk regexTest user starrers w))).
Proof.
  intros Hsound. split.
  - intros str. now apply regExp_sound.
  - intros user starrers. now apply starredBy_sound.
Qed.

Lemma pattern_rule_shape (pat : string) :
  String.eqb ("$username_reg:" ++ pat)%string "$bots" = false
  /\ startsWith ("$username_reg:" ++ pat)%string "$username:" = false
  /\ startsWith ("$username_reg:" ++ pat)%string "$username_reg:" = true
  /\ slice (String.length "$username_reg:") ("$username_reg:" ++ pat)%string = pat.
Proof.
  cbv beta iota delta [String.append]. cbn.
  repeat split. now destruct pat.
Qed.

(** The rule [$username_reg:PATTERN] blocks a user exactly when the
    pattern, taken as all the text after the prefix, matches their handle;
    afterwards the pattern is in the cache. *)
Theorem starredBy_pattern_rule (pat : string) (user : User) (w : World) :
  cacheSound w ->
  regexSyntaxOk pat = true ->
  exists w' re,
    _starredBy regexSyntaxOk regexTest user [("$username_reg:" ++ pat)%string] w
    = (Ok (regexTest pat (username user)), w')
    /\ REGEX_CACHE w' !! pat = Some re
    /\ source re = pat.
Proof.
  intros [Hfiled _] Hok.
  destruct (pattern_rule_shape pat) as (Hbots & Hname & Hreg & Hslice).
  cbn [_starredBy]. rewrite Hbots, Hname, Hreg, Hslice. run. rewrite regExp_run.
  destruct (REGEX_CACHE w !! pat) as [re|] eqn:Hlookup.
  - destruct (Hfiled pat re Hlookup) as [Hsrc _]. rewrite Hsrc.
    exists w, re. destruct (regexTest pat (username user)); now repeat split.
  - rewrite Hok. cbn [source].
    do 2 eexists.
    split; [destruct (regexTest pat (username user)); reflexivity|].
    cbn [withCache withAllocated REGEX_CACHE source].
    split; [apply lookup_insert_eq | reflexivity].
Qed.

(** A pattern the engine refuses, met for the first time, makes the
    blocked-starrer check throw a SyntaxError; nothing is cached. *)
Lemma starredBy_malformed_pattern (pat : string) (user : User) (rest : list string)
  (w : World) :
  regexSyntaxOk pat = false ->
  REGEX_CACHE w !! pat = None ->
  _starredBy regexSyntaxOk regexTest user (("$username_reg:" ++ pat)%string :: rest) w
  = (Throw "SyntaxError", w).
Proof.
  intros Hbad Hmiss.
  destruct (pattern_rule_shape pat) as (Hbots & Hname & Hreg & Hslice).
  cbn [_starredBy]. rewrite Hbots, Hname, Hreg, Hslice. run.
  now rewrite regExp_run, Hmiss, Hbad.
Qed.

End PatternRules.

(** ** Further properties of the matchers and of the compiled pipeline *)

Section Verdicts.
Import Js StarsControl Spec Notions.

Variable regexSyntaxOk : string -> bool.
Variable regexTest : string -> string -> bool.
Variable timeDiff : Z -> Z -> string -> float.
Variable getMessageMember : Message -> M World (option User).
Variable getMessageMemberOrAuthor : Message -> M World (option Sender).
Variable localizeForUser : Sender -> string -> option string -> Result string.
Variable generateLocalizedEmbed : Sender -> string + string -> Result string.

Lemma authoredByLoop_account (msg : Message) (s : User) (authors : list string) :
  webhookID msg = None ->
  authoredByLoop msg (Some s) authors = existsb (accountEntryMatches s) authors.
Proof.
  intros Hplain.
  induction authors as [|author rest IH]; [reflexivity|].
  cbn [authoredByLoop existsb]. unfold accountEntryMatches at 1, isHookEntry.
  rewrite Hplain.
  destruct (String.eqb author "$bots").
  - destruct (bot s); [reflexivity | exact IH].
  - destruct (String.eqb author "$hooks"); cbn [orb]; [exact IH|].
    destruct (startsWith author "$hook:"); [exact IH|].
    destruct (String.eqb (userId s) author); [reflexivity | exact IH].
Qed.

(** A message written by an account is matched by an authors list exactly
    when the list holds [$bots] and the account is a bot, or holds the
    account's identifier; the entries for integrations never match it, and
    a guild member is matched through the account behind it. *)
Theorem authoredBy_account_message (msg : Message) (sender : Sender)
  (authors : list string) (w w' : World) :
  webhookID msg = None ->
  getMessageMemberOrAuthor msg w = (Ok (Some sender), w') ->
  _authoredBy getMessageMemberOrAuthor msg authors w
  = (Ok (existsb (accountEntryMatches (senderUser sender)) authors), w').
Proof.
  intros Hplain Hsender. unfold _authoredBy. run. rewrite Hsender.
  cbn [option_map]. now rewrite authoredByLoop_account.
Qed.

(** The run of [_isDisqualified] when the sender resolves, to the world
    [w']: the resolution takes place only when the rule has an authors
    list and its age and channel conditions hold. *)
Lemma isDisqualified_run (reaction : MessageReaction)
  (d : IMessageDisqualification) (sender : option Sender) (w w' : World) :
  getMessageMemberOrAuthor (message reaction) w = (Ok sender, w') ->
  _isDisqualified timeDiff getMessageMemberOrAuthor reaction d w
  = (Ok (oldEnough d (timeDiff (clock w) (createdAt (message reaction)) "s" / 60)%float
         && inListedChannel d (message reaction)
         && byListedAuthor d (message reaction) sender),
     match authors d with
     | Some _ =>
         if oldEnough d (timeDiff (clock w) (createdAt (message reaction)) "s" / 60)%float
            && inListedChannel d (message reaction)
         then w' else w
     | None => w
     end).
Proof.
  intros Hsender.
  unfold _isDisqualified, _authoredBy, _minutesSinceSent, oldEnough, inListedChannel,
    byListedAuthor, numLt.
  run. cbn [objectTruthy negb].
  destruct (aged d) as [a|].
  - destruct (_ <? a)%float; cbn [negb andb];
      [now destruct (authors d), (channels d)|].
    destruct (channels d) as [ids|].
    + destruct (existsb _ ids); cbn [negb andb]; [|now destruct (authors d)].
      destruct (authors d) as [l|]; [rewrite Hsender|];
        [destruct (authoredByLoop _ _ l)|]; destruct (content_ d); reflexivity.
    + destruct (authors d) as [l|]; [rewrite Hsender|];
        [destruct (authoredByLoop _ _ l)|]; destruct (content_ d); reflexivity.
  - cbn [andb]. destruct (channels d) as [ids|].
    + destruct (existsb _ ids); cbn [negb andb]; [|now destruct (authors d)].
      destruct (authors d) as [l|]; [rewrite Hsender|];
        [destruct (authoredByLoop _ _ l)|]; destruct (content_ d); reflexivity.
    + destruct (authors d) as [l|]; [rewrite Hsender|];
        [destruct (authoredByLoop _ _ l)|]; destruct (content_ d); reflexivity.
Qed.

Lemma isDisqualified_still (reaction : MessageReaction)
  (d : IMessageDisqualification) (sender : option Sender) (w : World) :
  getMessageMemberOrAuthor (message reaction) w = (Ok sender, w) ->
  snd (_isDisqualified timeDiff getMessageMemberOrAuthor reaction d w) = w.
Proof.
  intros Hsender. rewrite (isDisqualified_run reaction d sender w w Hsender).
  cbn [snd]. destruct (authors d); [|reflexivity].
  now destruct (oldEnough d _ && inListedChannel d _).
Qed.

(** The age condition of a rule with a threshold, on numbers that are
    not NaN: the threshold is at most the age. *)
Lemma oldEnough_at_least (d : IMessageDisqualification) (a minsSince : float) :
  aged d = Some a ->
  is_nan minsSince = false -> is_nan a = false ->
  oldEnough d minsSince = (a <=? minsSince)%float.
Proof.
  intros Haged Hm Ha. unfold oldEnough. rewrite Haged.
  pose proof (numLt_false minsSince a Hm Ha) as Hiff. unfold numLt in Hiff.
  destruct (minsSince <? a)%float, (a <=? minsSince)%float; cbn [negb];
    try reflexivity.
  - destruct Hiff as [_ Hback]. now specialize (Hback eq_refl).
  - destruct Hiff as [Hforth _]. now specialize (Hforth eq_refl).
Qed.

(** When the sender of the message resolves without further effect, a
    rule fires exactly when its age, channel and author conditions all
    hold (a condition that is absent holds); the content condition takes
    no part. The age is the number [_minutesSinceSent] computes, and the
    age condition is that it is not below the threshold. *)
Theorem isDisqualified_is_conjunction (reaction : MessageReaction)
  (d : IMessageDisqualification) (sender : option Sender) (w : World) :
  getMessageMemberOrAuthor (message reaction) w = (Ok sender, w) ->
  _isDisqualified timeDiff getMessageMemberOrAuthor reaction d w
  = (Ok (oldEnough d (timeDiff (clock w) (createdAt (message reaction)) "s" / 60)%float
         && inListedChannel d (message reaction)
         && byListedAuthor d (message reaction) sender), w).
Proof.
  intros Hsender.
  pose proof (isDisqualified_still reaction d sender w Hsender) as Hstill.
  rewrite (isDisqualified_run reaction d sender w w Hsender) in *.
  cbn [snd] in Hstill. now rewrite Hstill.
Qed.

(** A message in a channel the rule does not list is let through without
    its sender ever being resolved. *)
Theorem unlisted_channel_exits_early (reaction : MessageReaction)
  (d : IMessageDisqualification) (ids : list string) (w : World) :
  channels d = Some ids ->
  existsb (String.eqb (channelId (message reaction))) ids = false ->
  _isDisqualified timeDiff getMessageMemberOrAuthor reaction d w = (Ok false, w).
Proof.
  intros Hchannels Hunlisted.
  unfold _isDisqualified, _minutesSinceSent. run.
  rewrite Hchannels, Hunlisted. cbn [negb].
  destruct (aged d) as [a|]; [destruct (numLt _ a)|]; reflexivity.
Qed.

Lemma disqualifyLoop_cons (reaction : MessageReaction) (d : IMessageDisqualification)
  (rest : list IMessageDisqualification) (w : World) :
  disqualifyLoop timeDiff getMessageMemberOrAuthor reaction (d :: rest) w
  = match _isDisqualified timeDiff getMessageMemberOrAuthor reaction d w with
    | (Ok true, w1) => (Ok (reasonOrTrue d), w1)
    | (Ok false, w1) => disqualifyLoop timeDiff getMessageMemberOrAuthor reaction rest w1
    | (Throw e, w1) => (Throw e, w1)
    end.
Proof.
  cbn [disqualifyLoop]. run.
  destruct (_isDisqualified _ _ reaction d w) as [[[|]|e] w1]; reflexivity.
Qed.

(** A configuration that leaves [badStars] out forbids stars on exactly
    the messages written by a bot, posted through an integration, or not
    younger than 1440 minutes (by the age that [_minutesSinceSent]
    computes); the detail is the flag [true]. *)
Theorem default_bad_stars (cfg : IStarControlSettings) (toCheck : IAddedReaction)
  (sender : option Sender) (w : World) :
  strTruthy (guildId cfg) = true ->
  badStars cfg = None ->
  getMessageMemberOrAuthor (message (reaction toCheck)) w = (Ok sender, w) ->
  exists settings,
    _initConfig (Some cfg) = Ok settings
    /\ _handleDisqualify timeDiff getMessageMemberOrAuthor settings toCheck w
       = (Ok (VBool
                (match sender with Some s => bot (senderUser s) | None => false end
                 || match webhookID (message (reaction toCheck)) with
                    | Some h => strTruthy h
                    | None => false
                    end
                 || negb (timeDiff (clock w) (createdAt (message (reaction toCheck))) "s"
                          / 60 <? DAY_IN_MINUTES)%float)), w).
Proof.
  intros Hguild Hbad Hsender. unfold _initConfig. rewrite Hguild, Hbad. cbn [negb].
  eexists. split; [reflexivity|].
  unfold _handleDisqualify. cbn [badStars].
  rewrite disqualifyLoop_cons, (isDisqualified_run _ _ sender w w Hsender).
  unfold oldEnough, inListedChannel, byListedAuthor.
  cbn [aged channels authors andb].
  assert (Hfirst : authoredByLoop (message (reaction toCheck))
                     (option_map senderUser sender) ["$bots"; "$hooks"]
                   = (match sender with Some s => bot (senderUser s) | None => false end
                      || match webhookID (message (reaction toCheck)) with
                         | Some h => strTruthy h
                         | None => false
                         end)).
  { cbn. destruct sender as [s|]; cbn [option_map];
      [destruct (bot (senderUser s)); [reflexivity|]|];
      cbn [orb]; destruct (webhookID _) as [h|]; [destruct (strTruthy h)| | destruct (strTruthy h)|];
      reflexivity. }
  rewrite Hfirst.
  destruct (_ || _); cbn [orb]; [reflexivity|].
  rewrite disqualifyLoop_cons, (isDisqualified_run _ _ sender w w Hsender).
  unfold oldEnough, inListedChannel, byListedAuthor.
  cbn [aged channels authors andb]. rewrite !andb_true_r.
  destruct (_ <? _)%float; reflexivity.
Qed.

Lemma anyOfLoop_cons {W T R} (toBoolean : R -> bool) (name : string)
  (func : T -> M W R) (rest : list (string * (T -> M W R))) (args : T) (w : W) :
  anyOfLoop toBoolean ((name, func) :: rest) None args w
  = match func args w with
    | (Ok res, w1) =>
        if toBoolean res then (Ok (Some (name, res)), w1)
        else anyOfLoop toBoolean rest None args w1
    | (Throw e, w1) => (Throw e, w1)
    end.
Proof.
  cbn [anyOfLoop]. run.
  destruct (func args w) as [[res|e] w1]; [|reflexivity].
  destruct (toBoolean res); reflexivity.
Qed.

Lemma handleBlockedStarrers_run (settings : IStarControlSettings)
  (starrers : list string) (toCheck : IAddedReaction) (w : World) :
  blockedStarrers settings = Some starrers ->
  _handleBlockedStarrers regexSyntaxOk regexTest settings toCheck w
  = match _starredBy regexSyntaxOk regexTest (user toCheck) starrers w with
    | (Ok blocked, w1) => (Ok (VBool blocked), w1)
    | (Throw e, w1) => (Throw e, w1)
    end.
Proof.
  intros Hstarrers. unfold _handleBlockedStarrers. rewrite Hstarrers. run.
  destruct (_starredBy _ _ _ starrers w) as [[[|]|e] w1]; reflexivity.
Qed.

Lemma evaluation_starts_with_user_block (settings : IStarControlSettings)
  (starrers : list string) (toCheck : IAddedReaction) (w : World) :
  blockedStarrers settings = Some starrers ->
  calledAnyOf truthy
    (disqualificationSteps regexSyntaxOk regexTest timeDiff getMessageMember
       getMessageMemberOrAuthor settings) None toCheck w
  = match _starredBy regexSyntaxOk regexTest (user toCheck) starrers w with
    | (Ok true, w1) => (Ok (Some ("USER-BLOCK", VBool true)), w1)
    | (Ok false, w1) =>
        anyOfLoop truthy
          (match badStars settings with
           | Some _ =>
               [("FILTER",
                 fun toCheck =>
                   _handleDisqualify timeDiff getMessageMemberOrAuthor settings toCheck)]
           | None => []
           end
           ++ match selfStarring settings with
              | Some true =>
                  [("SELF-STAR",
                    fun toCheck => _handleSelfStar getMessageMember settings toCheck)]
              | _ => []
              end)
          None toCheck w1
    | (Throw e, w1) => (Throw e, w1)
    end.
Proof.
  intros Hstarrers.
  assert (Hsteps :
            forIn (disqualificationSteps regexSyntaxOk regexTest timeDiff getMessageMember
                     getMessageMemberOrAuthor settings)
            = ("USER-BLOCK",
               fun toCheck => _handleBlockedStarrers regexSyntaxOk regexTest settings toCheck)
              :: (match badStars settings with
                  | Some _ =>
                      [("FILTER",
                        fun toCheck =>
                          _handleDisqualify timeDiff getMessageMemberOrAuthor settings
                            toCheck)]
                  | None => []
                  end
                  ++ match selfStarring settings with
                     | Some true =>
                         [("SELF-STAR",
                           fun toCheck => _handleSelfStar getMessageMember settings toCheck)]
                     | _ => []
                     end)).
  { unfold disqualificationSteps. rewrite Hstarrers.
    destruct (badStars settings), (selfStarring settings) as [[|]|]; reflexivity. }
  unfold calledAnyOf, CalledMap, AnyOfChecker, ReactionChecks in *. rewrite Hsteps.
  rewrite anyOfLoop_cons, (handleBlockedStarrers_run _ starrers) by assumption.
  destruct (_starredBy _ _ _ starrers w) as [[[|]|e] w1]; reflexivity.
Qed.

(** The verdict of the compiled pipeline when the blocked-starrers and
    bad-stars sections are both set. A blocked actor is rejected at
    USER-BLOCK and nothing about the message is looked at; otherwise the
    first rule that fires rejects at FILTER with its detail; otherwise an
    actor who stars a message of their own is rejected at SELF-STAR, when
    that check is on; otherwise the reaction is accepted. *)
Theorem pipeline_verdict (settings : IStarControlSettings) (starrers : list string)
  (rules : list IMessageDisqualification) (toCheck : IAddedReaction) (blocked : bool)
  (w w1 : World) :
  blockedStarrers settings = Some starrers ->
  badStars settings = Some rules ->
  _starredBy regexSyntaxOk regexTest (user toCheck) starrers w = (Ok blocked, w1) ->
  (blocked = true ->
   calledAnyOf truthy
     (disqualificationSteps regexSyntaxOk regexTest timeDiff getMessageMember
        getMessageMemberOrAuthor settings) None toCheck w
   = (Ok (Some ("USER-BLOCK", VBool true)), w1))
  /\ (forall detail w2,
         blocked = false ->
         disqualifyLoop timeDiff getMessageMemberOrAuthor (reaction toCheck) rules w1
         = (Ok detail, w2) ->
         (truthy detail = true ->
          calledAnyOf truthy
            (disqualificationSteps regexSyntaxOk regexTest timeDiff getMessageMember
               getMessageMemberOrAuthor settings) None toCheck w
          = (Ok (Some ("FILTER", detail)), w2))
         /\ (truthy detail = false ->
             selfStarring settings <> Some true ->
             calledAnyOf truthy
               (disqualificationSteps regexSyntaxOk regexTest timeDiff getMessageMember
                  getMessageMemberOrAuthor settings) None toCheck w
             = (Ok None, w2))
         /\ (forall poster w3,
                truthy detail = false ->
                selfStarring settings = Some true ->
                getMessageMember (message (reaction toCheck)) w2 = (Ok poster, w3) ->
                calledAnyOf truthy
                  (disqualificationSteps regexSyntaxOk regexTest timeDiff getMessageMember
                     getMessageMemberOrAuthor settings) None toCheck w
                = (Ok match poster with
                      | Some p =>
                          if sameUser p (user toCheck)
                          then Some ("SELF-STAR", VBool true)
                          else None
                      | None => None
                      end, w3))).
Proof.
  intros Hstarrers Hrules Hblocked.
  rewrite (evaluation_starts_with_user_block settings starrers) by assumption.
  rewrite Hblocked, Hrules. split.
  - now intros ->.
  - intros detail w2 -> Hfilter. cbn [app].
    rewrite anyOfLoop_cons. unfold _handleDisqualify. rewrite Hrules, Hfilter.
    cbv beta iota.
    split; [|split].
    + now intros ->.
    + intros -> Hoff.
      destruct (selfStarring settings) as [[|]|]; [contradiction| |]; reflexivity.
    + intros poster w3 -> Hon Hposter. rewrite Hon.
      cbn [app]. rewrite anyOfLoop_cons. unfold _handleSelfStar. rewrite Hon. run.
      rewrite Hposter.
      destruct poster as [p|]; [|reflexivity].
      destruct (sameUser p (user toCheck)); reflexivity.
Qed.

(** A pattern the engine refuses, written in the first blocked-starrer
    rule, fails every star event of the guild: the handler throws the
    SyntaxError, nothing is retracted, sent or logged, and nothing is
    cached. *)
Theorem malformed_pattern_fails_the_event (self : Instance_)
  (reaction : MessageReaction) (user : User) (g : Guild) (pat : string)
  (rest : list string) (w : World) :
  guild (message reaction) = Some g ->
  guildIdOf g = guildId (_settings self) ->
  starEmoji (_settings self) = Some (emojiName reaction) ->
  _compiledDisqualificationProcess self
  = Some (calledAnyOf truthy
            (disqualificationSteps regexSyntaxOk regexTest timeDiff getMessageMember
               getMessageMemberOrAuthor (_settings self)) None) ->
  blockedStarrers (_settings self) = Some (("$username_reg:" ++ pat)%string :: rest) ->
  regexSyntaxOk pat = false ->
  REGEX_CACHE w !! pat = None ->
  _handleReactionAdding localizeForUser generateLocalizedEmbed self reaction user w
  = (Throw "SyntaxError", w).
Proof.
  intros Hguild Hid Hemoji Hcompiled Hstarrers Hbad Hmiss.
  unfold _handleReactionAdding.
  rewrite Hguild, Hid, Hemoji, Hcompiled, !String.eqb_refl. cbn [negb].
  run.
  rewrite (evaluation_starts_with_user_block (_settings self) _ _ w Hstarrers).
  cbn [StarsControl.user].
  now rewrite (starredBy_malformed_pattern regexSyntaxOk regexTest pat user rest w).
Qed.

(** Loading the configuration. Without a configuration, or with an empty
    guild identifier, it throws. Otherwise every field the configuration
    sets is kept, every field it leaves out gets its default, and the
    pipeline compiled from the result has the USER-BLOCK and FILTER steps,
    and the SELF-STAR step unless self-starring was set to [false]. *)
Theorem initConfig_fills_defaults :
  _initConfig None = Throw "No configuration file found. An example config created"
  /\ (forall cfg,
         strTruthy (guildId cfg) = false ->
         _initConfig (Some cfg) = Throw "Guild ID must be provided in config")
  /\ (forall cfg,
         strTruthy (guildId cfg) = true ->
         exists settings,
           _initConfig (Some cfg) = Ok settings
           /\ guildId settings = guildId cfg
           /\ starEmoji settings
              = Some (match starEmoji cfg with Some e => e | None => STAR_REACTION end)
           /\ selfStarring settings
              = Some (match selfStarring cfg with Some b => b | None => true end)
           /\ blockedStarrers settings
              = Some (match blockedStarrers cfg with Some l => l | None => ["$bots"] end)
           /\ (forall rules, badStars cfg = Some rules -> badStars settings = Some rules)
           /\ map fst (forIn (disqualificationSteps regexSyntaxOk regexTest timeDiff
                                getMessageMember getMessageMemberOrAuthor settings))
              = ["USER-BLOCK"; "FILTER"]
                ++ match selfStarring cfg with Some false => [] | _ => ["SELF-STAR"] end).
Proof.
  split; [reflexivity|]. split.
  - intros cfg Hempty. unfold _initConfig. now rewrite Hempty.
  - intros cfg Hguild. unfold _initConfig. rewrite Hguild. cbn [negb].
    eexists. split; [reflexivity|].
    cbn [guildId starEmoji selfStarring blockedStarrers badStars].
    split; [reflexivity|].
    split; [now destruct (starEmoji cfg)|].
    split; [now destruct (selfStarring cfg)|].
    split; [now destruct (blockedStarrers cfg)|].
    split; [now intros rules ->|].
    unfold disqualificationSteps.
    cbn [guildId starEmoji selfStarring blockedStarrers badStars].
    destruct (blockedStarrers cfg), (badStars cfg), (selfStarring cfg) as [[|]|];
      reflexivity.
Qed.

End Verdicts.

Section VerdictsSamples.
Import Js StarsControl Spec Notions Samples Scenarios PatternScenarios.

Lemma quiet_sound : cacheSound quiet.
Proof.
  split.
  - intros k re Hlookup. cbn in Hlookup. now rewrite lookup_empty in Hlookup.
  - intros k1 k2 re1 re2 Hlookup. cbn in Hlookup. now rewrite lookup_empty in Hlookup.
Defined.

(** The cache is sound after the first compilation in an empty cache. *)
Lemma regex_cache_stays_sound_witness :
  cacheSound (snd (regExp balanced "^rob" quiet)).
Proof.
  exact (proj1 (regex_cache_stays_sound balanced startsWithRob quiet quiet_sound) "^rob").
Defined.

(** [robot] is blocked by a pattern for handles that start with [rob]. *)
Lemma starredBy_pattern_rule_witness :
  exists w' re,
    _starredBy balanced startsWithRob robot ["$username_reg:^rob"] quiet = (Ok true, w')
    /\ REGEX_CACHE w' !! "^rob" = Some re
    /\ source re = "^rob".
Proof.
  exact (starredBy_pattern_rule balanced startsWithRob "^rob" robot quiet quiet_sound
           eq_refl).
Defined.

(** A post by the member [robot] is matched by [$bots], not by [$hooks]. *)
Lemma authoredBy_account_message_witness :
  _authoredBy (resolveSender (fun _ => Some (AsMember robot))) post ["$hooks"; "$bots"]
    quiet
  = (Ok true, quiet).
Proof.
  exact (authoredBy_account_message (resolveSender (fun _ => Some (AsMember robot)))
           post (AsMember robot) ["$hooks"; "$bots"] quiet quiet eq_refl eq_refl).
Defined.

(** [post] is ten minutes old, in [general] and by [alice]: the rule fires
    although its content condition asks for another text. *)
Lemma isDisqualified_is_conjunction_witness :
  _isDisqualified secondsBetween (resolveSender (fun _ => Some (AsUser alice)))
    (star post) fussy quiet
  = (Ok true, quiet).
Proof.
  exact (isDisqualified_is_conjunction secondsBetween
           (resolveSender (fun _ => Some (AsUser alice))) (star post) fussy
           (Some (AsUser alice)) quiet eq_refl).
Defined.

(** The sender cannot be resolved at all, and is not asked for. *)
Lemma unlisted_channel_exits_early_witness :
  _isDisqualified secondsBetween (fun _ => throw "no such member") (star post)
    {| authors := Some ["1001"]; channels := Some ["announcements"]; content_ := None;
       aged := None; reason := None |} quiet
  = (Ok false, quiet).
Proof.
  exact (unlisted_channel_exits_early secondsBetween (fun _ => throw "no such member")
           (star post)
           {| authors := Some ["1001"]; channels := Some ["announcements"];
              content_ := None; aged := None; reason := None |}
           ["announcements"] quiet eq_refl eq_refl).
Defined.

(** With the default rules a ten minutes old post through an integration
    may not be starred. *)
Lemma default_bad_stars_witness :
  exists settings,
    _initConfig
      (Some {| guildId := "77"; badStars := None; selfStarring := None;
               starEmoji := None; blockedStarrers := None |})
    = Ok settings
    /\ _handleDisqualify secondsBetween (resolveSender (fun _ => Some (AsUser alice)))
         settings {| reaction := star hooked; user := carol |} quiet
       = (Ok (VBool true), quiet).
Proof.
  exact (default_bad_stars secondsBetween (resolveSender (fun _ => Some (AsUser alice)))
           {| guildId := "77"; badStars := None; selfStarring := None;
              starEmoji := None; blockedStarrers := None |}
           {| reaction := star hooked; user := carol |} None quiet
           eq_refl eq_refl eq_refl).
Defined.

(** [robot] is turned away at the first step. *)
Lemma pipeline_verdict_witness :
  calledAnyOf truthy
    (disqualificationSteps balanced startsWithRob secondsBetween
       (fun _ => throw "no such member") (fun _ => throw "no such member")
       (withBlockedStarrers ["$bots"]))
    None {| reaction := star post; user := robot |} quiet
  = (Ok (Some ("USER-BLOCK", VBool true)), quiet).
Proof.
  exact (proj1 (pipeline_verdict balanced startsWithRob secondsBetween
                  (fun _ => throw "no such member") (fun _ => throw "no such member")
                  (withBlockedStarrers ["$bots"]) ["$bots"] []
                  {| reaction := star post; user := robot |} true quiet quiet
                  eq_refl eq_refl eq_refl)
               eq_refl).
Defined.

(** One unbalanced parenthesis among the blocked starrers and [carol]'s
    star fails. *)
Lemma malformed_pattern_fails_the_event_witness :
  _handleReactionAdding echoKey plainEmbed
    (compiledWithPatterns (withBlockedStarrers ["$username_reg:("; "$bots"]))
    (star post) carol starredByCarol
  = (Throw "SyntaxError", starredByCarol).
Proof.
  exact (malformed_pattern_fails_the_event balanced startsWithRob secondsBetween
           (fun msg => mret (Some alice)) (resolveSender (fun _ => Some (AsUser alice)))
           echoKey plainEmbed
           (compiledWithPatterns (withBlockedStarrers ["$username_reg:("; "$bots"]))
           (star post) carol home "(" ["$bots"] starredByCarol
           eq_refl eq_refl eq_refl eq_refl eq_refl eq_refl eq_refl).
Defined.

End VerdictsSamples.

(** ** Further properties of the house-roles record store *)

Section Store.
Import Js HouseRoles StoreNotions.

(** [init] works once. It creates the table, empty, only when the database
    has none of that name, and keeps the rows of a table that is there; it
    leaves the cache alone; a second [init] throws and changes nothing. *)
Theorem init_once (w : World) :
  INIT_COMPLETE w = false ->
  exists w',
    init w = (Ok tt, w')
    /\ INIT_COMPLETE w' = true
    /\ TABLE_NAME w' = TABLE_NAME w
    /\ tables w' !! TABLE_NAME w
       = Some (match tables w !! TABLE_NAME w with Some rows => rows | None => [] end)
    /\ (forall other, other <> TABLE_NAME w -> tables w' !! other = tables w !! other)
    /\ LOCAL_CACHE w' = LOCAL_CACHE w
    /\ init w' = (Throw "Controller is already initialized", w').
Proof.
  intros Hfresh. unfold init at 1. rewrite Hfresh.
  eexists. split; [reflexivity|].
  destruct (tables w !! TABLE_NAME w) as [rows|] eqn:Htable;
    cbn [withInitComplete withTables INIT_COMPLETE TABLE_NAME tables LOCAL_CACHE];
    repeat split; try assumption.
  - apply lookup_insert_eq.
  - intros other Hother. now apply lookup_insert_ne.
Qed.

(** Before [init], [getRecord] and [recordChange] throw and touch neither
    the cache nor the database. *)
Theorem uninitialized_controller_refuses (member : GuildMember) (w : World) :
  INIT_COMPLETE w = false ->
  (forall useCache,
      getRecord member useCache w = (Throw "Controller must be initialized first", w))
  /\ (forall flags,
         recordChange member flags w = (Throw "Controller must be initialized first", w)).
Proof.
  intros Hfresh. split.
  - intros useCache. unfold getRecord, mustBeInitialized. run. now rewrite Hfresh.
  - intros flags. unfold recordChange, mustBeInitialized. run. now rewrite Hfresh.
Qed.

Lemma recordChange_run (member : GuildMember) (flags : Z) (rows : list HouseRecord)
  (w : World) :
  INIT_COMPLETE w = true ->
  tables w !! TABLE_NAME w = Some rows ->
  recordChange member flags w
  = (Ok tt,
     {| TABLE_NAME := TABLE_NAME w;
        LOCAL_CACHE := <[getLocalKey member := changeOf member flags (clock w)]>
                         (match rowOf member rows with
                          | Some r => <[getLocalKey member := r]> (LOCAL_CACHE w)
                          | None => LOCAL_CACHE w
                          end);
        INIT_COMPLETE := true;
        tables := alter (fun rows => rows ++ [changeOf member flags (clock w)])
                    (TABLE_NAME w) (tables w);
        clock := clock w |}).
Proof.
  intros Hinit Htable.
  unfold recordChange, getRecord, mustBeInitialized, whereFirst, rowOf, changeOf. run.
  rewrite Hinit. cbn [negb]. cbv beta iota. rewrite Hinit. cbn [negb]. cbv beta iota.
  rewrite Htable.
  destruct (List.find _ rows) as [r|];
    unfold withLocalCache, withTables;
    cbn [INIT_COMPLETE TABLE_NAME tables LOCAL_CACHE clock];
    rewrite ?Hinit; reflexivity.
Qed.

(** After [recordChange] the member's new record, with the given flags
    and the time of the call, is what a call of [getRecord] that uses the
    cache returns, and it stands at the end of the table, after the rows
    that were there. *)
Theorem recordChange_then_getRecord (member : GuildMember) (flags : Z)
  (rows : list HouseRecord) (w : World) :
  INIT_COMPLETE w = true ->
  tables w !! TABLE_NAME w = Some rows ->
  exists w',
    recordChange member flags w = (Ok tt, w')
    /\ getRecord member true w' = (Ok (Some (changeOf member flags (clock w))), w')
    /\ tables w' !! TABLE_NAME w' = Some (rows ++ [changeOf member flags (clock w)])
    /\ INIT_COMPLETE w' = true.
Proof.
  intros Hinit Htable.
  rewrite (recordChange_run member flags rows w Hinit Htable).
  eexists. split; [reflexivity|].
  cbn [TABLE_NAME tables INIT_COMPLETE].
  assert (Hrows : alter (fun rows => rows ++ [changeOf member flags (clock w)])
                    (TABLE_NAME w) (tables w) !! TABLE_NAME w
                  = Some (rows ++ [changeOf member flags (clock w)]))
    by now rewrite lookup_alter_eq, Htable.
  split; [|now split].
  rewrite (getRecord_run member true (rows ++ [changeOf member flags (clock w)]))
    by (cbn [INIT_COMPLETE TABLE_NAME tables]; first [reflexivity | exact Hrows]).
  cbn [LOCAL_CACHE]. now rewrite lookup_insert_eq.
Qed.

Lemma getLocalKey_split (g1 g2 m1 m2 : string) :
  colonFree g1 = true ->
  colonFree g2 = true ->
  (g1 ++ ":" ++ m1)%string = (g2 ++ ":" ++ m2)%string ->
  g1 = g2 /\ m1 = m2.
Proof.
  revert g2. induction g1 as [|a g1 IH]; intros [|b g2] Hfree1 Hfree2 Hsame;
    cbn in Hsame, Hfree1, Hfree2.
  - injection Hsame as Hsame. now split.
  - injection Hsame as Hhead _. subst b. discriminate.
  - injection Hsame as Hhead _. subst a. discriminate.
  - injection Hsame as Hhead Htail. subst b.
    apply andb_true_iff in Hfree1 as [_ Hfree1].
    apply andb_true_iff in Hfree2 as [_ Hfree2].
    destruct (IH g2 Hfree1 Hfree2 Htail) as [-> ->]. now split.
Qed.

(** Two members of guilds whose identifiers hold no colon have the same
    cache key only when they are the same member of the same guild. *)
Theorem getLocalKey_injective (a b : GuildMember) :
  colonFree (memberGuild a) = true ->
  colonFree (memberGuild b) = true ->
  getLocalKey a = getLocalKey b ->
  a = b.
Proof.
  intros Hfree_a Hfree_b Hsame. unfold getLocalKey in Hsame.
  destruct (getLocalKey_split _ _ _ _ Hfree_a Hfree_b Hsame) as [Hguild Hmember].
  destruct a, b. cbn in *. now subst.
Qed.

Lemma find_app_miss {A} (f : A -> bool) (l : list A) (x : A) :
  f x = false -> List.find f (l ++ [x]) = List.find f l.
Proof.
  intros Hx. induction l as [|y l IH]; cbn; [now rewrite Hx|].
  destruct (f y); [reflexivity | exact IH].
Qed.

(** Recording a change for one member does not change what [getRecord]
    returns for another. *)
Theorem recordChange_leaves_others (a b : GuildMember) (flags : Z) (useCache : bool)
  (rows : list HouseRecord) (w : World) :
  INIT_COMPLETE w = true ->
  tables w !! TABLE_NAME w = Some rows ->
  colonFree (memberGuild a) = true ->
  colonFree (memberGuild b) = true ->
  a <> b ->
  fst (getRecord b useCache (snd (recordChange a flags w)))
  = fst (getRecord b useCache w).
Proof.
  intros Hinit Htable Hfree_a Hfree_b Hother.
  assert (Hkeys : getLocalKey a <> getLocalKey b)
    by (intros Hsame; apply Hother; unfold getLocalKey in Hsame;
        destruct (getLocalKey_split _ _ _ _ Hfree_a Hfree_b Hsame) as [Hguild Hmember];
        destruct a, b; cbn in *; now subst).
  rewrite (recordChange_run a flags rows w Hinit Htable). cbn [snd].
  rewrite (getRecord_run b useCache rows w Hinit Htable).
  rewrite (getRecord_run b useCache (rows ++ [changeOf a flags (clock w)]))
    by (cbn [INIT_COMPLETE TABLE_NAME tables];
        first [reflexivity | now rewrite lookup_alter_eq, Htable]).
  cbn [LOCAL_CACHE].
  assert (Hcache : (<[getLocalKey a := changeOf a flags (clock w)]>
                      (match rowOf a rows with
                       | Some r => <[getLocalKey a := r]> (LOCAL_CACHE w)
                       | None => LOCAL_CACHE w
                       end)) !! getLocalKey b
                   = LOCAL_CACHE w !! getLocalKey b).
  { rewrite lookup_insert_ne by exact Hkeys.
    destruct (rowOf a rows); [now rewrite lookup_insert_ne|reflexivity]. }
  rewrite Hcache.
  assert (Hrow : List.find
                   (fun r => String.eqb (guildId r) (memberGuild b)
                             && String.eqb (memberId r) (memberIdOf b))
                   (rows ++ [changeOf a flags (clock w)])
                 = List.find
                     (fun r => String.eqb (guildId r) (memberGuild b)
                               && String.eqb (memberId r) (memberIdOf b)) rows).
  { apply find_app_miss. cbn [changeOf guildId memberId].
    destruct (String.eqb_spec (memberGuild a) (memberGuild b)) as [Hg|_]; [|reflexivity].
    destruct (String.eqb_spec (memberIdOf a) (memberIdOf b)) as [Hm|_]; [|reflexivity].
    exfalso. apply Hother. destruct a, b. cbn in *. now subst. }
  rewrite Hrow.
  destruct (if useCache then LOCAL_CACHE w !! getLocalKey b else None); [reflexivity|].
  destruct (List.find _ rows); reflexivity.
Qed.

End Store.

Section StoreSamples.
Import Js HouseRoles StoreNotions HouseSamples StoreScenarios.

(** A new controller over a database without its table. *)
Lemma init_once_witness :
  exists w',
    init (constructor DEFAULT_TABLE_NAME ∅ 0) = (Ok tt, w')
    /\ INIT_COMPLETE w' = true
    /\ TABLE_NAME w' = DEFAULT_TABLE_NAME
    /\ tables w' !! DEFAULT_TABLE_NAME = Some []
    /\ (forall other, other <> DEFAULT_TABLE_NAME -> tables w' !! other = None)
    /\ LOCAL_CACHE w' = ∅
    /\ init w' = (Throw "Controller is already initialized", w').
Proof.
  exact (init_once (constructor DEFAULT_TABLE_NAME ∅ 0) eq_refl).
Defined.

Lemma uninitialized_controller_refuses_witness :
  getRecord bob true (constructor DEFAULT_TABLE_NAME {[ DEFAULT_TABLE_NAME := [bobsHouse] ]} 0)
  = (Throw "Controller must be initialized first",
     constructor DEFAULT_TABLE_NAME {[ DEFAULT_TABLE_NAME := [bobsHouse] ]} 0).
Proof.
  exact (proj1 (uninitialized_controller_refuses bob
                  (constructor DEFAULT_TABLE_NAME {[ DEFAULT_TABLE_NAME := [bobsHouse] ]} 0)
                  eq_refl) true).
Defined.

(** [bob] changes house at time 2000: the next call returns that record,
    and the table holds it after the row it had. *)
Lemma recordChange_then_getRecord_witness :
  exists w',
    recordChange bob 128 warmDatabase = (Ok tt, w')
    /\ getRecord bob true w' = (Ok (Some (changeOf bob 128 2000)), w')
    /\ tables w' !! TABLE_NAME w' = Some [bobsHouse; changeOf bob 128 2000]
    /\ INIT_COMPLETE w' = true.
Proof.
  exact (recordChange_then_getRecord bob 128 [bobsHouse] warmDatabase eq_refl eq_refl).
Defined.

(** The member found under [bob]'s key is [bob]. *)
Lemma getLocalKey_injective_witness :
  bob = {| memberGuild := String.substring 0 2 "7700"; memberIdOf := "2002" |}.
Proof.
  exact (getLocalKey_injective bob
           {| memberGuild := String.substring 0 2 "7700"; memberIdOf := "2002" |}
           eq_refl eq_refl eq_refl).
Defined.

(** A change recorded for [eve] leaves the answer for [bob] as it was. *)
Lemma recordChange_leaves_others_witness :
  fst (getRecord bob true (snd (recordChange eve 64 warmDatabase)))
  = fst (getRecord bob true warmDatabase).
Proof.
  apply (recordChange_leaves_others eve bob 64 true [bobsHouse] warmDatabase
           eq_refl eq_refl eq_refl eq_refl).
  discriminate.
Defined.

End StoreSamples.

(** ** Properties of the house-roles cog *)

Section HouseFlags.
Import Js HouseRolesCog CogNotions.
Local Open Scope Z_scope.

Lemma toInt32_congruent (n : Z) : exists q, toInt32 n = n + q * 2 ^ 32.
Proof.
  unfold toInt32. exists (- ((n + 2 ^ 31) / 2 ^ 32)).
  pose proof (Z.div_mod (n + 2 ^ 31) (2 ^ 32) ltac:(lia)). lia.
Qed.

Lemma toInt32_testbit (n k : Z) :
  0 <= k < 32 -> Z.testbit (toInt32 n) k = Z.testbit n k.
Proof.
  intros Hk. destruct (toInt32_congruent n) as [q ->].
  rewrite <- (Z.mod_pow2_bits_low (n + q * 2 ^ 32) 32 k) by lia.
  rewrite Z_mod_plus_full.
  now rewrite Z.mod_pow2_bits_low by lia.
Qed.

Lemma toInt32_small (n : Z) : - 2 ^ 31 <= n < 2 ^ 31 -> toInt32 n = n.
Proof.
  intros Hn. unfold toInt32. rewrite Z.mod_small; lia.
Qed.

Lemma land_pow2 (a k : Z) :
  0 <= k -> Z.land a (2 ^ k) = if Z.testbit a k then 2 ^ k else 0.
Proof.
  intros Hk. apply Z.bits_inj'. intros i Hi.
  rewrite Z.land_spec, Z.pow2_bits_eqb by lia.
  destruct (Z.eqb_spec k i) as [->|Hne].
  - destruct (Z.testbit a i) eqn:Ha; cbn [andb].
    + rewrite Z.pow2_bits_eqb by lia. now rewrite Z.eqb_refl.
    + now rewrite Z.bits_0.
  - rewrite andb_false_r. destruct (Z.testbit a k).
    + rewrite Z.pow2_bits_eqb by lia. symmetry. now apply Z.eqb_neq.
    + now rewrite Z.bits_0.
Qed.

(** For a flag of one bit, [hasFlag] reads that bit of the flags, whatever
    their size and sign. *)
Lemma hasFlag_bit (flags k : Z) :
  0 <= k < 31 -> hasFlag flags (2 ^ k) = Z.testbit flags k.
Proof.
  intros Hk. unfold hasFlag.
  rewrite (toInt32_small (2 ^ k)).
  - rewrite land_pow2 by lia. rewrite toInt32_testbit by lia.
    destruct (Z.testbit flags k).
    + apply Z.eqb_refl.
    + apply Z.eqb_neq. pose proof (Z.pow_pos_nonneg 2 k ltac:(lia) ltac:(lia)). lia.
  - split.
    + pose proof (Z.pow_pos_nonneg 2 k ltac:(lia) ltac:(lia)). lia.
    + apply Z.pow_lt_mono_r; lia.
Qed.

End HouseFlags.

Section Backend.
Import Js HouseRolesCog CogNotions.

Variable localizeForGuild : string -> string -> Result string.
Variable self : Cog.

(** The three tests of [_checkHouse], in its order. *)
Lemma houses_pushed (flags : Z) :
  (let houses := ([] : list House) in
   let houses :=
     if hasFlag flags DiscordHouse.BALANCE then houses ++ ["balance"] else houses in
   let houses :=
     if hasFlag flags DiscordHouse.BRAVERY then houses ++ ["bravery"] else houses in
   if hasFlag flags DiscordHouse.BRILLIANCE then houses ++ ["brilliance"] else houses)
  = housesOfFlags flags.
Proof.
  unfold housesOfFlags, HOUSE_ROLES, DiscordHouse.BALANCE, DiscordHouse.BRAVERY,
    DiscordHouse.BRILLIANCE.
  change 256%Z with (2 ^ 8)%Z. change 64%Z with (2 ^ 6)%Z. change 128%Z with (2 ^ 7)%Z.
  rewrite !hasFlag_bit by lia.
  cbn [List.filter].
  change (houseBit "balance") with 8%Z. change (houseBit "bravery") with 6%Z.
  change (houseBit "brilliance") with 7%Z.
  destruct (Z.testbit flags 8), (Z.testbit flags 6), (Z.testbit flags 7); reflexivity.
Qed.

Lemma checkHouse_ok (userId token : string) (flags : Z) (w : World) :
  profiles w !! userId = Some (200%Z, flags) ->
  _checkHouse userId token w = (Ok (housesOfFlags flags), w).
Proof.
  intros Hprofile. unfold _checkHouse. rewrite Hprofile. cbn [Z.eqb Pos.eqb negb].
  rewrite <- (houses_pushed flags). reflexivity.
Qed.

(** The houses of a user are read off three bits of the flags of their
    profile (8 for balance, 6 for bravery, 7 for brilliance) and listed in
    the order balance, bravery, brilliance; an answer of the endpoint with
    another status than 200 is a [HousesFetchError]. *)
Theorem checkHouse_reads_house_bits (userId token : string) (status flags : Z)
  (w : World) :
  profiles w !! userId = Some (status, flags) ->
  _checkHouse userId token w
  = if Z.eqb status 200 then (Ok (housesOfFlags flags), w)
    else (Throw HousesFetchError, w).
Proof.
  intros Hprofile. unfold _checkHouse. rewrite Hprofile.
  destruct (Z.eqb status 200); cbn [negb]; [|reflexivity].
  rewrite <- (houses_pushed flags). reflexivity.
Qed.

(** *** Enumeration and lookup of an object *)

Lemma insertIndexed_In {V} (n : N) (p : string * V) (l : list (N * (string * V)))
  (q : N * (string * V)) :
  In q (insertIndexed n p l) <-> q = (n, p) \/ In q l.
Proof.
  induction l as [|[m r] l IH]; cbn [insertIndexed].
  - cbn. intuition.
  - destruct (n <? m)%N; cbn [In]; [intuition|].
    rewrite IH. intuition.
Qed.

Lemma indexedProps_In {V} (o : JsObject V) (q : string * V) :
  In q (map snd (indexedProps o)) <-> In q o /\ isArrayIndex (fst q) = true.
Proof.
  induction o as [|[k v] o IH]; cbn [indexedProps].
  - cbn. intuition.
  - unfold isArrayIndex in *. destruct (arrayIndex k) as [n|] eqn:Hk.
    + rewrite in_map_iff. split.
      * intros ([m r] & <- & Hin). cbn [snd]. apply insertIndexed_In in Hin.
        destruct Hin as [[= -> ->]|Hin].
        -- cbn [fst]. rewrite Hk. split; [now left | reflexivity].
        -- assert (Hr : In r (map snd (indexedProps o)))
             by (apply in_map_iff; now exists (m, r)).
           apply IH in Hr as [Hr Hidx]. split; [now right | exact Hidx].
      * intros [[[= <-]|Hin] Hidx].
        -- exists (n, (k, v)). split; [reflexivity|]. apply insertIndexed_In. now left.
        -- assert (Hr : In q (map snd (indexedProps o))) by (apply IH; now split).
           apply in_map_iff in Hr as ([m r] & <- & Hr).
           exists (m, r). split; [reflexivity|]. apply insertIndexed_In. now right.
    + rewrite IH. split.
      * intros [Hin Hidx]. split; [now right | exact Hidx].
      * intros [[<-|Hin] Hidx]; [|now split].
        cbn [fst] in Hidx. rewrite Hk in Hidx. discriminate.
Qed.

(** [for ... in] visits every property of the object, and nothing else. *)
Lemma forIn_In {V} (o : JsObject V) (q : string * V) : In q (forIn o) <-> In q o.
Proof.
  unfold forIn, namedProps. rewrite in_app_iff, indexedProps_In, filter_In.
  destruct (isArrayIndex (fst q)); cbn [negb]; intuition congruence.
Qed.

Lemma get_In {V} (o : JsObject V) (k : string) (v : V) :
  List.NoDup (keys o) -> (get o k = Some v <-> In (k, v) o).
Proof.
  unfold keys. induction o as [|[k' v'] o IH]; intros Hkeys; cbn [get In].
  - split; [discriminate | contradiction].
  - inversion Hkeys as [|? ? Hfresh Hrest]; subst.
    destruct (String.eqb_spec k k') as [->|Hne].
    + split.
      * intros [= ->]. now left.
      * intros [[= ->]|Hin]; [reflexivity|].
        exfalso. apply Hfresh. cbn [fst]. apply in_map_iff. now exists (k', v).
    + rewrite (IH Hrest). split; [now right|].
      intros [[= Hk _]|Hin]; [congruence | exact Hin].
Qed.

(** *** Role edits *)

Lemma rolesOf_insert_same (w : World) (member : GuildMember) (held : list string) :
  rolesOf (withMemberRoles (insert (memberId member) held) w) member = held.
Proof.
  unfold rolesOf. cbn [withMemberRoles memberRoles]. now rewrite lookup_insert_eq.
Qed.

Lemma rolesOf_insert_other (w : World) (member other : GuildMember) (held : list string) :
  memberId other <> memberId member ->
  rolesOf (withMemberRoles (insert (memberId member) held) w) other = rolesOf w other.
Proof.
  intros Hother. unfold rolesOf. cbn [withMemberRoles memberRoles].
  rewrite lookup_insert_ne; [reflexivity | congruence].
Qed.

Lemma existsb_eqb_snoc (r r' : string) (held : list string) :
  existsb (String.eqb r') (held ++ [r]) = existsb (String.eqb r') held || String.eqb r' r.
Proof.
  rewrite existsb_app. cbn [existsb]. now rewrite orb_false_r.
Qed.

Lemma existsb_eqb_filter (r r' : string) (held : list string) :
  existsb (String.eqb r') (List.filter (fun h => negb (String.eqb h r)) held)
  = existsb (String.eqb r') held && negb (String.eqb r' r).
Proof.
  induction held as [|h held IH]; [reflexivity|].
  cbn [List.filter existsb]. destruct (String.eqb_spec h r) as [->|Hh]; cbn [negb existsb].
  - rewrite IH. destruct (String.eqb r' r); cbn [orb negb]; [|reflexivity].
    now rewrite !andb_false_r.
  - rewrite IH. destruct (String.eqb_spec r' h) as [->|Hr]; cbn [orb]; [|reflexivity].
    destruct (String.eqb_spec h r); [contradiction|]. cbn [negb].
    now rewrite andb_true_r.
Qed.

Lemma onlyRolesTouched_refl (w : World) (member : GuildMember) (touched : list string) :
  onlyRolesTouched w w member touched.
Proof. repeat split. Qed.

Lemma onlyRolesTouched_trans (w w1 w2 : World) (member : GuildMember)
  (touched1 touched2 : list string) :
  onlyRolesTouched w w1 member touched1 ->
  onlyRolesTouched w1 w2 member touched2 ->
  onlyRolesTouched w w2 member (touched1 ++ touched2).
Proof.
  intros (Hr1 & Ho1 & Hl1 & Hp1 & Hm1 & Hs1 & Hg1) (Hr2 & Ho2 & Hl2 & Hp2 & Hm2 & Hs2 & Hg2).
  repeat split; try congruence.
  - intros r Hr. rewrite in_app_iff in Hr.
    rewrite Hr2, Hr1; [reflexivity | tauto | tauto].
  - intros other Hother. now rewrite Ho2, Ho1.
Qed.

Lemma rolesAdd_unlocked (member : GuildMember) (r reason : string) (w : World) :
  rolesLocked w = false ->
  exists w',
    rolesAdd member (Some r) reason w = (Ok tt, w')
    /\ rolesHas w' member (Some r) = true
    /\ onlyRolesTouched w w' member [r]
    /\ edits w' = edits w ++ [AddRole (memberId member) r reason].
Proof.
  intros Hunlocked. unfold rolesAdd. cbv zeta. cbn [withEdits rolesLocked].
  rewrite Hunlocked.
  eexists. split; [reflexivity|].
  unfold rolesHas. rewrite rolesOf_insert_same.
  change (rolesOf (withEdits _ w) member) with (rolesOf w member).
  split; [|split; [|reflexivity]].
  - destruct (existsb (String.eqb r) (rolesOf w member)) eqn:Hheld; [exact Hheld|].
    rewrite existsb_eqb_snoc, String.eqb_refl. apply orb_true_r.
  - repeat split.
    + intros r' Hr'. unfold rolesHas. rewrite rolesOf_insert_same.
      change (rolesOf (withEdits _ w) member) with (rolesOf w member).
      destruct (existsb (String.eqb r) (rolesOf w member)); [reflexivity|].
      rewrite existsb_eqb_snoc.
      destruct (String.eqb_spec r' r) as [->|_]; [|apply orb_false_r].
      exfalso. apply Hr'. now left.
    + intros other Hother. now rewrite rolesOf_insert_other.
Qed.

Lemma rolesRemove_unlocked (member : GuildMember) (r reason : string) (w : World) :
  rolesLocked w = false ->
  exists w',
    rolesRemove member (Some r) reason w = (Ok tt, w')
    /\ rolesHas w' member (Some r) = false
    /\ onlyRolesTouched w w' member [r]
    /\ edits w' = edits w ++ [RemoveRole (memberId member) r reason].
Proof.
  intros Hunlocked. unfold rolesRemove. cbv zeta. cbn [withEdits rolesLocked].
  rewrite Hunlocked.
  eexists. split; [reflexivity|].
  unfold rolesHas. rewrite rolesOf_insert_same.
  change (rolesOf (withEdits _ w) member) with (rolesOf w member).
  split; [|split; [|reflexivity]].
  - rewrite existsb_eqb_filter, String.eqb_refl. apply andb_false_r.
  - repeat split.
    + intros r' Hr'. unfold rolesHas. rewrite rolesOf_insert_same.
      change (rolesOf (withEdits _ w) member) with (rolesOf w member).
      rewrite existsb_eqb_filter.
      destruct (String.eqb_spec r' r) as [->|_]; [|apply andb_true_r].
      exfalso. apply Hr'. now left.
    + intros other Hother. now rewrite rolesOf_insert_other.
Qed.

(** *** Reconciliation of the house roles *)

(** The houses [_memberHavesRoles] lists are those whose configured role
    the member holds. *)
Lemma memberHavesRoles_includes (member : GuildMember) (house : House) (r : string)
  (w : World) :
  List.NoDup (keys (_houseRoles self)) ->
  get (_houseRoles self) house = Some r ->
  includesHouse
    (map fst (List.filter (fun p => rolesHas w member (Some (snd p)))
                (forIn (_houseRoles self)))) house
  = rolesHas w member (Some r).
Proof.
  intros Hkeys Hrole. apply Bool.eq_iff_eq_true. unfold includesHouse.
  rewrite existsb_exists. split.
  - intros (h & Hin & Hh). apply String.eqb_eq in Hh. subst h.
    apply in_map_iff in Hin as ([h r'] & Hfst & Hin). cbn [fst] in Hfst. subst h.
    apply filter_In in Hin as [Hin Hheld]. cbn [snd] in Hheld.
    apply forIn_In, (get_In _ _ _ Hkeys) in Hin. congruence.
  - intros Hheld. exists house. split; [|apply String.eqb_refl].
    apply in_map_iff. exists (house, r). split; [reflexivity|].
    apply filter_In. split; [|exact Hheld].
    now apply forIn_In, (get_In _ _ _ Hkeys).
Qed.

Lemma includes_housesOfFlags (flags : Z) :
  includesHouse (housesOfFlags flags) "balance" = Z.testbit flags 8
  /\ includesHouse (housesOfFlags flags) "bravery" = Z.testbit flags 6
  /\ includesHouse (housesOfFlags flags) "brilliance" = Z.testbit flags 7.
Proof.
  unfold housesOfFlags, HOUSE_ROLES. cbn [List.filter].
  change (houseBit "balance") with 8%Z. change (houseBit "bravery") with 6%Z.
  change (houseBit "brilliance") with 7%Z.
  destruct (Z.testbit flags 8), (Z.testbit flags 6), (Z.testbit flags 7);
    repeat split.
Qed.

(** One round of the loop of [_assign]. *)
Lemma assignLoop_step (member : GuildMember) (mRoles mHouses : list House)
  (house : House) (rest : list House) (changes : bool) (r : string) (w : World) :
  get (_houseRoles self) house = Some r ->
  includesHouse mRoles house = rolesHas w member (Some r) ->
  rolesLocked w = false ->
  (forall key, exists reason, localizeForGuild (memberGuild member) key = Ok reason) ->
  exists w' changes',
    assignLoop localizeForGuild self member mRoles mHouses (house :: rest) changes w
    = assignLoop localizeForGuild self member mRoles mHouses rest changes' w'
    /\ rolesHas w' member (Some r) = includesHouse mHouses house
    /\ onlyRolesTouched w w' member [r]
    /\ (changes' = false -> changes = false /\ w' = w).
Proof.
  intros Hrole Hsnapshot Hunlocked Hlocalize.
  cbn [assignLoop]. rewrite Hrole, Hsnapshot.
  destruct (rolesHas w member (Some r)) eqn:Hheld,
    (includesHouse mHouses house) eqn:Hin; cbn [Bool.eqb negb andb].
  - exists w, changes. repeat split; assumption.
  - destruct (Hlocalize "DNSERV_HOUSEROLE_AUDITLOG@DEASSIGN") as [reason Hreason].
    destruct (rolesRemove_unlocked member r reason w Hunlocked)
      as (w' & Hrun & Hgone & Hframe & _).
    exists w', true. run. rewrite Hreason, Hrun.
    split; [reflexivity|]. split; [assumption|]. split; [assumption|]. discriminate.
  - destruct (Hlocalize "DNSERV_HOUSEROLE_AUDITLOG@ASSIGN") as [reason Hreason].
    destruct (rolesAdd_unlocked member r reason w Hunlocked)
      as (w' & Hrun & Hthere & Hframe & _).
    exists w', true. run. rewrite Hreason, Hrun.
    split; [reflexivity|]. split; [assumption|]. split; [assumption|]. discriminate.
  - exists w, changes. repeat split; assumption.
Qed.

Lemma assignLoop_houses (member : GuildMember) (mRoles mHouses : list House)
  (balance bravery brilliance : string) (w : World) :
  rolesConfigured (_houseRoles self) balance bravery brilliance ->
  includesHouse mRoles "balance" = rolesHas w member (Some balance) ->
  includesHouse mRoles "bravery" = rolesHas w member (Some bravery) ->
  includesHouse mRoles "brilliance" = rolesHas w member (Some brilliance) ->
  rolesLocked w = false ->
  (forall key, exists reason, localizeForGuild (memberGuild member) key = Ok reason) ->
  exists w' changes,
    assignLoop localizeForGuild self member mRoles mHouses HOUSE_ROLES false w
    = (Ok changes, w')
    /\ rolesHas w' member (Some balance) = includesHouse mHouses "balance"
    /\ rolesHas w' member (Some bravery) = includesHouse mHouses "bravery"
    /\ rolesHas w' member (Some brilliance) = includesHouse mHouses "brilliance"
    /\ onlyRolesTouched w w' member [balance; bravery; brilliance]
    /\ (changes = false -> w' = w).
Proof.
  intros (Hkeys & Hbalance & Hbravery & Hbrilliance & Hab & Hac & Hbc)
    Hsnap1 Hsnap2 Hsnap3 Hunlocked Hlocalize.
  unfold HOUSE_ROLES.
  destruct (assignLoop_step member mRoles mHouses "balance" ["bravery"; "brilliance"]
              false balance w Hbalance Hsnap1 Hunlocked Hlocalize)
    as (w1 & c1 & Hrun1 & Hdone1 & Hframe1 & Hsame1).
  pose proof Hframe1 as (Hkeep1 & _ & Hlock1 & _).
  assert (Hsnap2' : includesHouse mRoles "bravery" = rolesHas w1 member (Some bravery))
    by (rewrite Hkeep1; [exact Hsnap2 | intros [Heq|[]]; congruence]).
  assert (Hsnap3' : includesHouse mRoles "brilliance" = rolesHas w1 member (Some brilliance))
    by (rewrite Hkeep1; [exact Hsnap3 | intros [Heq|[]]; congruence]).
  destruct (assignLoop_step member mRoles mHouses "bravery" ["brilliance"]
              c1 bravery w1 Hbravery Hsnap2' ltac:(congruence) Hlocalize)
    as (w2 & c2 & Hrun2 & Hdone2 & Hframe2 & Hsame2).
  pose proof Hframe2 as (Hkeep2 & _ & Hlock2 & _).
  assert (Hsnap3'' : includesHouse mRoles "brilliance"
                     = rolesHas w2 member (Some brilliance))
    by (rewrite Hkeep2; [exact Hsnap3' | intros [Heq|[]]; congruence]).
  destruct (assignLoop_step member mRoles mHouses "brilliance" []
              c2 brilliance w2 Hbrilliance Hsnap3'' ltac:(congruence) Hlocalize)
    as (w3 & c3 & Hrun3 & Hdone3 & Hframe3 & Hsame3).
  pose proof Hframe3 as (Hkeep3 & _).
  exists w3, c3. unfold House in *. split; [now rewrite Hrun1, Hrun2, Hrun3|].
  split; [|split; [|split; [|split]]].
  - rewrite Hkeep3, Hkeep2; [exact Hdone1 | |]; intros [Heq|[]]; congruence.
  - rewrite Hkeep3; [exact Hdone2 | intros [Heq|[]]; congruence].
  - exact Hdone3.
  - exact (onlyRolesTouched_trans _ _ _ _ _ _
             (onlyRolesTouched_trans _ _ _ _ _ _ Hframe1 Hframe2) Hframe3).
  - intros Hc3. destruct (Hsame3 Hc3) as [Hc2 ->].
    destruct (Hsame2 Hc2) as [Hc1 ->]. now destruct (Hsame1 Hc1) as [_ ->].
Qed.

Lemma assign_run (member : GuildMember) (flags : Z) (w : World) :
  profiles w !! memberId member = Some (200%Z, flags) ->
  _assign localizeForGuild self member w
  = (let mRoles :=
       map fst (List.filter (fun p => rolesHas w member (Some (snd p)))
                  (forIn (_houseRoles self))) in
     if (Nat.eqb (length mRoles) 0 && Nat.eqb (length (housesOfFlags flags)) 0)%bool
     then (Ok (false, None), w)
     else
       match assignLoop localizeForGuild self member mRoles (housesOfFlags flags)
               HOUSE_ROLES false w with
       | (Ok changes, w') => (Ok (changes, Some (housesOfFlags flags)), w')
       | (Throw e, w') => (Throw e, w')
       end).
Proof.
  intros Hprofile. unfold _assign, _memberHavesRoles. run.
  rewrite (checkHouse_ok _ _ _ _ Hprofile).
  cbv zeta.
  destruct (_ && _)%bool; [reflexivity|].
  destruct (assignLoop _ _ _ _ _ _ _ w) as [[changes|e] w']; reflexivity.
Qed.

(** [_assign] brings the house roles of a member in line with the houses
    of their profile: afterwards the member holds the role of a house
    exactly when the bit of that house is set. Of this member no other
    role, and of no other member any role, is touched; no message is sent.
    When it reports no change, nothing was changed. *)
Theorem assign_reconciles (member : GuildMember) (balance bravery brilliance : string)
  (flags : Z) (w : World) :
  rolesConfigured (_houseRoles self) balance bravery brilliance ->
  profiles w !! memberId member = Some (200%Z, flags) ->
  rolesLocked w = false ->
  (forall key, exists reason, localizeForGuild (memberGuild member) key = Ok reason) ->
  exists w' changes current,
    _assign localizeForGuild self member w = (Ok (changes, current), w')
    /\ rolesHas w' member (Some balance) = Z.testbit flags 8
    /\ rolesHas w' member (Some bravery) = Z.testbit flags 6
    /\ rolesHas w' member (Some brilliance) = Z.testbit flags 7
    /\ onlyRolesTouched w w' member [balance; bravery; brilliance]
    /\ (current = None \/ current = Some (housesOfFlags flags))
    /\ (changes = false -> w' = w).
Proof.
  intros Hconfigured Hprofile Hunlocked Hlocalize.
  pose proof Hconfigured as (Hkeys & Hbalance & Hbravery & Hbrilliance & _).
  rewrite (assign_run member flags w Hprofile). cbv zeta.
  set (mRoles := map fst (List.filter (fun p => rolesHas w member (Some (snd p)))
                            (forIn (_houseRoles self)))).
  pose proof (memberHavesRoles_includes member "balance" balance w Hkeys Hbalance)
    as Hsnap1.
  pose proof (memberHavesRoles_includes member "bravery" bravery w Hkeys Hbravery)
    as Hsnap2.
  pose proof (memberHavesRoles_includes member "brilliance" brilliance w Hkeys Hbrilliance)
    as Hsnap3.
  fold mRoles in Hsnap1, Hsnap2, Hsnap3.
  destruct (includes_housesOfFlags flags) as (Hbit1 & Hbit2 & Hbit3).
  destruct (Nat.eqb (length mRoles) 0 && Nat.eqb (length (housesOfFlags flags)) 0)%bool
    eqn:Hnothing.
  - apply andb_true_iff in Hnothing as [Hnone Hhouseless].
    apply Nat.eqb_eq in Hnone, Hhouseless.
    apply length_zero_iff_nil in Hnone, Hhouseless.
    rewrite Hnone in Hsnap1, Hsnap2, Hsnap3.
    rewrite Hhouseless in Hbit1, Hbit2, Hbit3.
    cbn [includesHouse existsb] in Hsnap1, Hsnap2, Hsnap3, Hbit1, Hbit2, Hbit3.
    exists w, false, None. split; [reflexivity|].
    split; [congruence|]. split; [congruence|]. split; [congruence|].
    split; [apply onlyRolesTouched_refl|]. split; [now left | reflexivity].
  - destruct (assignLoop_houses member mRoles (housesOfFlags flags) balance bravery
                brilliance w Hconfigured Hsnap1 Hsnap2 Hsnap3 Hunlocked Hlocalize)
      as (w' & changes & Hrun & Hdone1 & Hdone2 & Hdone3 & Hframe & Hsame).
    rewrite Hrun. exists w', changes, (Some (housesOfFlags flags)).
    split; [reflexivity|].
    split; [congruence|]. split; [congruence|]. split; [congruence|].
    split; [exact Hframe|]. split; [now right | exact Hsame].
Qed.

(** A member whose house roles already agree with their houses is left
    alone: [_assign] reports no change and asks for no edit. *)
Theorem assign_in_agreement_is_noop (member : GuildMember)
  (balance bravery brilliance : string) (flags : Z) (w : World) :
  rolesConfigured (_houseRoles self) balance bravery brilliance ->
  profiles w !! memberId member = Some (200%Z, flags) ->
  rolesHas w member (Some balance) = Z.testbit flags 8 ->
  rolesHas w member (Some bravery) = Z.testbit flags 6 ->
  rolesHas w member (Some brilliance) = Z.testbit flags 7 ->
  exists current,
    _assign localizeForGuild self member w = (Ok (false, current), w)
    /\ (current = None \/ current = Some (housesOfFlags flags)).
Proof.
  intros (Hkeys & Hbalance & Hbravery & Hbrilliance & _) Hprofile Hagree1 Hagree2 Hagree3.
  rewrite (assign_run member flags w Hprofile). cbv zeta.
  set (mRoles := map fst (List.filter (fun p => rolesHas w member (Some (snd p)))
                            (forIn (_houseRoles self)))).
  pose proof (memberHavesRoles_includes member "balance" balance w Hkeys Hbalance)
    as Hsnap1.
  pose proof (memberHavesRoles_includes member "bravery" bravery w Hkeys Hbravery)
    as Hsnap2.
  pose proof (memberHavesRoles_includes member "brilliance" brilliance w Hkeys Hbrilliance)
    as Hsnap3.
  fold mRoles in Hsnap1, Hsnap2, Hsnap3.
  destruct (includes_housesOfFlags flags) as (Hbit1 & Hbit2 & Hbit3).
  destruct (_ && _)%bool.
  - exists None. split; [reflexivity | now left].
  - exists (Some (housesOfFlags flags)). split; [|now right].
    unfold HOUSE_ROLES. cbn [assignLoop].
    rewrite Hsnap1, Hsnap2, Hsnap3, Hbit1, Hbit2, Hbit3, Hagree1, Hagree2, Hagree3.
    rewrite !Bool.eqb_reflx. reflexivity.
Qed.

(** One round of the loop of [_deassign]. *)
Lemma deassignLoop_step (member : GuildMember) (house : House) (rest : list House)
  (removedHouses : list House) (r : string) (w : World) :
  get (_houseRoles self) house = Some r ->
  rolesLocked w = false ->
  (forall key, exists reason, localizeForGuild (memberGuild member) key = Ok reason) ->
  exists w',
    deassignLoop localizeForGuild self member (house :: rest) removedHouses w
    = deassignLoop localizeForGuild self member rest
        (if rolesHas w member (Some r) then removedHouses ++ [house] else removedHouses) w'
    /\ rolesHas w' member (Some r) = false
    /\ onlyRolesTouched w w' member [r].
Proof.
  intros Hrole Hunlocked Hlocalize. cbn [deassignLoop]. rewrite Hrole. run.
  destruct (rolesHas w member (Some r)) eqn:Hheld; cbn [negb].
  - destruct (Hlocalize "DNSERV_HOUSEROLE_AUDITLOG@DEASSIGN") as [reason Hreason].
    destruct (rolesRemove_unlocked member r reason w Hunlocked)
      as (w' & Hrun & Hgone & Hframe & _).
    exists w'. rewrite Hreason, Hrun. split; [reflexivity|]. split; assumption.
  - exists w. split; [reflexivity|]. split; [exact Hheld | apply onlyRolesTouched_refl].
Qed.

(** [_deassign] takes every house role from the member: afterwards they
    hold none of the three. It returns the houses whose role they held, in
    the order balance, bravery, brilliance, or [null] when they held none.
    No other role of this member and no role of another member is
    touched; no message is sent. *)
Theorem deassign_strips_house_roles (member : GuildMember)
  (balance bravery brilliance : string) (w : World) :
  rolesConfigured (_houseRoles self) balance bravery brilliance ->
  rolesLocked w = false ->
  (forall key, exists reason, localizeForGuild (memberGuild member) key = Ok reason) ->
  exists w',
    _deassign localizeForGuild self member w
    = (Ok match
            List.filter (fun house => rolesHas w member (get (_houseRoles self) house))
              HOUSE_ROLES
          with
          | [] => None
          | removed => Some removed
          end, w')
    /\ rolesHas w' member (Some balance) = false
    /\ rolesHas w' member (Some bravery) = false
    /\ rolesHas w' member (Some brilliance) = false
    /\ onlyRolesTouched w w' member [balance; bravery; brilliance].
Proof.
  intros (Hkeys & Hbalance & Hbravery & Hbrilliance & Hab & Hac & Hbc) Hunlocked Hlocalize.
  destruct (deassignLoop_step member "balance" ["bravery"; "brilliance"] [] balance w
              Hbalance Hunlocked Hlocalize) as (w1 & Hrun1 & Hgone1 & Hframe1).
  pose proof Hframe1 as (Hkeep1 & _ & Hlock1 & _).
  destruct (deassignLoop_step member "bravery" ["brilliance"]
              (if rolesHas w member (Some balance) then [] ++ ["balance"] else [])
              bravery w1 Hbravery ltac:(congruence) Hlocalize)
    as (w2 & Hrun2 & Hgone2 & Hframe2).
  pose proof Hframe2 as (Hkeep2 & _ & Hlock2 & _).
  destruct (deassignLoop_step member "brilliance" []
              (if rolesHas w1 member (Some bravery)
               then (if rolesHas w member (Some balance) then [] ++ ["balance"] else [])
                    ++ ["bravery"]
               else if rolesHas w member (Some balance) then [] ++ ["balance"] else [])
              brilliance w2 Hbrilliance ltac:(congruence) Hlocalize)
    as (w3 & Hrun3 & Hgone3 & Hframe3).
  pose proof Hframe3 as (Hkeep3 & _).
  exists w3. unfold House in *. split.
  - unfold _deassign, HOUSE_ROLES. run. unfold House in *. rewrite Hrun1, Hrun2, Hrun3.
    cbn [deassignLoop List.filter]. rewrite Hbalance, Hbravery, Hbrilliance.
    rewrite (Hkeep2 brilliance) by (intros [Heq|[]]; congruence).
    rewrite (Hkeep1 brilliance) by (intros [Heq|[]]; congruence).
    rewrite (Hkeep1 bravery) by (intros [Heq|[]]; congruence).
    run.
    destruct (rolesHas w member (Some balance)), (rolesHas w member (Some bravery)),
      (rolesHas w member (Some brilliance)); reflexivity.
  - split; [|split; [|split]].
    + rewrite Hkeep3, Hkeep2; [exact Hgone1 | |]; intros [Heq|[]]; congruence.
    + rewrite Hkeep3; [exact Hgone2 | intros [Heq|[]]; congruence].
    + exact Hgone3.
    + exact (onlyRolesTouched_trans _ _ _ _ _ _
               (onlyRolesTouched_trans _ _ _ _ _ _ Hframe1 Hframe2) Hframe3).
Qed.

End Backend.

Section CommandsFacts.
Import Js HouseRolesCog CogNotions.

Variable getMessageMember : Message -> M World (option GuildMember).
Variable resolveGuildMember : string -> Message -> M World (option GuildMember).
Variable generateLocalizedEmbed : EmbedType -> GuildMember -> EmbedText -> Result string.
Variable localizeForUser : GuildMember -> string -> Result string.
Variable localizeForGuild : string -> string -> Result string.
Variable self : Cog.

(** A member without the permission to manage roles who names another
    member in [assign] or [remove] is silently ignored: no role is edited,
    no message is sent and nothing is logged. *)
Theorem stranger_cannot_manage (ctx : IMessageFlowContext) (sub first : string)
  (rest : list string) (sender target : GuildMember) (w w1 w2 : World) :
  guildId (message ctx) = Some (_guildId self) ->
  subCommand (parsed ctx) = Some sub ->
  sub = "assign" \/ sub = "remove" ->
  arguments (parsed ctx) = Some (first :: rest) ->
  strTruthy first = true ->
  getMessageMember (message ctx) w = (Ok (Some sender), w1) ->
  resolveGuildMember first (message ctx) w1 = (Ok (Some target), w2) ->
  manageRoles sender = false ->
  memberId target <> memberId sender ->
  _onMessage getMessageMember resolveGuildMember generateLocalizedEmbed localizeForUser
    localizeForGuild self ctx w
  = (Ok tt, w2).
Proof.
  intros Hguild Hsub Hwhich Hargs Hfirst Hsender Htarget Hplain Hother.
  unfold _onMessage. rewrite Hguild, Hsub, Hargs, String.eqb_refl. cbn [negb].
  unfold tryCatch.
  apply String.eqb_neq in Hother.
  destruct Hwhich as [-> | ->]; cbn [String.eqb Ascii.eqb Bool.eqb andb].
  - unfold _assignTo. run. rewrite Hsender, Hargs, Htarget.
    unfold canManageHouseRole. now rewrite Hplain, Hother.
  - unfold _deassignFrom. run. rewrite Hsender, Hargs, Hfirst, Htarget.
    unfold canManageHouseRole. now rewrite Hplain, Hother.
Qed.

(** The command handler never throws. A command from another guild is
    ignored without any effect. A command of the guild is carried out, and
    when it returns the handler leaves the world as the command left it;
    when it throws, the error is caught and logged as an error, with
    nothing else changed after the point of failure. *)
Theorem onMessage_never_throws :
  (forall ctx w,
      exists w',
        _onMessage getMessageMember resolveGuildMember generateLocalizedEmbed
          localizeForUser localizeForGuild self ctx w
        = (Ok tt, w'))
  /\ (forall ctx w,
         guildId (message ctx) <> Some (_guildId self) ->
         _onMessage getMessageMember resolveGuildMember generateLocalizedEmbed
           localizeForUser localizeForGuild self ctx w
         = (Ok tt, w))
  /\ (forall ctx w w1,
         guildId (message ctx) = Some (_guildId self) ->
         dispatch getMessageMember resolveGuildMember generateLocalizedEmbed
           localizeForUser localizeForGuild self ctx w
         = (Ok tt, w1) ->
         _onMessage getMessageMember resolveGuildMember generateLocalizedEmbed
           localizeForUser localizeForGuild self ctx w
         = (Ok tt, w1))
  /\ (forall ctx w err w1,
         guildId (message ctx) = Some (_guildId self) ->
         dispatch getMessageMember resolveGuildMember generateLocalizedEmbed
           localizeForUser localizeForGuild self ctx w
         = (Throw err, w1) ->
         _onMessage getMessageMember resolveGuildMember generateLocalizedEmbed
           localizeForUser localizeForGuild self ctx w
         = (Ok tt, withLogged (logged w1 ++ [commandFailed err]) w1)).
Proof.
  assert (Hrun : forall ctx w,
             guildId (message ctx) = Some (_guildId self) ->
             _onMessage getMessageMember resolveGuildMember generateLocalizedEmbed
               localizeForUser localizeForGuild self ctx w
             = match dispatch getMessageMember resolveGuildMember generateLocalizedEmbed
                       localizeForUser localizeForGuild self ctx w with
               | (Ok tt, w1) => (Ok tt, w1)
               | (Throw err, w1) =>
                   (Ok tt, withLogged (logged w1 ++ [commandFailed err]) w1)
               end).
  { intros ctx w Hguild. unfold _onMessage, dispatch, tryCatch, commandFailed.
    rewrite Hguild, String.eqb_refl. cbn [negb].
    destruct (subCommand (parsed ctx)) as [sub|];
      [destruct (String.eqb sub "assign");
         [|destruct (String.eqb sub "remove")];
         try destruct (arguments (parsed ctx))|];
      match goal with
      | |- context [let (_, _) := ?body in _] => destruct body as [[[]|err] w1]
      end; reflexivity. }
  split; [|split; [|split]].
  - intros ctx w. unfold _onMessage.
    destruct (guildId (message ctx)) as [g|]; [|now exists w].
    destruct (String.eqb g (_guildId self)); cbn [negb]; [|now exists w].
    unfold tryCatch.
    match goal with
    | |- context [match ?body w with _ => _ end] => destruct (body w) as [[[]|err] w1]
    end.
    + now exists w1.
    + eexists. reflexivity.
  - intros ctx w Hforeign. unfold _onMessage.
    destruct (guildId (message ctx)) as [g|]; [|reflexivity].
    destruct (String.eqb_spec g (_guildId self)) as [->|_]; [contradiction | reflexivity].
  - intros ctx w w1 Hguild Hdone. now rewrite (Hrun ctx w Hguild), Hdone.
  - intros ctx w err w1 Hguild Hthrown. now rewrite (Hrun ctx w Hguild), Hthrown.
Qed.

(** [remove] with an argument list that is there but empty fails on its
    first argument: the error is caught and logged, and nothing else
    happens. ([assign] with such a list falls back to the member's own
    roles instead.) *)
Theorem remove_without_arguments_is_logged (ctx : IMessageFlowContext)
  (sender : GuildMember) (w w1 : World) :
  guildId (message ctx) = Some (_guildId self) ->
  subCommand (parsed ctx) = Some "remove" ->
  arguments (parsed ctx) = Some [] ->
  getMessageMember (message ctx) w = (Ok (Some sender), w1) ->
  _onMessage getMessageMember resolveGuildMember generateLocalizedEmbed localizeForUser
    localizeForGuild self ctx w
  = (Ok tt,
     withLogged
       (logged w1
        ++ [{| level := "err"; text := "Failed to execute command"; error := "TypeError" |}])
       w1)
  /\ _assignTo getMessageMember resolveGuildMember generateLocalizedEmbed localizeForUser
       localizeForGuild self ctx w
     = _selfAssign getMessageMember generateLocalizedEmbed localizeForUser
         localizeForGuild self ctx w1.
Proof.
  intros Hguild Hsub Hargs Hsender. split.
  - unfold _onMessage. rewrite Hguild, Hsub, Hargs, String.eqb_refl. cbn [negb].
    cbn [String.eqb Ascii.eqb Bool.eqb andb]. unfold tryCatch, _deassignFrom. run.
    now rewrite Hsender, Hargs.
  - unfold _assignTo. run. now rewrite Hsender, Hargs.
Qed.

(** When the profile of the member cannot be fetched, a request to assign
    one's own roles edits no role: the member is sent the reply for a
    failure of the lookup, and nothing else happens. *)
Theorem selfAssign_answers_failed_lookup (ctx : IMessageFlowContext)
  (sender : GuildMember) (status flags : Z) (embed : string) (w w1 : World) :
  getMessageMember (message ctx) w = (Ok (Some sender), w1) ->
  profiles w1 !! memberId sender = Some (status, flags) ->
  status <> 200%Z ->
  generateLocalizedEmbed Error sender
    (Formatted "DNSERV_HOUSEROLE_ERR_APIERR@SELF"
       {| houses := None; rolesCount := None; username := Some (mention sender) |})
  = Ok embed ->
  existsb (String.eqb (channelId (message ctx))) (mutedChannels w1) = false ->
  _selfAssign getMessageMember generateLocalizedEmbed localizeForUser localizeForGuild
    self ctx w
  = (Ok tt, withSent (sent w1 ++ [(channelId (message ctx), embed)]) w1).
Proof.
  intros Hsender Hprofile Hstatus Hembed Hheard.
  unfold _selfAssign. run. rewrite Hsender.
  unfold tryWith, _assign, _memberHavesRoles, _checkHouse. run.
  rewrite Hprofile.
  apply Z.eqb_neq in Hstatus. rewrite Hstatus. cbn [negb].
  unfold _onError, channelSend. run.
  cbn [String.eqb Ascii.eqb Bool.eqb HousesFetchError andb].
  rewrite ?String.eqb_refl. cbv beta iota delta [String.append].
  rewrite Hembed. now rewrite Hheard.
Qed.

End CommandsFacts.

(** ** Properties of the statistics channels *)

Section Statistics.
Import StatsChannels.
Local Open Scope Z_scope.

(** The first update is scheduled within the minute: the delay is
    positive, at most a minute, and ends on a full minute. *)
Theorem msUntilNextMinute_bounds (seconds milliseconds : Z) :
  0 <= seconds <= 59 ->
  0 <= milliseconds <= 999 ->
  0 < _msUntilNextMinute seconds milliseconds <= ONE_MINUTE
  /\ seconds * 1000 + milliseconds + _msUntilNextMinute seconds milliseconds
     = ONE_MINUTE.
Proof.
  intros Hs Hms. unfold _msUntilNextMinute, ONE_MINUTE. lia.
Qed.

Lemma msUntilNextMinute_bounds_witness :
  0 < _msUntilNextMinute 59 999 <= ONE_MINUTE
  /\ 59 * 1000 + 999 + _msUntilNextMinute 59 999 = ONE_MINUTE.
Proof.
  apply (msUntilNextMinute_bounds 59 999); lia.
Defined.

End Statistics.

Section CogSamples.
Import Js HouseRolesCog CogNotions CogScenarios.

Lemma houses_configured :
  rolesConfigured (_houseRoles houses) "r-balance" "r-bravery" "r-brilliance".
Proof.
  unfold rolesConfigured. cbn.
  split; [repeat constructor; cbn; intuition discriminate|].
  repeat split; discriminate.
Defined.

Lemma echoGuild_total (guild : string) :
  forall key, exists reason, echoGuild guild key = Ok reason.
Proof. intros key. now exists key. Defined.

(** The flags 320 stand for balance and bravery. *)
Lemma checkHouse_reads_house_bits_witness :
  _checkHouse "3001" "token" town = (Ok ["balance"; "bravery"], town)
  /\ _checkHouse "3002" "token" town = (Throw HousesFetchError, town).
Proof.
  split.
  - exact (checkHouse_reads_house_bits "3001" "token" 200 320 town eq_refl).
  - exact (checkHouse_reads_house_bits "3002" "token" 401 0 town eq_refl).
Defined.

(** [dana] gains the roles of balance and bravery and loses the role of
    brilliance. *)
Lemma assign_reconciles_witness :
  exists w' changes current,
    _assign echoGuild houses dana town = (Ok (changes, current), w')
    /\ rolesHas w' dana (Some "r-balance") = true
    /\ rolesHas w' dana (Some "r-bravery") = true
    /\ rolesHas w' dana (Some "r-brilliance") = false
    /\ onlyRolesTouched town w' dana ["r-balance"; "r-bravery"; "r-brilliance"]
    /\ (current = None \/ current = Some ["balance"; "bravery"])
    /\ (changes = false -> w' = town).
Proof.
  exact (assign_reconciles echoGuild houses dana "r-balance" "r-bravery" "r-brilliance"
           320 town houses_configured eq_refl eq_refl (echoGuild_total "77")).
Defined.

Lemma assign_in_agreement_is_noop_witness :
  exists current,
    _assign echoGuild houses dana settled = (Ok (false, current), settled)
    /\ (current = None \/ current = Some ["balance"; "bravery"]).
Proof.
  exact (assign_in_agreement_is_noop echoGuild houses dana "r-balance" "r-bravery"
           "r-brilliance" 320 settled houses_configured eq_refl eq_refl eq_refl eq_refl).
Defined.

(** [dana] held the role of brilliance alone. *)
Lemma deassign_strips_house_roles_witness :
  exists w',
    _deassign echoGuild houses dana town = (Ok (Some ["brilliance"]), w')
    /\ rolesHas w' dana (Some "r-balance") = false
    /\ rolesHas w' dana (Some "r-bravery") = false
    /\ rolesHas w' dana (Some "r-brilliance") = false
    /\ onlyRolesTouched town w' dana ["r-balance"; "r-bravery"; "r-brilliance"].
Proof.
  exact (deassign_strips_house_roles echoGuild houses dana "r-balance" "r-bravery"
           "r-brilliance" town houses_configured eq_refl (echoGuild_total "77")).
Defined.

(** [erin] asks to take the roles of [dana] away: nothing happens. *)
Lemma stranger_cannot_manage_witness :
  _onMessage fromErin toDana keyOnly echoUser echoGuild houses
    (command (Some "remove") (Some ["<@3001>"])) town
  = (Ok tt, town).
Proof.
  refine (stranger_cannot_manage fromErin toDana keyOnly echoUser echoGuild houses
            (command (Some "remove") (Some ["<@3001>"])) "remove" "<@3001>" []
            erin dana town town town eq_refl eq_refl (or_intror eq_refl) eq_refl eq_refl
            eq_refl eq_refl eq_refl _).
  discriminate.
Defined.

Lemma remove_without_arguments_is_logged_witness :
  _onMessage fromErin toDana keyOnly echoUser echoGuild houses
    (command (Some "remove") (Some [])) town
  = (Ok tt,
     withLogged
       [{| level := "err"; text := "Failed to execute command"; error := "TypeError" |}]
       town).
Proof.
  exact (proj1 (remove_without_arguments_is_logged fromErin toDana keyOnly echoUser
                  echoGuild houses (command (Some "remove") (Some [])) erin town town
                  eq_refl eq_refl eq_refl eq_refl)).
Defined.

(** The profile of [erin] cannot be read: she is told so. *)
Lemma selfAssign_answers_failed_lookup_witness :
  _selfAssign fromErin keyOnly echoUser echoGuild houses (command None None) town
  = (Ok tt, withSent [("lobby", "DNSERV_HOUSEROLE_ERR_APIERR@SELF")] town).
Proof.
  refine (selfAssign_answers_failed_lookup fromErin keyOnly echoUser echoGuild houses
            (command None None) erin 401 0 "DNSERV_HOUSEROLE_ERR_APIERR@SELF" town town
            eq_refl eq_refl _ eq_refl eq_refl).
  discriminate.
Defined.

End CogSamples.
